(** * Azure AI Search index export / import: paging and batching loops

    A shallow embedding of [export.py] and [import.py].  Python values are
    modelled as the code has them: [int] arguments that come from the
    command line ([top], [batch_size]) are [Z], lengths and counters that
    only ever grow from [0] by [len(...)] are [nat], a document is an
    ordered association list, and the remote service is an external
    collaborator whose answers are arbitrary.  Effects (prints, transport
    calls, progress-bar updates, the file write) are recorded in a
    chronological trace threaded by a small state-and-exception monad.  The
    [while True] loop of the exporter runs on fuel: [Diverge] is a run that
    has not left the loop within the passes given. *)

From Stdlib Require Import String List ZArith Lia Bool Arith Sorted.
Import ListNotations.

Set Implicit Arguments.

(** ** Python values *)

#[local] Unset Elimination Schemes.

Inductive json : Type :=
| JNull
| JBool (b : bool)
| JNum (z : Z)
| JStr (s : string)
| JArr (items : list json)
| JObj (fields : list (string * json)).

#[local] Set Elimination Schemes.

(** A document: field name to JSON value, in insertion order. *)
Definition Record : Type := list (string * json).

(** [str(e)] of a raised exception. *)
Definition exn : Type := string.

(** What a call that comes back gives: a value or a raised exception. *)
Inductive result (A : Type) : Type :=
| Value (a : A)
| Error (e : exn).

Arguments Error {A} e.

(** Result of running a piece of Python: a value, a raised exception, or a
    [while True] loop that has not stopped within the fuel given. *)
Inductive outcome (A : Type) : Type :=
| Ok (a : A)
| Raise (e : exn)
| Diverge.

Arguments Raise {A} e.
Arguments Diverge {A}.

(** Truthiness of an optional [int] argument: [None] and [0] are falsy. *)
Definition truthy (top : option Z) : bool :=
  match top with
  | None => false
  | Some z => negb (z =? 0)%Z
  end.

(** Truthiness of a list. *)
Definition nonempty {A : Type} (l : list A) : bool :=
  match l with
  | [] => false
  | _ :: _ => true
  end.

(** Python slice bound: negative bounds count from the end, and every bound
    is clamped to [0 .. len]. *)
Definition slice_bound (len : nat) (i : Z) : nat :=
  let n := Z.of_nat len in
  Z.to_nat (if (i <? 0)%Z then Z.max 0 (i + n) else Z.min i n).

(** [l[lo:hi]] *)
Definition py_slice {A : Type} (l : list A) (lo hi : Z) : list A :=
  let a := slice_bound (length l) lo in
  let b := slice_bound (length l) hi in
  firstn (b - a) (skipn a l).

(** [l[:hi]] *)
Definition py_slice_to {A : Type} (l : list A) (hi : Z) : list A :=
  firstn (slice_bound (length l) hi) l.

(** Number of elements of [range(start, stop, step)] for [step <> 0]. *)
Definition range_len (start stop step : Z) : nat :=
  if (0 <? step)%Z
  then Z.to_nat ((stop - start + step - 1) / step)
  else Z.to_nat ((start - stop - step - 1) / (- step)).

(** Message of the [ValueError] raised by [range] on a zero step. *)
Definition zero_step : exn := "range() arg 3 must not be zero"%string.

(** [range(start, stop, step)]; a zero step raises [ValueError]. *)
Definition py_range (start stop step : Z) : result (list Z) :=
  if (step =? 0)%Z
  then Error zero_step
  else Value (map (fun k => (start + Z.of_nat k * step)%Z)
               (seq 0 (range_len start stop step))).

(** ** The remote service and the host *)

Inductive indexing_action : Type := upload | mergeOrUpload.

Record IndexingResult : Type := {
  key : string;
  succeeded : bool
}.

(** Keyword arguments of a page query. *)
Record search_options : Type := {
  include_total_count : bool;
  opt_select : option (list string);
  opt_filter : option string;
  opt_top : nat;
  opt_skip : nat
}.

(** The transport.  Each method answers with a value or raises.  The
    [nat] argument of [search] and [upload_documents] is the number of
    earlier calls of that method in the run, so the service may answer the
    same request differently at different times. *)
Record SearchClient : Type := {
  get_count : result Z;
  search : nat -> search_options -> result (list Record);
  upload_documents :
    nat -> list Record -> indexing_action -> result (list IndexingResult)
}.

(** What the process finds on the machine it runs on: whether [tqdm] can
    build a bar, the truth value of a bar created with a given total (the
    test [if pbar:] calls the library's [__bool__]), what [json.load] makes
    of the input file, and whether the output file can be written. *)
Record Host : Type := {
  tqdm_available : bool;
  bar_truthy : Z -> bool;
  input_file : result (list Record);
  output_writable : result unit
}.

(** ** Observable effects *)

(** The lines printed, one constructor per [print] of the two files, in the
    order of export.py, then import.py. *)
Inductive message : Type :=
| MsgFound (total : Z)
| MsgNoTqdm
| MsgExported (n : nat) (total : Z)
| MsgNewline
| MsgExportDone (n : nat)
| MsgExportError (e : exn)
| MsgLoading
| MsgNoDocuments
| MsgFoundToImport (total : nat)
| MsgUploaded (n total : nat)
| MsgBatchError (i : Z) (e : exn)
| MsgImportDone (n : nat)
| MsgImportFailed (n : nat)
| MsgImportError (e : exn).

(** What a run does to the world, transport calls with their answers. *)
Inductive event : Type :=
| Printed (m : message)
| Counted (answer : result Z)
| Searched (opts : search_options) (answer : result (list Record))
| Uploaded (batch : list Record) (mode : indexing_action)
           (answer : result (list IndexingResult))
| BarOpened (total : Z)
| BarUpdated (n : nat)
| BarClosed
| Written (docs : list Record).

Definition trace : Type := list event.

(** ** A state-and-exception monad over the trace *)

Definition Py (A : Type) : Type := trace -> outcome A * trace.

Definition ret {A : Type} (a : A) : Py A := fun t => (Ok a, t).

Definition bind {A B : Type} (m : Py A) (f : A -> Py B) : Py B :=
  fun t =>
    match m t with
    | (Ok a, t') => f a t'
    | (Raise e, t') => (Raise e, t')
    | (Diverge, t') => (Diverge, t')
    end.

Definition emit (ev : event) : Py unit := fun t => (Ok tt, t ++ [ev]).

Definition lift {A : Type} (r : result A) : Py A :=
  fun t =>
    match r with
    | Value a => (Ok a, t)
    | Error e => (Raise e, t)
    end.

Definition diverge {A : Type} : Py A := fun t => (Diverge, t).

(** [try: m except Exception as e: h e] *)
Definition try_except {A : Type} (m : Py A) (h : exn -> Py A) : Py A :=
  fun t =>
    match m t with
    | (Raise e, t') => h e t'
    | r => r
    end.

Declare Scope py_scope.
Delimit Scope py_scope with py.
Notation "x <- m ;; k" := (bind m (fun x => k))
  (at level 61, m at next level, right associativity) : py_scope.
Notation "m ;; k" := (bind m (fun _ => k))
  (at level 61, right associativity) : py_scope.
Open Scope py_scope.

Definition print (m : message) : Py unit := emit (Printed m).

(** [for x in xs: st = body x st] *)
Fixpoint for_each {I S : Type} (xs : list I) (body : I -> S -> Py S) (st : S)
  : Py S :=
  match xs with
  | [] => ret st
  | x :: xs' => st' <- body x st ;; for_each xs' body st'
  end.

(** A transport call is recorded in the trace together with its answer. *)
Definition call {A : Type} (record : result A -> event) (answer : result A)
  : Py A :=
  emit (record answer) ;; lift answer.

(** [pbar = tqdm(total=...)] guarded by [except ImportError]; the bar is
    represented by the total it was created with. *)
Definition open_bar (h : Host) (show_progress : bool) (total : Z)
  : Py (option Z) :=
  if show_progress
  then if tqdm_available h
       then emit (BarOpened total) ;; ret (Some total)
       else print MsgNoTqdm ;; ret None
  else ret None.

(** [if pbar:] *)
Definition bar_on (h : Host) (pbar : option Z) : bool :=
  match pbar with
  | Some total => bar_truthy h total
  | None => false
  end.

(** [if pbar: pbar.close() elif show_progress: print()] *)
Definition close_bar (h : Host) (show_progress : bool) (pbar : option Z)
  : Py unit :=
  if bar_on h pbar then emit BarClosed
  else if show_progress then print MsgNewline
  else ret tt.

(** ** import.py *)

(** The counters of the batch loop, and the number of upload calls made. *)
Record import_state : Type := {
  uploaded_count : nat;
  failed_count : nat;
  upload_calls : nat
}.

Section Importer.

Variable client : SearchClient.
Variable host : Host.
Variable batch_size : Z.
Variable show_progress : bool.
Variable merge_documents : bool.

(** Body of [for i in range(0, total_docs, batch_size)]. *)
Definition import_batch (documents : list Record) (pbar : option Z)
           (i : Z) (st : import_state) : Py import_state :=
  let batch := py_slice documents i (i + batch_size) in
  let calls := S (upload_calls st) in
  try_except
    (let upload_mode := if merge_documents then mergeOrUpload else upload in
     results <- call (Uploaded batch upload_mode)
                     (upload_documents client (upload_calls st)
                                       batch upload_mode) ;;
     let success_count := length (filter succeeded results) in
     let fail_count := length results - success_count in
     let uploaded := uploaded_count st + success_count in
     let failed := failed_count st + fail_count in
     (if bar_on host pbar then emit (BarUpdated (length batch))
      else if show_progress
      then print (MsgUploaded uploaded (length documents))
      else ret tt) ;;
     ret {| uploaded_count := uploaded; failed_count := failed;
            upload_calls := calls |})
    (fun batch_error =>
       print (MsgBatchError i batch_error) ;;
       ret {| uploaded_count := uploaded_count st;
              failed_count := failed_count st + length batch;
              upload_calls := calls |}).

(** The function body from the point where the snapshot has been loaded
    and found non-empty up to the end of the batch loop. *)
Definition import_batches (documents : list Record)
  : Py (option Z * import_state) :=
  let total_docs := length documents in
  print (MsgFoundToImport total_docs) ;;
  pbar <- open_bar host show_progress (Z.of_nat total_docs) ;;
  starts <- lift (py_range 0 (Z.of_nat total_docs) batch_size) ;;
  st <- for_each starts (import_batch documents pbar)
                 {| uploaded_count := 0; failed_count := 0;
                    upload_calls := 0 |} ;;
  ret (pbar, st).

Definition import_json_to_search_index : Py nat :=
  try_except
    (print MsgLoading ;;
     documents <- lift (input_file host) ;;
     if negb (nonempty documents)
     then print MsgNoDocuments ;; ret 0
     else
       r <- import_batches documents ;;
       let (pbar, st) := r in
       close_bar host show_progress pbar ;;
       print (MsgImportDone (uploaded_count st)) ;;
       (if 0 <? failed_count st
        then print (MsgImportFailed (failed_count st))
        else ret tt) ;;
       ret (uploaded_count st))
    (fun e => print (MsgImportError e) ;; ret 0).

End Importer.

(** ** export.py *)

Definition page_size : nat := 1000.

(** [{k: v for k, v in doc.items()}] *)
Definition doc_dict (doc : Record) : Record :=
  map (fun kv => (fst kv, snd kv)) doc.

(** The variables of the paging loop, and the number of page queries
    made. *)
Record export_state : Type := {
  all_docs : list Record;
  skip : nat;
  search_calls : nat
}.

(** How one pass through the body of [while True] ends. *)
Inductive flow : Type :=
| Break (st : export_state)
| Continue (st : export_state).

Section Exporter.

Variable client : SearchClient.
Variable host : Host.
Variable select_fields : option (list string).
Variable filter_expression : option string.
Variable top : option Z.
Variable show_progress : bool.

(** [search_options] as sent with the page query at offset [skip]. *)
Definition page_query (skip : nat) : search_options :=
  {| include_total_count := true;
     opt_select := match select_fields with
                   | Some (f :: fs) => Some (f :: fs)
                   | _ => None
                   end;
     opt_filter := match filter_expression with
                   | Some EmptyString => None
                   | other => other
                   end;
     opt_top := page_size;
     opt_skip := skip |}.

(** [top and len(all_docs) >= top] *)
Definition top_reached (docs : list Record) : bool :=
  match top with
  | Some z => negb (z =? 0)%Z && (z <=? Z.of_nat (length docs))%Z
  | None => false
  end.

(** [all_docs[:top]], evaluated only when [top] is an [int]. *)
Definition truncate (docs : list Record) : list Record :=
  match top with
  | Some z => py_slice_to docs z
  | None => docs
  end.

(** One pass through the body of [while True]; [total_docs] is only
    displayed. *)
Definition export_page (total_docs : Z) (pbar : option Z)
           (st : export_state) : Py flow :=
  let opts := page_query (skip st) in
  results <- call (Searched opts) (search client (search_calls st) opts) ;;
  let page_docs := map doc_dict results in
  let calls := S (search_calls st) in
  if negb (nonempty page_docs)
  then ret (Break {| all_docs := all_docs st; skip := skip st;
                     search_calls := calls |})
  else
    let docs := all_docs st ++ page_docs in
    let skip' := skip st + length page_docs in
    (if bar_on host pbar then emit (BarUpdated (length page_docs))
     else if show_progress
     then print (MsgExported (length docs) total_docs)
     else ret tt) ;;
    if top_reached docs
    then ret (Break {| all_docs := truncate docs; skip := skip';
                       search_calls := calls |})
    else if length page_docs <? page_size
    then ret (Break {| all_docs := docs; skip := skip';
                       search_calls := calls |})
    else ret (Continue {| all_docs := docs; skip := skip';
                          search_calls := calls |}).

(** The [while True] loop, stopped after [fuel] passes. *)
Fixpoint export_loop (fuel : nat) (total_docs : Z) (pbar : option Z)
         (st : export_state) : Py export_state :=
  match fuel with
  | 0 => diverge
  | S fuel' =>
      r <- export_page total_docs pbar st ;;
      match r with
      | Break st' => ret st'
      | Continue st' => export_loop fuel' total_docs pbar st'
      end
  end.

(** [min(total_docs, top)] under [if top:] *)
Definition displayed_total (count : Z) : Z :=
  match top with
  | Some z => if negb (z =? 0)%Z then Z.min count z else count
  | None => count
  end.

(** Everything up to the end of the paging loop. *)
Definition export_pages (fuel : nat) : Py (option Z * export_state) :=
  count <- call Counted (get_count client) ;;
  let total_docs := displayed_total count in
  print (MsgFound total_docs) ;;
  pbar <- open_bar host show_progress total_docs ;;
  st <- export_loop fuel total_docs pbar
                    {| all_docs := []; skip := 0; search_calls := 0 |} ;;
  ret (pbar, st).

Definition export_search_index_to_json (fuel : nat) : Py nat :=
  try_except
    (r <- export_pages fuel ;;
     let (pbar, st) := r in
     close_bar host show_progress pbar ;;
     lift (output_writable host) ;;
     emit (Written (all_docs st)) ;;
     print (MsgExportDone (length (all_docs st))) ;;
     ret (length (all_docs st)))
    (fun e => print (MsgExportError e) ;; ret 0).

End Exporter.

(** ** Projections of a trace *)

(** The batches submitted to [upload_documents], with the answers. *)
Fixpoint uploads (t : trace)
  : list (list Record * result (list IndexingResult)) :=
  match t with
  | [] => []
  | Uploaded batch _ answer :: t' => (batch, answer) :: uploads t'
  | _ :: t' => uploads t'
  end.

(** The page queries issued, with the answers. *)
Fixpoint queries (t : trace)
  : list (search_options * result (list Record)) :=
  match t with
  | [] => []
  | Searched opts answer :: t' => (opts, answer) :: queries t'
  | _ :: t' => queries t'
  end.

(** The pages among a list of answers, in order. *)
Fixpoint received (qs : list (search_options * result (list Record)))
  : list (list Record) :=
  match qs with
  | [] => []
  | (_, Value p) :: qs' => p :: received qs'
  | (_, Error _) :: qs' => received qs'
  end.

(** The pages received, in order. *)
Definition pages (t : trace) : list (list Record) := received (queries t).

(** The increments passed to [pbar.update]. *)
Fixpoint bar_updates (t : trace) : list nat :=
  match t with
  | [] => []
  | BarUpdated n :: t' => n :: bar_updates t'
  | _ :: t' => bar_updates t'
  end.

(** The snapshots written to storage. *)
Fixpoint written (t : trace) : list (list Record) :=
  match t with
  | [] => []
  | Written docs :: t' => docs :: written t'
  | _ :: t' => written t'
  end.

(** Positions of the progress counter after each of the given increments,
    starting from [pos]. *)
Fixpoint positions (pos : nat) (incs : list nat) : list nat :=
  match incs with
  | [] => []
  | n :: incs' => (pos + n) :: positions (pos + n) incs'
  end.

(** Some transport call of the run raised. *)
Definition transport_fault (ev : event) : Prop :=
  match ev with
  | Counted (Error _) | Searched _ (Error _) | Uploaded _ _ (Error _) => True
  | _ => False
  end.

(** Records one upload call accounts for as succeeded and as failed. *)
Definition succeeded_in (answer : result (list IndexingResult)) : nat :=
  match answer with
  | Value results => length (filter succeeded results)
  | Error _ => 0
  end.

Definition failed_in (batch : list Record)
           (answer : result (list IndexingResult)) : nat :=
  match answer with
  | Value results => length results - length (filter succeeded results)
  | Error _ => length batch
  end.

Definition total {A : Type} (f : A -> nat) (l : list A) : nat :=
  fold_right (fun a n => f a + n) 0 l.

(** The batches [documents[i:i + batch_size]] for [i] in the loop's range. *)
Definition chunks (documents : list Record) (batch_size : Z)
  : list (list Record) :=
  match py_range 0 (Z.of_nat (length documents)) batch_size with
  | Value starts =>
      map (fun i => py_slice documents i (i + batch_size)) starts
  | Error _ => []
  end.

(** ** Vocabulary of the statements *)

(** The write mode of a run: ['mergeOrUpload' if merge_documents else
    'upload']. *)
Definition indexing_mode (merge_documents : bool) : indexing_action :=
  if merge_documents then mergeOrUpload else upload.

(** The answer is the service's own answer to this upload call. *)
Definition answered (client : SearchClient) (merge_documents : bool)
           (u : list Record * result (list IndexingResult)) : Prop :=
  exists k,
    snd u = upload_documents client k (fst u) (indexing_mode merge_documents).

(** Increment of the progress bar for one batch. *)
Definition bar_step (host : Host) (pbar : option Z)
           (u : list Record * result (list IndexingResult)) : list nat :=
  match snd u with
  | Value _ => if bar_on host pbar then [length (fst u)] else []
  | Error _ => []
  end.

(** The bar a run has after [open_bar]. *)
Definition made_bar (host : Host) (show_progress : bool) (total : Z)
  : option Z :=
  if show_progress && tqdm_available host then Some total else None.

(** The service answers every upload with one outcome per record of the
    batch, aligned to the input order. *)
Definition aligned (client : SearchClient) : Prop :=
  forall k batch mode results,
    upload_documents client k batch mode = Value results ->
    length results = length batch.

(** Number of records an answer carries. *)
Definition returned (answer : result (list Record)) : nat :=
  match answer with
  | Value p => length p
  | Error _ => 0
  end.

(** Every query asks for the offset reached by the records returned so
    far, starting from [s]. *)
Fixpoint cursor_ok (s : nat)
         (qs : list (search_options * result (list Record))) : Prop :=
  match qs with
  | [] => True
  | (q, a) :: qs' => opt_skip q = s /\ cursor_ok (s + returned a) qs'
  end.

(** The query asks for a page of the fixed size and the answer is the
    service's own answer to it. *)
Definition asked (client : SearchClient)
           (qa : search_options * result (list Record)) : Prop :=
  opt_top (fst qa) = page_size
  /\ exists c, snd qa = search client c (fst qa).

(** What the progress reporter does after a non-empty page. *)
Definition progress_events (host : Host) (show_progress : bool)
           (total_docs : Z) (pbar : option Z) (docs page : list Record)
  : trace :=
  if bar_on host pbar then [BarUpdated (length page)]
  else if show_progress
  then [Printed (MsgExported (length docs) total_docs)]
  else [].

(** The state after a non-empty page, and whether the loop goes on. *)
Definition after_page (top : option Z) (st : export_state) (p : list Record)
  : flow :=
  let docs := all_docs st ++ p in
  let skip' := skip st + length p in
  let calls := S (search_calls st) in
  if top_reached top docs
  then Break {| all_docs := truncate top docs; skip := skip';
                search_calls := calls |}
  else if length p <? page_size
  then Break {| all_docs := docs; skip := skip'; search_calls := calls |}
  else Continue {| all_docs := docs; skip := skip'; search_calls := calls |}.

(** Events of [open_bar] and [close_bar]. *)
Definition opening (host : Host) (show_progress : bool) (total : Z) : trace :=
  if show_progress
  then if tqdm_available host then [BarOpened total] else [Printed MsgNoTqdm]
  else [].

Definition closing (host : Host) (show_progress : bool) (pbar : option Z)
  : trace :=
  if bar_on host pbar then [BarClosed]
  else if show_progress then [Printed MsgNewline]
  else [].

(** What the function makes of the way the paging loop ended. *)
Definition export_finish (host : Host) (show_progress : bool)
           (pbar : option Z) (r : outcome export_state * trace)
  : outcome nat * trace :=
  match r with
  | (Ok st, t) =>
      match output_writable host with
      | Value _ =>
          (Ok (length (all_docs st)),
           t ++ closing host show_progress pbar
             ++ [Written (all_docs st);
                 Printed (MsgExportDone (length (all_docs st)))])
      | Error e =>
          (Ok 0,
           t ++ closing host show_progress pbar ++ [Printed (MsgExportError e)])
      end
  | (Raise e, t) => (Ok 0, t ++ [Printed (MsgExportError e)])
  | (Diverge, t) => (Diverge, t)
  end.

(** Start of the paging loop. *)
Definition first_page : export_state :=
  {| all_docs := []; skip := 0; search_calls := 0 |}.

(** The service holds the ordered collection [coll] and answers a query at
    offset [skip] with some run of consecutive records of [coll] starting
    there: as many as asked for, or fewer, or more. *)
Definition serves (client : SearchClient) (coll : list Record) : Prop :=
  forall c q p,
    search client c q = Value p ->
    exists k, p = firstn k (skipn (opt_skip q) coll).

(** The service answers the successive page queries, from call [c] at
    offset [s] on, with the pages [ps]. *)
Fixpoint served (client : SearchClient) (select_fields : option (list string))
         (filter_expression : option string) (c s : nat)
         (ps : list (list Record)) : Prop :=
  match ps with
  | [] => True
  | p :: ps' =>
      search client c (page_query select_fields filter_expression s) = Value p
      /\ served client select_fields filter_expression
                (S c) (s + length p) ps'
  end.

(** The service holds [coll] and answers every query with the records from
    the requested offset on, as many as requested when that many remain. *)
Definition honest (client : SearchClient) (coll : list Record) : Prop :=
  forall c q,
    search client c q = Value (firstn (opt_top q) (skipn (opt_skip q) coll)).

(** Number of records an export of [n] available records ends with, for a
    bound that is unset, zero or positive. *)
Definition export_bound (top : option Z) (n : nat) : nat :=
  match top with
  | Some z => if (0 <? z)%Z then Nat.min (Z.to_nat z) n else n
  | None => n
  end.

Definition top_nonneg (top : option Z) : Prop :=
  match top with
  | Some z => (0 <= z)%Z
  | None => True
  end.

(** ** Further readings of a trace *)

(** The write modes of the upload calls. *)
Definition upload_modes (t : trace) : list indexing_action :=
  flat_map (fun ev => match ev with Uploaded _ m _ => [m] | _ => [] end) t.

(** The lines printed. *)
Definition printed (t : trace) : list message :=
  flat_map (fun ev => match ev with Printed m => [m] | _ => [] end) t.

(** The closing lines of an import: [inl n] for "Successfully imported n",
    [inr n] for "Failed to import n". *)
Definition import_summary (t : trace) : list (nat + nat) :=
  flat_map (fun m => match m with
                     | MsgImportDone n => [inl n]
                     | MsgImportFailed n => [inr n]
                     | _ => []
                     end) (printed t).

(** The numbers shown by the fallback progress lines of an import and of an
    export. *)
Definition uploaded_lines (t : trace) : list (nat * nat) :=
  flat_map (fun m => match m with
                     | MsgUploaded n total => [(n, total)]
                     | _ => []
                     end) (printed t).

Definition exported_lines (t : trace) : list (nat * Z) :=
  flat_map (fun m => match m with
                     | MsgExported n total => [(n, total)]
                     | _ => []
                     end) (printed t).

(** The successes reported by the upload calls that came back. *)
Definition reported_successes
           (us : list (list Record * result (list IndexingResult)))
  : list nat :=
  flat_map (fun u => match snd u with
                     | Value results => [length (filter succeeded results)]
                     | Error _ => []
                     end) us.

(** What one pass through the batch loop adds to the trace after the upload
    call. *)
Definition batch_events (host : Host) (show_progress : bool)
           (pbar : option Z) (total_docs : nat) (i : Z)
           (batch : list Record) (uploaded : nat)
           (answer : result (list IndexingResult)) : trace :=
  match answer with
  | Value results =>
      if bar_on host pbar then [BarUpdated (length batch)]
      else if show_progress
      then [Printed (MsgUploaded
                       (uploaded + length (filter succeeded results))
                       total_docs)]
      else []
  | Error e => [Printed (MsgBatchError i e)]
  end.

(** The events a batch loop can add, and those a paging loop can add. *)
Definition import_loop_event (ev : event) : Prop :=
  match ev with
  | Uploaded _ _ _ | BarUpdated _
  | Printed (MsgUploaded _ _) | Printed (MsgBatchError _ _) => True
  | _ => False
  end.

Definition export_loop_event (ev : event) : Prop :=
  match ev with
  | Searched _ _ | BarUpdated _ | Printed (MsgExported _ _) => True
  | _ => False
  end.

(** What the importer makes of the way the batch loop ended. *)
Definition import_finish (host : Host) (show_progress : bool)
           (pbar : option Z) (r : outcome import_state * trace)
  : outcome nat * trace :=
  match r with
  | (Ok st, t) =>
      (Ok (uploaded_count st),
       t ++ closing host show_progress pbar
         ++ Printed (MsgImportDone (uploaded_count st))
         :: (if 0 <? failed_count st
             then [Printed (MsgImportFailed (failed_count st))]
             else []))
  | (Raise e, t) => (Ok 0, t ++ [Printed (MsgImportError e)])
  | (Diverge, t) => (Diverge, t)
  end.

(** Start of the batch loop. *)
Definition first_batch : import_state :=
  {| uploaded_count := 0; failed_count := 0; upload_calls := 0 |}.

(** The upload calls of a run over the given batches: call number [k] is
    made on the [k]-th batch, and is answered by the service. *)
Fixpoint submissions (client : SearchClient) (mode : indexing_action)
         (k : nat) (batches : list (list Record))
  : list (list Record * result (list IndexingResult)) :=
  match batches with
  | [] => []
  | batch :: rest =>
      (batch, upload_documents client k batch mode)
        :: submissions client mode (S k) rest
  end.

(** The documents an import has to work on: those of the input file, none
    when the file cannot be read. *)
Definition loaded (host : Host) : list Record :=
  match input_file host with
  | Value documents => documents
  | Error _ => []
  end.

(** ** Sample services and hosts *)

Definition doc (n : nat) : Record := [("id"%string, JNum (Z.of_nat n))].

(** The documents numbered [0 .. n-1]. *)
Definition numbered (n : nat) : list Record := map doc (seq 0 n).

Definition accepted (batch : list Record) : list IndexingResult :=
  map (fun _ => {| key := ""%string; succeeded := true |}) batch.

(** A service that holds [coll], returns full pages, and accepts every
    upload, except that upload call number [bad] raises. *)
Definition store (coll : list Record) (bad : option nat) : SearchClient :=
  {| get_count := Value (Z.of_nat (length coll));
     search := fun _ q =>
                 Value (firstn (opt_top q) (skipn (opt_skip q) coll));
     upload_documents :=
       fun k batch _ =>
         match bad with
         | Some b => if k =? b then Error "connection reset"%string
                     else Value (accepted batch)
         | None => Value (accepted batch)
         end |}.

(** A service that answers the successive page queries from a script. *)
Definition scripted (count : result Z)
           (answers : list (result (list Record))) : SearchClient :=
  {| get_count := count;
     search := fun c _ => nth c answers (Value []);
     upload_documents := fun _ batch _ => Value (accepted batch) |}.

(** A service that answers every upload with a single outcome, however
    many records the batch has. *)
Definition terse : SearchClient :=
  {| get_count := Value 0%Z;
     search := fun _ _ => Value [];
     upload_documents :=
       fun _ _ _ => Value [{| key := ""%string; succeeded := true |}] |}.

(** A host with [tqdm] installed and the given snapshot file. *)
Definition machine (snapshot : list Record) : Host :=
  {| tqdm_available := true;
     bar_truthy := fun total => (0 <? total)%Z;
     input_file := Value snapshot;
     output_writable := Value tt |}.

(** ** Further sample services and hosts *)

(** A service that is down: every call raises. *)
Definition down : SearchClient :=
  {| get_count := Error "service unavailable"%string;
     search := fun _ _ => Error "service unavailable"%string;
     upload_documents := fun _ _ _ => Error "service unavailable"%string |}.

(** The same service reporting another count. *)
Definition recount (client : SearchClient) (count : Z) : SearchClient :=
  {| get_count := Value count;
     search := search client;
     upload_documents := upload_documents client |}.

(** A host without [tqdm], and a host whose input file cannot be read. *)
Definition bare (snapshot : list Record) : Host :=
  {| tqdm_available := false;
     bar_truthy := fun total => (0 <? total)%Z;
     input_file := Value snapshot;
     output_writable := Value tt |}.

Definition unreadable : Host :=
  {| tqdm_available := true;
     bar_truthy := fun total => (0 <? total)%Z;
     input_file := Error "No such file or directory"%string;
     output_writable := Value tt |}.

Ltac py_unfold :=
  cbv beta iota zeta delta
      [bind ret emit lift print call try_except diverge open_bar close_bar].

(** ** Slices and ranges *)

Section Slices.

Variable A : Type.
Implicit Types l : list A.

Lemma firstn_min_length l n : firstn (Nat.min n (length l)) l = firstn n l.
Proof.
  destruct (Nat.le_ge_cases n (length l)) as [H | H].
  - now rewrite Nat.min_l.
  - rewrite Nat.min_r by assumption.
    now rewrite !firstn_all2 by lia.
Qed.

Lemma slice_bound_nonneg len i :
  (0 <= i)%Z -> slice_bound len i = Nat.min (Z.to_nat i) len.
Proof.
  intros Hi. unfold slice_bound.
  destruct (Z.ltb_spec i 0); lia.
Qed.

Lemma py_slice_window l i b :
  (0 <= i)%Z -> (0 <= b)%Z ->
  py_slice l i (i + b) = firstn (Z.to_nat b) (skipn (Z.to_nat i) l).
Proof.
  intros Hi Hb. unfold py_slice.
  rewrite !slice_bound_nonneg by lia.
  destruct (Nat.le_ge_cases (length l) (Z.to_nat i)) as [H | H].
  - rewrite (Nat.min_r (Z.to_nat i)) by assumption.
    rewrite !skipn_all2 by lia. now rewrite !firstn_nil.
  - rewrite (Nat.min_l (Z.to_nat i)) by assumption.
    rewrite <- (firstn_min_length (skipn (Z.to_nat i) l) (Z.to_nat b)).
    rewrite length_skipn. f_equal. lia.
Qed.

Lemma py_slice_to_prefix l n :
  n <= length l -> py_slice_to l (Z.of_nat n) = firstn n l.
Proof.
  intros Hn. unfold py_slice_to.
  rewrite slice_bound_nonneg by lia. f_equal. lia.
Qed.

(** Cutting a list into [n] windows of width [b] loses nothing when the
    windows reach the end. *)
Lemma windows_concat b n : forall l,
  length l <= n * b ->
  concat (map (fun k => firstn b (skipn (k * b) l)) (seq 0 n)) = l.
Proof.
  induction n as [| n IH]; intros l Hl.
  - destruct l; [reflexivity | simpl in Hl; lia].
  - rewrite <- cons_seq, <- seq_shift, map_cons, map_map, concat_cons.
    rewrite (map_ext _ (fun k => firstn b (skipn (k * b) (skipn b l)))).
    + rewrite IH by (rewrite length_skipn; lia).
      apply firstn_skipn.
    + intros k. rewrite skipn_skipn. do 2 f_equal. lia.
Qed.

End Slices.

Lemma range_len_up (stop step : Z) :
  (0 < step)%Z -> (0 <= stop)%Z ->
  let n := Z.of_nat (range_len 0 stop step) in
  (stop <= n * step < stop + step)%Z.
Proof.
  intros Hstep Hstop. cbv zeta. unfold range_len.
  destruct (Z.ltb_spec 0 step); [| lia].
  rewrite Z.sub_0_r.
  pose proof (Z.div_mod (stop + step - 1) step ltac:(lia)) as Hdm.
  pose proof (Z.mod_pos_bound (stop + step - 1) step Hstep) as Hm.
  assert (0 <= (stop + step - 1) / step)%Z
    by (apply Z.div_pos; lia).
  rewrite Z2Nat.id by assumption. nia.
Qed.

Lemma py_range_up (stop step : Z) :
  (0 < step)%Z ->
  py_range 0 stop step =
  Value (map (fun k => (Z.of_nat k * step)%Z)
             (seq 0 (range_len 0 stop step))).
Proof.
  intros Hstep. unfold py_range.
  destruct (Z.eqb_spec step 0); [lia |].
  reflexivity.
Qed.

Lemma py_range_down (stop step : Z) :
  (step < 0)%Z -> (0 <= stop)%Z -> py_range 0 stop step = Value [].
Proof.
  intros Hstep Hstop. unfold py_range, range_len.
  destruct (Z.eqb_spec step 0); [lia |].
  destruct (Z.ltb_spec 0 step); [lia |].
  assert ((0 - stop - step - 1) / - step < 1)%Z as Hq
    by (apply Z.div_lt_upper_bound; lia).
  replace (Z.to_nat ((0 - stop - step - 1) / - step)) with 0 by lia.
  reflexivity.
Qed.

(** The loop's batches are the consecutive windows of width [batch_size]. *)
Lemma chunks_windows (documents : list Record) (batch_size : Z) :
  (0 < batch_size)%Z ->
  chunks documents batch_size =
  map (fun k => firstn (Z.to_nat batch_size)
                       (skipn (k * Z.to_nat batch_size) documents))
      (seq 0 (range_len 0 (Z.of_nat (length documents)) batch_size)).
Proof.
  intros Hb. unfold chunks. rewrite py_range_up by assumption.
  rewrite map_map. apply map_ext. intros k.
  rewrite py_slice_window by lia.
  do 2 f_equal. lia.
Qed.

(** ** Traces are read piecewise *)

Lemma uploads_app (t1 t2 : trace) :
  uploads (t1 ++ t2) = uploads t1 ++ uploads t2.
Proof.
  induction t1 as [| ev t1 IH]; [reflexivity |].
  destruct ev; simpl; now rewrite ?IH.
Qed.

Lemma queries_app (t1 t2 : trace) :
  queries (t1 ++ t2) = queries t1 ++ queries t2.
Proof.
  induction t1 as [| ev t1 IH]; [reflexivity |].
  destruct ev; simpl; now rewrite ?IH.
Qed.

Lemma received_app qs1 qs2 :
  received (qs1 ++ qs2) = received qs1 ++ received qs2.
Proof.
  induction qs1 as [| [q [p | e]] qs1 IH]; simpl; now rewrite ?IH.
Qed.

Lemma pages_app (t1 t2 : trace) : pages (t1 ++ t2) = pages t1 ++ pages t2.
Proof.
  unfold pages. now rewrite queries_app, received_app.
Qed.

Lemma bar_updates_app (t1 t2 : trace) :
  bar_updates (t1 ++ t2) = bar_updates t1 ++ bar_updates t2.
Proof.
  induction t1 as [| ev t1 IH]; [reflexivity |].
  destruct ev; simpl; now rewrite ?IH.
Qed.

Lemma written_app (t1 t2 : trace) :
  written (t1 ++ t2) = written t1 ++ written t2.
Proof.
  induction t1 as [| ev t1 IH]; [reflexivity |].
  destruct ev; simpl; now rewrite ?IH.
Qed.

Lemma total_app {A : Type} (f : A -> nat) (l1 l2 : list A) :
  total f (l1 ++ l2) = total f l1 + total f l2.
Proof.
  induction l1 as [| a l1 IH]; simpl; [reflexivity | rewrite IH; lia].
Qed.

Lemma length_concat_total {A : Type} (ls : list (list A)) :
  length (concat ls) = total (@length A) ls.
Proof.
  induction ls as [| l ls IH]; simpl; [reflexivity |].
  now rewrite length_app, IH.
Qed.

Lemma total_map {A B : Type} (f : B -> nat) (g : A -> B) (l : list A) :
  total f (map g l) = total (fun a => f (g a)) l.
Proof.
  induction l as [| a l IH]; simpl; [reflexivity | now rewrite IH].
Qed.

(** ** The batch loop *)

Section ImportFacts.

Variable client : SearchClient.
Variable host : Host.
Variable batch_size : Z.
Variable show_progress : bool.
Variable merge_documents : bool.

(** One pass through the loop body always comes back, whatever the
    service answers. *)
Lemma import_batch_run documents pbar i st t :
  let batch := py_slice documents i (i + batch_size) in
  let answer := upload_documents client (upload_calls st) batch
                                 (indexing_mode merge_documents) in
  exists evs,
    import_batch client host batch_size show_progress merge_documents
                 documents pbar i st t
    = (Ok {| uploaded_count := uploaded_count st + succeeded_in answer;
             failed_count := failed_count st + failed_in batch answer;
             upload_calls := S (upload_calls st) |},
       t ++ evs)
    /\ uploads evs = [(batch, answer)]
    /\ bar_updates evs = bar_step host pbar (batch, answer)
    /\ written evs = [].
Proof.
  intros batch answer. unfold import_batch, bar_step. py_unfold.
  change (if merge_documents then mergeOrUpload else upload)
    with (indexing_mode merge_documents).
  fold batch. fold answer. simpl snd. simpl fst.
  destruct answer as [results | e]; simpl succeeded_in; simpl failed_in.
  - destruct (bar_on host pbar); [| destruct show_progress].
    all: eexists; rewrite <- ?app_assoc; split; [reflexivity |].
    all: repeat split; reflexivity.
  - rewrite Nat.add_0_r.
    eexists. rewrite <- ?app_assoc. split; [reflexivity |].
    repeat split; reflexivity.
Qed.

Lemma import_loop_run documents pbar : forall starts st t,
  exists st' evs,
    for_each starts
             (import_batch client host batch_size show_progress
                           merge_documents documents pbar) st t
    = (Ok st', t ++ evs)
    /\ map fst (uploads evs)
       = map (fun i => py_slice documents i (i + batch_size)) starts
    /\ Forall (answered client merge_documents) (uploads evs)
    /\ uploaded_count st'
       = uploaded_count st + total (fun u => succeeded_in (snd u)) (uploads evs)
    /\ failed_count st'
       = failed_count st
         + total (fun u => failed_in (fst u) (snd u)) (uploads evs)
    /\ bar_updates evs = flat_map (bar_step host pbar) (uploads evs)
    /\ written evs = [].
Proof.
  induction starts as [| i starts IH]; intros st t.
  - exists st, []. simpl. unfold ret. rewrite app_nil_r.
    repeat split; auto.
  - destruct (import_batch_run documents pbar i st t)
      as (ev1 & Hrun & Hup & Hbar & Hw1).
    simpl for_each. unfold bind at 1. rewrite Hrun.
    match goal with
    | |- context [for_each starts _ ?s ?u] =>
        destruct (IH s u) as (st' & ev2 & Hloop & Hb & Ha & Hu & Hf & Hp & Hw)
    end.
    exists st', (ev1 ++ ev2). rewrite Hloop, app_assoc.
    rewrite uploads_app, bar_updates_app, written_app, Hup, Hbar, Hp, Hw, Hw1.
    simpl in Hu, Hf. simpl.
    repeat split; auto.
    + now rewrite Hb.
    + constructor; [| assumption]. now exists (upload_calls st).
    + rewrite Hu. lia.
    + rewrite Hf. lia.
Qed.

End ImportFacts.

Lemma import_run client host batch_size show_progress merge_documents
      documents starts :
  input_file host = Value documents ->
  documents <> [] ->
  py_range 0 (Z.of_nat (length documents)) batch_size = Value starts ->
  exists t,
    let us := uploads t in
    let u := total (fun a => succeeded_in (snd a)) us in
    let f := total (fun a => failed_in (fst a) (snd a)) us in
    import_json_to_search_index client host batch_size show_progress
                                merge_documents [] = (Ok u, t)
    /\ map fst us
       = map (fun i => py_slice documents i (i + batch_size)) starts
    /\ Forall (answered client merge_documents) us
    /\ bar_updates t
       = flat_map (bar_step host
                            (made_bar host show_progress
                                      (Z.of_nat (length documents))))
                  us
    /\ written t = []
    /\ In (Printed (MsgImportDone u)) t
    /\ (0 < f -> In (Printed (MsgImportFailed f)) t).
Proof.
  intros Hfile Hne Hrange.
  unfold import_json_to_search_index, import_batches, made_bar.
  destruct documents as [| d ds]; [congruence | clear Hne].
  set (docs := d :: ds) in *.
  py_unfold. rewrite Hfile, Hrange.
  change (negb (nonempty docs)) with false. cbv beta iota.
  destruct show_progress, (tqdm_available host); simpl andb; cbv iota beta.
  all: match goal with
       | |- context [for_each ?ss (import_batch ?c ?h ?b ?sp ?m ?ds ?pb)
                              ?s ?u] =>
           destruct (import_loop_run c h b sp m ds pb ss s u)
             as (st' & evs & Hloop & Hb & Ha & Hu & Hf & Hp & Hw)
       end.
  all: rewrite Hloop; cbv iota beta.
  all: simpl in Hu, Hf.
  all: destruct (bar_on host _) eqn:Hbar; cbv iota beta.
  all: destruct (Nat.ltb_spec 0 (failed_count st')) as [Hfail | Hfail].
  all: match goal with |- exists t, (_, ?T) = _ /\ _ => exists T end.
  all: cbv zeta.
  all: rewrite ?uploads_app, ?bar_updates_app, ?written_app; simpl uploads;
    simpl bar_updates; simpl written; rewrite ?app_nil_r, ?app_nil_l, ?Hw.
  all: rewrite <- Hu, <- Hf.
  all: repeat split; auto.
  all: try (intros; lia).
  all: rewrite ?in_app_iff; simpl; auto 10.
Qed.

(** ** The positional partition *)

Lemma length_chunks (documents : list Record) (batch_size : Z) :
  (0 < batch_size)%Z ->
  length (chunks documents batch_size)
  = range_len 0 (Z.of_nat (length documents)) batch_size.
Proof.
  intros Hb. rewrite chunks_windows by assumption.
  now rewrite length_map, length_seq.
Qed.

Lemma chunks_count (documents : list Record) (batch_size : Z) :
  (0 < batch_size)%Z ->
  let n := length (chunks documents batch_size) in
  let b := Z.to_nat batch_size in
  length documents <= n * b < length documents + b.
Proof.
  intros Hb n b. subst n. rewrite length_chunks by assumption.
  pose proof (range_len_up (stop := Z.of_nat (length documents)) Hb
                           ltac:(lia)) as H.
  cbv zeta in H. subst b. nia.
Qed.

Lemma chunks_nth (documents : list Record) (batch_size : Z) (k : nat) :
  (0 < batch_size)%Z ->
  k < length (chunks documents batch_size) ->
  nth k (chunks documents batch_size) []
  = firstn (Z.to_nat batch_size)
           (skipn (k * Z.to_nat batch_size) documents).
Proof.
  intros Hb Hk. rewrite length_chunks in Hk by assumption.
  rewrite chunks_windows by assumption.
  set (w := fun j => firstn (Z.to_nat batch_size)
                            (skipn (j * Z.to_nat batch_size) documents)).
  rewrite (nth_indep _ [] (w 0)) by now rewrite length_map, length_seq.
  rewrite map_nth. unfold w. now rewrite seq_nth.
Qed.

Lemma chunks_concat (documents : list Record) (batch_size : Z) :
  (0 < batch_size)%Z -> concat (chunks documents batch_size) = documents.
Proof.
  intros Hb. pose proof (chunks_count documents Hb) as Hn. cbv zeta in Hn.
  rewrite length_chunks in Hn by assumption.
  rewrite chunks_windows by assumption.
  apply windows_concat. lia.
Qed.

Lemma import_empty client host batch_size show_progress merge_documents :
  input_file host = Value [] ->
  import_json_to_search_index client host batch_size show_progress
                              merge_documents []
  = (Ok 0, [Printed MsgLoading; Printed MsgNoDocuments]).
Proof.
  intros Hfile. unfold import_json_to_search_index. py_unfold.
  now rewrite Hfile.
Qed.

Lemma accounted_batch client merge_documents u :
  aligned client -> answered client merge_documents u ->
  succeeded_in (snd u) + failed_in (fst u) (snd u) = length (fst u).
Proof.
  intros Hal [k Hk]. destruct u as [batch answer]. simpl in *.
  destruct answer as [results | e]; simpl; [| lia].
  symmetry in Hk. apply Hal in Hk.
  pose proof (filter_length_le succeeded results). lia.
Qed.

Lemma accounted_total client merge_documents us :
  aligned client -> Forall (answered client merge_documents) us ->
  total (fun a => succeeded_in (snd a)) us
  + total (fun a => failed_in (fst a) (snd a)) us
  = total (@length Record) (map fst us).
Proof.
  intros Hal Hus. induction Hus as [| u us Hu _ IH]; [reflexivity |].
  simpl. pose proof (accounted_batch Hal Hu). lia.
Qed.

(** C6: the batches are the [ceil(S / B)] consecutive windows of width [B]
    over the input, all but the last of size [B]; in order they rebuild the
    input, and they are exactly the batches submitted to upload. *)
Theorem import_partitions_input
        client host batch_size show_progress merge_documents documents :
  input_file host = Value documents ->
  (0 < batch_size)%Z ->
  let cs := chunks documents batch_size in
  let n := length cs in
  let b := Z.to_nat batch_size in
  length documents <= n * b < length documents + b
  /\ (forall k, k < n -> nth k cs [] = firstn b (skipn (k * b) documents))
  /\ (forall k, k + 1 < n -> length (nth k cs []) = b)
  /\ concat cs = documents
  /\ map fst (uploads (snd (import_json_to_search_index
                              client host batch_size show_progress
                              merge_documents [])))
     = cs.
Proof.
  intros Hfile Hb cs n b.
  pose proof (chunks_count documents Hb) as Hn. cbv zeta in Hn.
  fold cs n b in Hn.
  split; [exact Hn |].
  split; [intros k Hk; now apply chunks_nth |].
  split.
  { intros k Hk. subst cs. rewrite chunks_nth by (assumption || (fold n; lia)).
    fold b. rewrite length_firstn, length_skipn. nia. }
  split; [now apply chunks_concat |].
  destruct documents as [| d ds].
  - rewrite import_empty by assumption. simpl.
    symmetry. apply length_zero_iff_nil.
    unfold n, b in Hn. simpl length in Hn. fold cs in Hn. nia.
  - destruct (@import_run client host batch_size show_progress
                          merge_documents (d :: ds) _ Hfile
                          ltac:(discriminate) (py_range_up _ Hb))
      as (t & Hrun & Hus & _).
    rewrite Hrun. simpl snd. rewrite Hus. subst cs. unfold chunks.
    now rewrite py_range_up by assumption.
Qed.

(** C8: an empty snapshot is a no-op: the run returns 0 after printing that
    nothing was found, without any transport call and without reporting
    any failure. *)
Theorem import_empty_is_noop
        client host batch_size show_progress merge_documents :
  input_file host = Value [] ->
  let r := import_json_to_search_index client host batch_size show_progress
                                       merge_documents [] in
  r = (Ok 0, [Printed MsgLoading; Printed MsgNoDocuments])
  /\ uploads (snd r) = []
  /\ (forall ev, In ev (snd r) -> ~ transport_fault ev)
  /\ (forall n, ~ In (Printed (MsgImportFailed n)) (snd r)).
Proof.
  intros Hfile r. subst r. rewrite import_empty by assumption.
  split; [reflexivity |]. split; [reflexivity |].
  split.
  - intros ev [<- | [<- | []]]; exact (fun H => H).
  - intros n [H | [H | []]]; discriminate.
Qed.

(** C10: over a non-empty input, a batch size of zero or less uploads
    nothing and the run returns 0.  With zero, [range] raises and the
    outermost handler turns the error into the result 0; with a negative
    size the range is empty, no chunk is formed and the run completes
    normally with zero documents imported. *)
Theorem import_nonpositive_batch_size
        client host batch_size show_progress merge_documents documents :
  input_file host = Value documents ->
  documents <> [] ->
  (batch_size <= 0)%Z ->
  exists t,
    import_json_to_search_index client host batch_size show_progress
                                merge_documents [] = (Ok 0, t)
    /\ uploads t = []
    /\ (batch_size = 0%Z ->
        In (Printed (MsgImportError zero_step)) t
        /\ forall n, ~ In (Printed (MsgImportDone n)) t)
    /\ ((batch_size < 0)%Z ->
        chunks documents batch_size = []
        /\ In (Printed (MsgImportDone 0)) t
        /\ forall e, ~ In (Printed (MsgImportError e)) t).
Proof.
  intros Hfile Hne Hb.
  destruct documents as [| d ds]; [congruence | clear Hne].
  set (docs := d :: ds) in *.
  unfold import_json_to_search_index, import_batches. py_unfold.
  rewrite Hfile. change (negb (nonempty docs)) with false. cbv beta iota.
  destruct (Z.eq_dec batch_size 0) as [-> | Hnz].
  - change (py_range 0 (Z.of_nat (length docs)) 0)
      with (@Error (list Z) zero_step).
    destruct show_progress, (tqdm_available host); cbv beta iota.
    all: eexists; split; [reflexivity |].
    all: split; [reflexivity |].
    all: split; [| intros; lia].
    all: intros _; split; [simpl; auto 10 |].
    all: intros n H; simpl in H; intuition discriminate.
  - assert (Hrange : py_range 0 (Z.of_nat (length docs)) batch_size = Value [])
      by (apply py_range_down; lia).
    assert (Hchunks : chunks docs batch_size = [])
      by (unfold chunks; now rewrite Hrange).
    rewrite Hrange.
    destruct show_progress, (tqdm_available host); cbv beta iota.
    all: simpl for_each; unfold ret; cbv beta iota.
    all: destruct (bar_on host _); cbv beta iota; simpl Nat.ltb; cbv iota.
    all: eexists; split; [reflexivity |].
    all: split; [reflexivity |].
    all: split; [intros; lia |].
    all: intros _; split; [assumption |].
    all: split; [simpl; auto 10 |].
    all: intros e H; simpl in H; intuition discriminate.
Qed.

(** ** The paging loop *)

Lemma doc_dict_copy (doc : Record) : doc_dict doc = doc.
Proof.
  unfold doc_dict. induction doc as [| [k v] doc IH]; simpl; congruence.
Qed.

Lemma page_docs_copy (results : list Record) : map doc_dict results = results.
Proof.
  induction results as [| doc results IH]; simpl;
    [reflexivity | now rewrite doc_dict_copy, IH].
Qed.

Lemma Forall_removelast_cons {A : Type} (P : A -> Prop) (a : A) (l : list A) :
  P a -> Forall P (removelast l) -> Forall P (removelast (a :: l)).
Proof.
  intros Ha Hl. destruct l as [| b l]; [constructor |].
  change (removelast (a :: b :: l)) with (a :: removelast (b :: l)).
  now constructor.
Qed.

Lemma top_reached_truthy (top : option Z) (docs : list Record) :
  top_reached top docs = true -> truthy top = true.
Proof.
  unfold top_reached, truthy. destruct top as [z |]; [| discriminate].
  now intros [H _]%andb_true_iff.
Qed.

Lemma truncate_prefix (top : option Z) (docs : list Record) :
  exists m, truncate top docs = firstn m docs.
Proof.
  destruct top as [z |]; simpl.
  - now exists (slice_bound (length docs) z).
  - exists (length docs). now rewrite firstn_all.
Qed.

Section ExportFacts.

Variable client : SearchClient.
Variable host : Host.
Variable select_fields : option (list string).
Variable filter_expression : option string.
Variable top : option Z.
Variable show_progress : bool.
Variable total_docs : Z.
Variable pbar : option Z.

Lemma export_page_run st t :
  let q := page_query select_fields filter_expression (skip st) in
  export_page client host select_fields filter_expression top
              show_progress total_docs pbar st t
  = match search client (search_calls st) q with
    | Error e => (Raise e, t ++ [Searched q (Error e)])
    | Value [] =>
        (Ok (Break {| all_docs := all_docs st; skip := skip st;
                      search_calls := S (search_calls st) |}),
         t ++ [Searched q (Value [])])
    | Value (d :: p) =>
        (Ok (after_page top st (d :: p)),
         t ++ Searched q (Value (d :: p))
           :: progress_events host show_progress total_docs pbar
                              (all_docs st ++ d :: p) (d :: p))
    end.
Proof.
  intros q. unfold export_page, after_page, progress_events.
  py_unfold. fold q.
  destruct (search client (search_calls st) q) as [[| d p] | e];
    [reflexivity | | reflexivity].
  rewrite !page_docs_copy. set (page := d :: p).
  change (negb (nonempty page)) with false. cbv beta iota.
  destruct (bar_on host pbar); [| destruct show_progress].
  all: cbv iota beta; rewrite <- ?app_assoc, ?app_nil_r.
  all: destruct (top_reached top (all_docs st ++ page));
    [reflexivity | destruct (length page <? page_size); reflexivity].
Qed.

Lemma progress_quiet docs page :
  let evs := progress_events host show_progress total_docs pbar docs page in
  queries evs = [] /\ written evs = []
  /\ bar_updates evs = (if bar_on host pbar then [length page] else [])
  /\ ~ Exists transport_fault evs.
Proof.
  unfold progress_events.
  destruct (bar_on host pbar); [| destruct show_progress]; simpl.
  all: repeat split; auto.
  all: rewrite ?Exists_cons, Exists_nil; simpl; tauto.
Qed.

Lemma export_loop_run : forall fuel st t,
  exists evs,
    let r := export_loop client host select_fields filter_expression top
                         show_progress fuel total_docs pbar st t in
    snd r = t ++ evs
    /\ written evs = []
    /\ Forall (asked client) (queries evs)
    /\ cursor_ok (skip st) (queries evs)
    /\ bar_updates evs
       = (if bar_on host pbar
          then map (@length Record) (filter (@nonempty Record) (pages evs))
          else [])
    /\ Forall (fun p => page_size <= length p) (removelast (pages evs))
    /\ (Exists transport_fault evs -> exists e, fst r = Raise e)
    /\ (forall st', fst r = Ok st' ->
        (exists m, all_docs st' = firstn m (all_docs st ++ concat (pages evs)))
        /\ (truthy top = false ->
            all_docs st' = all_docs st ++ concat (pages evs)
            /\ exists ps last,
                pages evs = ps ++ [last] /\ length last < page_size)).
Proof.
  induction fuel as [| fuel IH]; intros st t.
  - exists []. simpl. rewrite app_nil_r.
    repeat split; try (constructor || discriminate || easy).
    now destruct (bar_on host pbar).
  - simpl export_loop. unfold bind at 1. rewrite export_page_run.
    set (q := page_query select_fields filter_expression (skip st)).
    assert (Hq : asked client (q, search client (search_calls st) q))
      by (split; [reflexivity | now exists (search_calls st)]).
    destruct (search client (search_calls st) q) as [[| d p] | e] eqn:Hans.
    + exists [Searched q (Value [])]. unfold ret. simpl.
      repeat split; auto.
      * now destruct (bar_on host pbar).
      * rewrite Exists_cons, Exists_nil. simpl. tauto.
      * injection H as <-. simpl. exists (length (all_docs st)).
        now rewrite app_nil_r, firstn_all.
      * injection H as <-. simpl. now rewrite app_nil_r.
      * exists [], []. split; [reflexivity | unfold page_size; simpl; lia].
    + set (page := d :: p) in *.
      assert (Hne : nonempty page = true) by reflexivity. clearbody page.
      pose proof (progress_quiet (all_docs st ++ page) page) as HP.
      cbv zeta in HP. destruct HP as (Pq & Pw & Pb & Pf).
      set (pe := progress_events host show_progress total_docs pbar
                                 (all_docs st ++ page) page) in *.
      clearbody pe. unfold after_page.
      destruct (top_reached top (all_docs st ++ page)) eqn:Htop;
        [| destruct (length page <? page_size) eqn:Hshort].
      * exists (Searched q (Value page) :: pe). unfold ret. simpl.
        unfold pages. simpl. rewrite Pq, Pw, Pb, Hne. simpl.
        rewrite Exists_cons. simpl.
        repeat split; auto; try tauto.
        all: try (now destruct (bar_on host pbar)).
        all: try (apply top_reached_truthy in Htop; congruence).
        injection H as <-. simpl. rewrite app_nil_r.
        apply truncate_prefix.
      * exists (Searched q (Value page) :: pe). unfold ret. simpl.
        unfold pages. simpl. rewrite Pq, Pw, Pb, Hne. simpl.
        rewrite Exists_cons. simpl.
        repeat split; auto; try tauto.
        all: try (now destruct (bar_on host pbar)).
        all: try (injection H as <-; simpl; rewrite app_nil_r).
        -- exists (length (all_docs st ++ page)). now rewrite firstn_all.
        -- reflexivity.
        -- exists [], page. split; [reflexivity |].
           now apply Nat.ltb_lt in Hshort.
      * match goal with
        | |- context [export_loop _ _ _ _ _ _ fuel _ _ ?s ?u] =>
            destruct (IH s u)
              as (evs & Ht & Hw & Hqs & Hc & Hb & Hfull & Hfault & Hok)
        end.
        cbv zeta in *. simpl skip in Hc. simpl all_docs in Hok.
        exists ((Searched q (Value page) :: pe) ++ evs).
        rewrite <- app_assoc in Ht. rewrite Ht.
        rewrite queries_app, written_app, bar_updates_app, pages_app,
          Exists_app, Exists_cons.
        unfold pages in *. simpl. rewrite Pq, Pw, Pb, Hw, Hb, Hne. simpl.
        apply Nat.ltb_ge in Hshort.
        repeat split; auto; try tauto.
        all: try (now destruct (bar_on host pbar)).
        -- now apply Forall_removelast_cons.
        -- destruct (Hok st' H) as [[m Hm] _]. exists m.
           now rewrite Hm, <- app_assoc.
        -- destruct (Hok st' H) as [_ Hno]. destruct (Hno H0) as [Hall _].
           now rewrite Hall, <- app_assoc.
        -- destruct (Hok st' H) as [_ Hno].
           destruct (Hno H0) as (_ & ps & last & Hps & Hlast).
           exists (page :: ps), last. rewrite Hps. now split.
    + exists [Searched q (Error e)]. simpl.
      repeat split; auto; try discriminate.
      * now destruct (bar_on host pbar).
      * now exists e.
Qed.

End ExportFacts.

(** ** The export run as a whole *)

Lemma export_unfold client host select_fields filter_expression top
      show_progress fuel :
  export_search_index_to_json client host select_fields filter_expression
                              top show_progress fuel []
  = match get_count client with
    | Error e => (Ok 0, [Counted (Error e); Printed (MsgExportError e)])
    | Value count =>
        let total := displayed_total top count in
        let pbar := made_bar host show_progress total in
        export_finish host show_progress pbar
          (export_loop client host select_fields filter_expression top
                       show_progress fuel total pbar first_page
                       ([Counted (Value count); Printed (MsgFound total)]
                          ++ opening host show_progress total))
    end.
Proof.
  unfold export_search_index_to_json, export_pages, export_finish, opening,
    closing, made_bar, first_page.
  py_unfold.
  destruct (get_count client) as [count | e]; [| reflexivity].
  cbv zeta.
  destruct show_progress, (tqdm_available host); simpl andb; cbv beta iota.
  all: simpl app.
  all: match goal with
       | |- context [export_loop ?a ?b ?c ?d ?e ?f ?g ?h ?i ?j ?k] =>
           destruct (export_loop a b c d e f g h i j k) as [[st | e0 |] t1]
       end; [| reflexivity | reflexivity].
  all: unfold bar_on; try destruct (bar_truthy host _); cbv beta iota.
  all: destruct (output_writable host) as [[] | e0]; cbv beta iota.
  all: rewrite <- ?app_assoc, ?app_nil_r; reflexivity.
Qed.

Lemma opening_quiet host show_progress total :
  let evs := opening host show_progress total in
  queries evs = [] /\ written evs = [] /\ bar_updates evs = []
  /\ ~ Exists transport_fault evs.
Proof.
  unfold opening. destruct show_progress, (tqdm_available host); simpl.
  all: repeat split; auto.
  all: rewrite ?Exists_cons, Exists_nil; simpl; tauto.
Qed.

Lemma closing_quiet host show_progress pbar :
  let evs := closing host show_progress pbar in
  queries evs = [] /\ written evs = [] /\ bar_updates evs = []
  /\ ~ Exists transport_fault evs.
Proof.
  unfold closing. destruct (bar_on host pbar); [| destruct show_progress].
  all: simpl; repeat split; auto.
  all: rewrite ?Exists_cons, Exists_nil; simpl; tauto.
Qed.

(** C5: the run never ends in a raised exception, and when any transport
    call of the run raised, it returns 0 after printing the error, without
    having written a snapshot. *)
Theorem export_fault_gives_zero
        client host select_fields filter_expression top show_progress fuel :
  let r := export_search_index_to_json client host select_fields
                                       filter_expression top show_progress
                                       fuel [] in
  (forall e, fst r <> Raise e)
  /\ (Exists transport_fault (snd r) ->
      fst r = Ok 0
      /\ written (snd r) = []
      /\ exists e, In (Printed (MsgExportError e)) (snd r)).
Proof.
  cbv zeta. rewrite export_unfold.
  destruct (get_count client) as [count | e].
  2:{ simpl. split; [discriminate |]. intros _.
      repeat split; auto. exists e. auto. }
  cbv zeta.
  set (total := displayed_total top count).
  set (pbar := made_bar host show_progress total).
  pose proof (opening_quiet host show_progress total) as HO.
  cbv zeta in HO. destruct HO as (Oq & Ow & Ob & Of).
  pose proof (closing_quiet host show_progress pbar) as HC.
  cbv zeta in HC. destruct HC as (Cq & Cw & Cb & Cf).
  set (t0 := [Counted (Value count); Printed (MsgFound total)]
               ++ opening host show_progress total).
  assert (Hw0 : written t0 = []) by (unfold t0; now rewrite written_app, Ow).
  assert (Hf0 : ~ Exists transport_fault t0).
  { unfold t0. rewrite Exists_app, !Exists_cons, Exists_nil. simpl. tauto. }
  clearbody t0.
  destruct (export_loop_run client host select_fields filter_expression top
                            show_progress total pbar fuel first_page t0)
    as (evs & Ht & Hw & _ & _ & _ & _ & Hfault & _).
  cbv zeta in Ht, Hfault.
  destruct (export_loop _ _ _ _ _ _ _ _ _ _ _) as [[st | e |] t1];
    simpl in Ht, Hfault; subst t1; unfold export_finish.
  - destruct (output_writable host) as [[] | e]; simpl fst; simpl snd.
    all: split; [discriminate |].
    all: rewrite !Exists_app, ?Exists_cons, ?Exists_nil; simpl.
    all: intros H; exfalso.
    all: assert (Hev : Exists transport_fault evs) by tauto.
    all: destruct (Hfault Hev) as [e' He']; discriminate.
  - simpl fst; simpl snd. split; [discriminate |]. intros _.
    split; [reflexivity |]. split.
    + now rewrite !written_app, Hw0, Hw.
    + exists e. rewrite !in_app_iff. simpl. auto.
  - simpl fst; simpl snd. split; [discriminate |].
    rewrite Exists_app. intros H; exfalso.
    assert (Hev : Exists transport_fault evs) by tauto.
    destruct (Hfault Hev) as [e' He']; discriminate.
Qed.

(** What every export run satisfies, whatever the service answers. *)
Lemma export_run client host select_fields filter_expression top
      show_progress fuel :
  let r := export_search_index_to_json client host select_fields
                                       filter_expression top show_progress
                                       fuel [] in
  let t := snd r in
  Forall (asked client) (queries t)
  /\ cursor_ok 0 (queries t)
  /\ Forall (fun p => page_size <= length p) (removelast (pages t))
  /\ (forall count,
        get_count client = Value count ->
        bar_updates t
        = if bar_on host (made_bar host show_progress
                                   (displayed_total top count))
          then map (@length Record) (filter (@nonempty Record) (pages t))
          else [])
  /\ (forall docs,
        In docs (written t) ->
        written t = [docs]
        /\ fst r = Ok (length docs)
        /\ (exists m, docs = firstn m (concat (pages t)))
        /\ (truthy top = false ->
            docs = concat (pages t)
            /\ exists ps last,
                pages t = ps ++ [last] /\ length last < page_size)).
Proof.
  cbv zeta. rewrite export_unfold.
  destruct (get_count client) as [count | e].
  2:{ simpl. repeat split; try constructor; try discriminate; contradiction. }
  cbv zeta.
  set (total := displayed_total top count).
  set (pbar := made_bar host show_progress total).
  pose proof (opening_quiet host show_progress total) as HO.
  cbv zeta in HO. destruct HO as (Oq & Ow & Ob & _).
  pose proof (closing_quiet host show_progress pbar) as HC.
  cbv zeta in HC. destruct HC as (Cq & Cw & Cb & _).
  set (t0 := [Counted (Value count); Printed (MsgFound total)]
               ++ opening host show_progress total).
  assert (Hq0 : queries t0 = []) by (unfold t0; now rewrite queries_app, Oq).
  assert (Hw0 : written t0 = []) by (unfold t0; now rewrite written_app, Ow).
  assert (Hb0 : bar_updates t0 = [])
    by (unfold t0; now rewrite bar_updates_app, Ob).
  clearbody t0.
  destruct (export_loop_run client host select_fields filter_expression top
                            show_progress total pbar fuel first_page t0)
    as (evs & Ht & Hw & Hasked & Hcur & Hbar & Hfull & _ & Hok).
  cbv zeta in Ht, Hok. simpl skip in Hcur. simpl all_docs in Hok.
  destruct (export_loop _ _ _ _ _ _ _ _ _ _ _) as [o t1].
  simpl in Ht. subst t1. simpl fst in Hok.
  assert (Hfin : forall tail,
             queries tail = [] -> bar_updates tail = [] ->
             queries ((t0 ++ evs) ++ tail) = queries evs
             /\ pages ((t0 ++ evs) ++ tail) = pages evs
             /\ bar_updates ((t0 ++ evs) ++ tail) = bar_updates evs).
  { intros tail Hq Hb. unfold pages.
    rewrite !queries_app, !bar_updates_app, Hq0, Hb0, Hq, Hb.
    simpl. now rewrite !app_nil_r. }
  unfold export_finish.
  destruct o as [st | e |].
  - destruct (Hok st eq_refl) as [Hprefix Hall].
    destruct (output_writable host) as [[] | e]; simpl fst; simpl snd.
    + destruct (Hfin (closing host show_progress pbar
                        ++ [Written (all_docs st);
                            Printed (MsgExportDone (length (all_docs st)))]))
        as (Eq & Ep & Eb).
      { now rewrite queries_app, Cq. }
      { now rewrite bar_updates_app, Cb. }
      rewrite Eq, Ep, Eb, !written_app, Hw0, Hw, Cw. simpl.
      repeat split; auto.
      * intros c [= <-]. exact Hbar.
      * destruct H as [<- | []]. reflexivity.
      * destruct H as [<- | []]. reflexivity.
      * destruct H as [<- | []]. exact Hprefix.
      * destruct H as [<- | []]. now apply Hall.
      * destruct H as [<- | []]. now apply Hall.
    + destruct (Hfin (closing host show_progress pbar
                        ++ [Printed (MsgExportError e)]))
        as (Eq & Ep & Eb).
      { now rewrite queries_app, Cq. }
      { now rewrite bar_updates_app, Cb. }
      rewrite Eq, Ep, Eb, !written_app, Hw0, Hw, Cw. simpl.
      repeat split; auto; try contradiction.
      intros c [= <-]. exact Hbar.
  - simpl fst; simpl snd.
    destruct (Hfin [Printed (MsgExportError e)] eq_refl eq_refl)
      as (Eq & Ep & Eb).
    rewrite Eq, Ep, Eb, !written_app, Hw0, Hw. simpl.
    repeat split; auto; try contradiction.
    intros c [= <-]. exact Hbar.
  - simpl fst; simpl snd.
    destruct (Hfin [] eq_refl eq_refl) as (Eq & Ep & Eb).
    rewrite app_nil_r in Eq, Ep, Eb.
    rewrite Eq, Ep, Eb, !written_app, Hw0, Hw. simpl.
    repeat split; auto; try contradiction.
    intros c [= <-]. exact Hbar.
Qed.

(** ** Cursor advance *)

Lemma firstn_plus {A : Type} (l : list A) (n k : nat) :
  firstn (n + k) l = firstn n l ++ firstn k (skipn n l).
Proof.
  revert l. induction n as [| n IH]; intros l; [reflexivity |].
  destruct l as [| a l]; simpl.
  - now rewrite firstn_nil.
  - now rewrite IH.
Qed.

Lemma firstn_own_length {A : Type} (l coll : list A) (n : nat) :
  l = firstn n coll -> l = firstn (length l) coll.
Proof.
  intros ->. rewrite length_firstn. now rewrite firstn_min_length.
Qed.

(** Pages fetched under [cursor_ok] from a service that [serves] a
    collection lie side by side in it. *)
Lemma pages_tile client coll : forall qs s,
  serves client coll ->
  Forall (asked client) qs ->
  cursor_ok s qs ->
  firstn s coll ++ concat (received qs)
  = firstn (s + length (concat (received qs))) coll.
Proof.
  intros qs s Hserves. revert s.
  induction qs as [| [q a] qs IH]; intros s Hasked Hcur.
  - simpl. now rewrite app_nil_r, Nat.add_0_r.
  - inversion_clear Hasked as [| ? ? [_ [c Hc]] Hrest].
    destruct Hcur as [Hskip Hcur]. simpl in Hc, Hskip.
    destruct a as [p | e]; simpl in *.
    + symmetry in Hc. destruct (Hserves c q p Hc) as [k Hk].
      rewrite Hskip in Hk.
      assert (Hp : p = firstn (length p) (skipn s coll))
        by (eapply firstn_own_length; eassumption).
      rewrite app_assoc, length_app, Nat.add_assoc.
      rewrite <- (IH (s + length p) Hrest Hcur).
      f_equal. rewrite firstn_plus. now rewrite <- Hp.
    + rewrite Nat.add_0_r in Hcur. now apply IH.
Qed.

(** ** Termination of the paging loop *)

Lemma top_unset_never_reached (top : option Z) (docs : list Record) :
  truthy top = false -> top_reached top docs = false.
Proof.
  unfold truthy, top_reached. destruct top as [z |]; [| reflexivity].
  now intros ->.
Qed.

Lemma export_loop_stops client host select_fields filter_expression top
      show_progress total_docs pbar last :
  truthy top = false ->
  length last < page_size ->
  forall init fuel st t,
    served client select_fields filter_expression
           (search_calls st) (skip st) (init ++ [last]) ->
    Forall (fun p => page_size <= length p) init ->
    length init < fuel ->
    exists st' evs,
      export_loop client host select_fields filter_expression top
                  show_progress fuel total_docs pbar st t
      = (Ok st', t ++ evs)
      /\ all_docs st' = all_docs st ++ concat init ++ last
      /\ pages evs = init ++ [last]
      /\ written evs = [].
Proof.
  intros Htop Hlast.
  induction init as [| p0 init IH]; intros fuel st t Hserved Hfull Hfuel.
  - destruct fuel as [| fuel]; [lia |].
    destruct Hserved as [Hans _].
    simpl export_loop. unfold bind at 1.
    rewrite export_page_run, Hans.
    destruct last as [| d p].
    + eexists. eexists. unfold ret.
      split; [reflexivity |]. simpl. now rewrite app_nil_r.
    + unfold after_page. rewrite top_unset_never_reached by assumption.
      apply Nat.ltb_lt in Hlast. rewrite Hlast.
      eexists. eexists. unfold ret. split; [reflexivity |].
      destruct (progress_quiet host show_progress total_docs pbar
                               (all_docs st ++ d :: p) (d :: p))
        as (Pq & Pw & _).
      unfold pages. simpl. rewrite Pq, Pw. auto.
  - destruct fuel as [| fuel]; [simpl in Hfuel; lia |].
    destruct Hserved as [Hans Hserved].
    inversion_clear Hfull as [| ? ? Hp0 Hinit].
    simpl export_loop. unfold bind at 1.
    rewrite export_page_run, Hans.
    destruct p0 as [| d p]; [unfold page_size in Hp0; simpl in Hp0; lia |].
    set (page := d :: p) in *.
    unfold after_page. rewrite top_unset_never_reached by assumption.
    apply Nat.ltb_ge in Hp0. rewrite Hp0.
    match goal with
    | |- context [export_loop _ _ _ _ _ _ fuel _ _ ?s ?u] =>
        destruct (IH fuel s u) as (st' & evs & Hrun & Hall & Hpages & Hw)
    end.
    { exact Hserved. }
    { exact Hinit. }
    { simpl in Hfuel. lia. }
    exists st'. eexists. rewrite Hrun. split.
    { rewrite <- app_assoc. reflexivity. }
    destruct (progress_quiet host show_progress total_docs pbar
                             (all_docs st ++ page) page)
      as (Pq & Pw & _).
    simpl in Hall. unfold pages in *.
    rewrite queries_app, written_app, received_app. simpl.
    rewrite Pq, Pw, Hw, Hpages, Hall. simpl.
    rewrite <- !app_assoc. auto.
Qed.

(** C3: an export without a [top] bound writes the concatenation of the
    pages it fetched, so the snapshot has as many records as the pages'
    sizes add up to; the pages before the last one are all full and the
    last one has fewer than [page_size] records (possibly none).  And the
    loop does stop there: once the service's answers are full pages followed
    by a short one, the run fetches exactly these pages and writes them. *)
Theorem export_unbounded_pages
        client host select_fields filter_expression top show_progress fuel :
  truthy top = false ->
  let r := export_search_index_to_json client host select_fields
                                       filter_expression top show_progress
                                       fuel [] in
  let t := snd r in
  (forall docs,
      In docs (written t) ->
      length docs = total (@length Record) (pages t)
      /\ docs = concat (pages t)
      /\ exists init last,
          pages t = init ++ [last]
          /\ Forall (fun p => page_size <= length p) init
          /\ length last < page_size)
  /\ (forall count init last,
        get_count client = Value count ->
        output_writable host = Value tt ->
        served client select_fields filter_expression 0 0 (init ++ [last]) ->
        Forall (fun p => page_size <= length p) init ->
        length last < page_size ->
        length init < fuel ->
        fst r = Ok (length (concat init ++ last))
        /\ written t = [concat init ++ last]
        /\ pages t = init ++ [last]).
Proof.
  intros Htop. cbv zeta. split.
  - pose proof (export_run client host select_fields filter_expression top
                           show_progress fuel) as H.
    cbv zeta in H. destruct H as (_ & _ & Hfull & _ & Hdocs).
    intros docs Hin.
    destruct (Hdocs docs Hin) as (_ & _ & _ & Hno).
    destruct (Hno Htop) as (Hall & init & last & Hpages & Hlast).
    split; [rewrite Hall; apply length_concat_total |].
    split; [exact Hall |].
    exists init, last. repeat split; auto.
    rewrite Hpages, removelast_last in Hfull. exact Hfull.
  - intros count init last Hcount Hwritable Hserved Hfull Hlast Hfuel.
    rewrite export_unfold, Hcount. cbv zeta.
    set (total := displayed_total top count).
    set (pbar := made_bar host show_progress total).
    destruct (opening_quiet host show_progress total) as (Oq & Ow & _).
    destruct (closing_quiet host show_progress pbar) as (Cq & Cw & _).
    match goal with
    | |- context [export_loop _ _ _ _ _ _ _ _ _ ?s ?u] =>
        destruct (@export_loop_stops client host select_fields
                    filter_expression top show_progress total pbar last
                    Htop Hlast init fuel s u Hserved Hfull Hfuel)
          as (st' & evs & Hrun & Hall & Hpages & Hw)
    end.
    rewrite Hrun. unfold export_finish. rewrite Hwritable.
    simpl fst. simpl snd. simpl in Hall. rewrite Hall.
    split; [reflexivity |].
    unfold pages in *.
    simpl. rewrite !written_app, !queries_app, Ow, Oq, Cw, Cq, Hw. simpl.
    rewrite app_nil_r. auto.
Qed.

(** ** A service that returns full pages *)

Lemma top_reached_spec (top : option Z) (docs : list Record) :
  top_nonneg top ->
  top_reached top docs = true <->
  exists z, top = Some z /\ (0 < z)%Z /\ Z.to_nat z <= length docs.
Proof.
  intros Hnn. unfold top_reached. destruct top as [z |]; simpl in Hnn.
  - rewrite andb_true_iff, negb_true_iff, Z.eqb_neq, Z.leb_le. split.
    + intros [Hz Hle]. exists z. repeat split; auto; lia.
    + intros (z' & [= <-] & Hz & Hle). lia.
  - split; [discriminate | intros (z & H & _); discriminate].
Qed.

Lemma honest_loop client host select_fields filter_expression top
      show_progress total_docs pbar coll :
  honest client coll ->
  top_nonneg top ->
  let target := export_bound top (length coll) in
  forall fuel st t,
    all_docs st = firstn (skip st) coll ->
    skip st <= target ->
    (forall z, top = Some z -> (0 < z)%Z -> skip st < Z.to_nat z) ->
    target - skip st < page_size * fuel ->
    exists st' evs,
      export_loop client host select_fields filter_expression top
                  show_progress fuel total_docs pbar st t
      = (Ok st', t ++ evs)
      /\ all_docs st' = firstn target coll
      /\ written evs = [].
Proof.
  intros Hhonest Hnn target.
  assert (Htarget : target <= length coll).
  { unfold target, export_bound. destruct top as [z |]; [| lia].
    destruct (0 <? z)%Z; lia. }
  induction fuel as [| fuel IH]; intros st t Hdocs Hskip Hbelow Hfuel; [lia |].
  simpl export_loop. unfold bind at 1.
  rewrite export_page_run, Hhonest.
  change (opt_top (page_query select_fields filter_expression (skip st)))
    with page_size.
  change (opt_skip (page_query select_fields filter_expression (skip st)))
    with (skip st).
  set (page := firstn page_size (skipn (skip st) coll)).
  assert (Hlen : length page = Nat.min page_size (length coll - skip st))
    by (unfold page; now rewrite length_firstn, length_skipn).
  assert (Hnext : all_docs st ++ page
                  = firstn (skip st + length page) coll).
  { rewrite Hdocs, firstn_plus. f_equal. unfold page.
    now rewrite length_firstn, firstn_min_length. }
  assert (Hsize : length (all_docs st ++ page) = skip st + length page).
  { rewrite Hnext, length_firstn. lia. }
  destruct page as [| d p] eqn:Hpage.
  - eexists. eexists. unfold ret. split; [reflexivity |].
    split; [| reflexivity]. cbn [all_docs]. rewrite Hdocs. f_equal.
    cbn [length] in Hlen. unfold page_size in Hlen. lia.
  - rewrite <- Hpage in *. clear Hpage.
    destruct (progress_quiet host show_progress total_docs pbar
                             (all_docs st ++ page) page)
      as (_ & Pw & _).
    unfold after_page.
    destruct (top_reached top (all_docs st ++ page)) eqn:Htop.
    + apply top_reached_spec in Htop; [| assumption].
      destruct Htop as (z & Hz & Hpos & Hle).
      eexists. eexists. unfold ret. split; [reflexivity |].
      split; [| simpl; exact Pw]. simpl.
      rewrite Hz. unfold truncate, py_slice_to.
      rewrite slice_bound_nonneg by lia.
      rewrite firstn_min_length, Hnext, firstn_firstn.
      f_equal. unfold target, export_bound. rewrite Hz.
      destruct (Z.ltb_spec 0 z); lia.
    + assert (Hnot : forall z, top = Some z -> (0 < z)%Z ->
                               skip st + length page < Z.to_nat z).
      { intros z Hz Hpos.
        destruct (Nat.lt_ge_cases (skip st + length page) (Z.to_nat z))
          as [Hlt | Hge]; [assumption |].
        assert (top_reached top (all_docs st ++ page) = true);
          [| congruence].
        apply top_reached_spec; [assumption |].
        exists z. repeat split; auto. lia. }
      assert (Hgoal : length coll <= skip st + length page ->
                      firstn (skip st + length page) coll
                      = firstn target coll).
      { intros Hall. rewrite !firstn_all2; auto.
        unfold target, export_bound. destruct top as [z |]; [| lia].
        destruct (Z.ltb_spec 0 z); [| lia].
        specialize (Hnot z eq_refl ltac:(assumption)). lia. }
      destruct (length page <? page_size) eqn:Hshort.
      * apply Nat.ltb_lt in Hshort.
        eexists. eexists. unfold ret. split; [reflexivity |].
        split; [| simpl; exact Pw]. simpl.
        rewrite Hnext. apply Hgoal. lia.
      * apply Nat.ltb_ge in Hshort.
        assert (Hle : skip st + length page <= target).
        { unfold target, export_bound in *.
          destruct top as [z |]; [| lia].
          destruct (Z.ltb_spec 0 z); [| lia].
          specialize (Hnot z eq_refl ltac:(assumption)). lia. }
        match goal with
        | |- context [export_loop _ _ _ _ _ _ fuel _ _ ?s ?u] =>
            destruct (IH s u) as (st' & evs & Hrun & Hall & Hw)
        end.
        { exact Hnext. }
        { exact Hle. }
        { exact Hnot. }
        { cbn [skip]. unfold page_size in *. lia. }
        exists st'. eexists. rewrite Hrun. split.
        { rewrite <- app_assoc. reflexivity. }
        split; [exact Hall |].
        rewrite <- app_comm_cons. simpl. now rewrite written_app, Pw, Hw.
Qed.

Lemma export_honest client host select_fields filter_expression top
      show_progress fuel coll count :
  honest client coll ->
  top_nonneg top ->
  get_count client = Value count ->
  output_writable host = Value tt ->
  export_bound top (length coll) < page_size * fuel ->
  let r := export_search_index_to_json client host select_fields
                                       filter_expression top show_progress
                                       fuel [] in
  let docs := firstn (export_bound top (length coll)) coll in
  fst r = Ok (length docs) /\ written (snd r) = [docs].
Proof.
  intros Hhonest Hnn Hcount Hwritable Hfuel. cbv zeta.
  rewrite export_unfold, Hcount. cbv zeta.
  set (total := displayed_total top count).
  set (pbar := made_bar host show_progress total).
  destruct (opening_quiet host show_progress total) as (_ & Ow & _).
  destruct (closing_quiet host show_progress pbar) as (_ & Cw & _).
  match goal with
  | |- context [export_loop _ _ _ _ _ _ _ _ _ ?s ?u] =>
      destruct (@honest_loop client host select_fields filter_expression top
                  show_progress total pbar coll Hhonest Hnn fuel s u)
        as (st' & evs & Hrun & Hall & Hw)
  end.
  { reflexivity. }
  { cbn [skip first_page]. lia. }
  { intros z _ Hz. cbn [skip first_page]. lia. }
  { cbn [skip first_page]. lia. }
  rewrite Hrun. unfold export_finish. rewrite Hwritable.
  cbn [fst snd]. rewrite Hall. split; [reflexivity |].
  rewrite !written_app, Ow, Cw, Hw. reflexivity.
Qed.

Lemma honest_serves client coll : honest client coll -> serves client coll.
Proof.
  intros Hhonest c q p Hp. rewrite Hhonest in Hp.
  injection Hp as <-. now exists (opt_top q).
Qed.

(** C4: with [top = n] set to a positive number and at least [n] records
    held by a service that returns full pages, the run returns [n] and
    writes the first [n] records in the order the service returns them.
    Every page query asks for [page_size] records whatever [n] is; the
    snapshot is the accumulated pages cut down to their first [n]. *)
Theorem export_top_bound
        client host select_fields filter_expression show_progress fuel
        coll count (n : Z) :
  honest client coll ->
  get_count client = Value count ->
  output_writable host = Value tt ->
  (0 < n)%Z ->
  Z.to_nat n <= length coll ->
  Z.to_nat n < page_size * fuel ->
  let r := export_search_index_to_json client host select_fields
                                       filter_expression (Some n)
                                       show_progress fuel [] in
  let t := snd r in
  fst r = Ok (Z.to_nat n)
  /\ written t = [firstn (Z.to_nat n) coll]
  /\ Forall (fun qa => opt_top (fst qa) = page_size) (queries t)
  /\ firstn (Z.to_nat n) coll = firstn (Z.to_nat n) (concat (pages t)).
Proof.
  intros Hhonest Hcount Hwritable Hpos Hle Hfuel.
  assert (Hbound : export_bound (Some n) (length coll) = Z.to_nat n).
  { unfold export_bound. destruct (Z.ltb_spec 0 n); lia. }
  pose proof (@export_honest client host select_fields filter_expression
                (Some n) show_progress fuel coll count Hhonest
                ltac:(simpl; lia) Hcount Hwritable
                ltac:(rewrite Hbound; exact Hfuel)) as H.
  pose proof (export_run client host select_fields filter_expression
                         (Some n) show_progress fuel) as R.
  cbv zeta in *. rewrite Hbound in H. destruct H as [Hret Hwritten].
  rewrite length_firstn, Nat.min_l in Hret by assumption.
  destruct R as (Hasked & _ & _ & _ & Hdocs).
  split; [exact Hret |]. split; [exact Hwritten |].
  split.
  - eapply Forall_impl; [| exact Hasked]. now intros qa [Htop _].
  - destruct (Hdocs (firstn (Z.to_nat n) coll)) as (_ & _ & [m Hm] & _).
    { rewrite Hwritten. now left. }
    apply firstn_own_length in Hm.
    rewrite length_firstn, Nat.min_l in Hm by assumption. exact Hm.
Qed.

Lemma export_loop_top_zero client host select_fields filter_expression
      show_progress total_docs pbar : forall fuel st t,
  export_loop client host select_fields filter_expression (Some 0%Z)
              show_progress fuel total_docs pbar st t
  = export_loop client host select_fields filter_expression None
                show_progress fuel total_docs pbar st t.
Proof.
  induction fuel as [| fuel IH]; intros st t; [reflexivity |].
  simpl export_loop. unfold bind.
  change (export_page client host select_fields filter_expression (Some 0%Z)
                      show_progress total_docs pbar st t)
    with (export_page client host select_fields filter_expression None
                      show_progress total_docs pbar st t).
  destruct (export_page _ _ _ _ _ _ _ _ _ _) as [[[st' | st'] | e |] t'];
    auto.
Qed.

(** C9: [top = 0] is the same as no bound at all: the bound is never taken
    as reached, the run is the run without a bound, and from a service that
    returns full pages it fetches and writes the whole collection. *)
Theorem export_top_zero_is_unset
        client host select_fields filter_expression show_progress fuel :
  let run top := export_search_index_to_json client host select_fields
                                             filter_expression top
                                             show_progress fuel [] in
  run (Some 0%Z) = run None
  /\ (forall docs, top_reached (Some 0%Z) docs = false)
  /\ (forall coll count,
        honest client coll ->
        get_count client = Value count ->
        output_writable host = Value tt ->
        length coll < page_size * fuel ->
        fst (run (Some 0%Z)) = Ok (length coll)
        /\ written (snd (run (Some 0%Z))) = [coll]).
Proof.
  cbv zeta. split; [| split].
  - rewrite !export_unfold.
    destruct (get_count client) as [count | e]; [| reflexivity].
    cbv zeta. change (displayed_total (Some 0%Z) count) with count.
    change (displayed_total None count) with count.
    now rewrite export_loop_top_zero.
  - reflexivity.
  - intros coll count Hhonest Hcount Hwritable Hfuel.
    pose proof (@export_honest client host select_fields filter_expression
                  (Some 0%Z) show_progress fuel coll count Hhonest
                  ltac:(simpl; lia) Hcount Hwritable Hfuel) as H.
    cbv zeta in H. change (export_bound (Some 0%Z) (length coll))
      with (length coll) in H.
    now rewrite firstn_all in H.
Qed.

(** ** The progress counter *)

Lemma positions_from (pos : nat) (incs : list nat) :
  Forall (fun p => pos <= p <= pos + total (fun n => n) incs)
         (positions pos incs).
Proof.
  revert pos. induction incs as [| n incs IH]; intros pos; [constructor |].
  simpl. constructor; [lia |].
  eapply Forall_impl; [| apply IH]. simpl. intros p Hp. lia.
Qed.

Lemma positions_sorted (pos : nat) (incs : list nat) :
  StronglySorted le (positions pos incs).
Proof.
  revert pos. induction incs as [| n incs IH]; intros pos; [constructor |].
  simpl. constructor; [apply IH |].
  eapply Forall_impl; [| apply positions_from]. simpl. intros p Hp. lia.
Qed.

Lemma bar_steps_bound host pbar
      (us : list (list Record * result (list IndexingResult))) :
  total (fun n => n) (flat_map (bar_step host pbar) us)
  <= total (@length Record) (map fst us).
Proof.
  induction us as [| [batch answer] us IH]; [constructor |].
  simpl. rewrite total_app. unfold bar_step at 1. simpl.
  destruct answer; [destruct (bar_on host pbar) |]; simpl; lia.
Qed.

Lemma page_steps_bound (ps : list (list Record)) :
  total (fun n => n) (map (@length Record) (filter (@nonempty Record) ps))
  <= length (concat ps).
Proof.
  induction ps as [| p ps IH]; [constructor |].
  simpl. rewrite length_app. destruct p; simpl in *; lia.
Qed.

(** C7 (as the code has it): the counter of the progress bar only moves
    forward.  On import it advances by the size of each batch whose upload
    call came back, whatever the mix of outcomes in the answer, and not for
    a batch whose call raised; it never passes the number of input records.
    On export it advances by the size of each non-empty page, and without a
    [top] bound it never passes the count of a service that holds that many
    records. *)
Theorem progress_counter_advances
        client host show_progress :
  (forall batch_size merge_documents documents,
      input_file host = Value documents ->
      documents <> [] ->
      (0 < batch_size)%Z ->
      let t := snd (import_json_to_search_index
                      client host batch_size show_progress merge_documents [])
      in
      let pbar := made_bar host show_progress (Z.of_nat (length documents)) in
      map fst (uploads t) = chunks documents batch_size
      /\ bar_updates t = flat_map (bar_step host pbar) (uploads t)
      /\ StronglySorted le (positions 0 (bar_updates t))
      /\ Forall (fun p => p <= length documents)
                (positions 0 (bar_updates t)))
  /\ (forall select_fields filter_expression top fuel count,
        get_count client = Value count ->
        let t := snd (export_search_index_to_json
                        client host select_fields filter_expression top
                        show_progress fuel []) in
        let pbar := made_bar host show_progress (displayed_total top count) in
        bar_updates t
        = (if bar_on host pbar
           then map (@length Record) (filter (@nonempty Record) (pages t))
           else [])
        /\ StronglySorted le (positions 0 (bar_updates t))
        /\ (forall coll,
              truthy top = false ->
              serves client coll ->
              count = Z.of_nat (length coll) ->
              Forall (fun p => (Z.of_nat p <= displayed_total top count)%Z)
                     (positions 0 (bar_updates t)))).
Proof.
  split.
  - intros batch_size merge_documents documents Hfile Hne Hb.
    destruct (@import_run client host batch_size show_progress
                          merge_documents documents _ Hfile Hne
                          (py_range_up _ Hb))
      as (t & Hrun & Hus & _ & Hbar & _).
    cbv zeta. rewrite Hrun. cbn [snd].
    assert (Hchunks : map fst (uploads t) = chunks documents batch_size).
    { rewrite Hus. unfold chunks. now rewrite py_range_up by assumption. }
    split; [exact Hchunks |]. split; [exact Hbar |].
    split; [apply positions_sorted |].
    eapply Forall_impl; [| apply positions_from].
    cbv beta. intros p [_ Hp].
    rewrite Hbar in Hp.
    pose proof (bar_steps_bound host
                  (made_bar host show_progress (Z.of_nat (length documents)))
                  (uploads t)) as Hle.
    rewrite Hchunks, <- length_concat_total, chunks_concat in Hle
      by assumption.
    lia.
  - intros select_fields filter_expression top fuel count Hcount.
    pose proof (export_run client host select_fields filter_expression top
                           show_progress fuel) as R.
    cbv zeta in *. destruct R as (Hasked & Hcur & _ & Hbar & _).
    specialize (Hbar count Hcount).
    split; [exact Hbar |]. split; [apply positions_sorted |].
    intros coll Htop Hserves ->.
    assert (Htotal : displayed_total top (Z.of_nat (length coll))
                     = Z.of_nat (length coll)).
    { unfold displayed_total, truthy in *. destruct top as [z |]; auto.
      now rewrite Htop. }
    rewrite Htotal.
    pose proof (pages_tile 0 Hserves Hasked Hcur) as Htile.
    cbn [firstn app Nat.add] in Htile.
    apply (f_equal (@length Record)) in Htile.
    rewrite length_firstn in Htile.
    eapply Forall_impl; [| apply positions_from].
    cbv beta. intros p [_ Hp]. rewrite Hbar in Hp.
    match type of Hp with
    | context [filter _ ?ps] => pose proof (page_steps_bound ps) as Hle
    end.
    unfold pages in *.
    destruct (bar_on host _); simpl in Hp; lia.
Qed.

(** ** Worked runs *)

Lemma store_aligned coll bad : aligned (store coll bad).
Proof.
  intros k batch mode results. unfold store, accepted. simpl.
  destruct bad as [b |]; [destruct (k =? b); [discriminate |] |].
  all: intros [= <-]; apply length_map.
Qed.

Lemma store_honest coll bad : honest (store coll bad) coll.
Proof.
  intros c q. reflexivity.
Qed.

(** Export of 2500 documents: three pages of 1000, 1000 and 500 records,
    and a snapshot of 2500 records. *)
Example export_2500 :
  let r := export_search_index_to_json (store (numbered 2500) None)
                                       (machine []) None None None true
                                       3 [] in
  fst r = Ok 2500
  /\ map (@length Record) (pages (snd r)) = [1000; 1000; 500]
  /\ map (fun qa => opt_skip (fst qa)) (queries (snd r)) = [0; 1000; 2000]
  /\ written (snd r) = [numbered 2500]
  /\ bar_updates (snd r) = [1000; 1000; 500].
Proof.
  vm_compute. repeat split; reflexivity.
Qed.

(** Import of 2500 records in batches of 1000 where the second call
    raises: 1500 succeeded, 1000 failed, and the run completes. *)
Example import_2500_second_batch_fails :
  let r := import_json_to_search_index (store [] (Some 1))
                                       (machine (numbered 2500))
                                       1000 true false [] in
  fst r = Ok 1500
  /\ map (fun u => length (fst u)) (uploads (snd r)) = [1000; 1000; 500]
  /\ In (Printed (MsgImportFailed 1000)) (snd r)
  /\ bar_updates (snd r) = [1000; 500].
Proof.
  vm_compute. repeat split; auto 20.
Qed.

(** The totals rest on the service answering with one outcome per record:
    the failed count of a batch is taken from the length of the answer. *)
Example import_terse_answer :
  let r := import_json_to_search_index terse (machine (numbered 3))
                                       3 true false [] in
  fst r = Ok 1
  /\ total (fun a => failed_in (fst a) (snd a)) (uploads (snd r)) = 0
  /\ (forall n, ~ In (Printed (MsgImportFailed n)) (snd r)).
Proof.
  vm_compute. repeat split; try reflexivity.
  intros n H. repeat (destruct H as [H | H]; [discriminate |]). exact H.
Qed.

(** A page larger than requested moves the cursor by its own size, not by
    the page size. *)
Example export_oversized_page :
  let r := export_search_index_to_json
             (scripted (Value 1500%Z) [Value (numbered 1500); Value []])
             (machine []) None None None true 2 [] in
  fst r = Ok 1500
  /\ map (fun qa => opt_skip (fst qa)) (queries (snd r)) = [0; 1500]
  /\ map (fun qa => opt_top (fst qa)) (queries (snd r)) = [1000; 1000].
Proof.
  vm_compute. repeat split; reflexivity.
Qed.

(** With [top = 5] the bar is created with total 5 and is then moved by the
    whole first page. *)
Example export_top_5_of_20 :
  let r := export_search_index_to_json (store (numbered 20) None)
                                       (machine []) None None (Some 5%Z) true
                                       1 [] in
  fst r = Ok 5
  /\ In (BarOpened 5) (snd r)
  /\ positions 0 (bar_updates (snd r)) = [20].
Proof.
  vm_compute. repeat split; auto 20.
Qed.

(** A negative [top] is truthy and is reached at once: the slice drops the
    last records of the first page. *)
Example export_top_negative :
  let r := export_search_index_to_json (store (numbered 20) None)
                                       (machine []) None None (Some (-5)%Z)
                                       true 1 [] in
  fst r = Ok 15 /\ written (snd r) = [numbered 15].
Proof.
  vm_compute. split; reflexivity.
Qed.

(** ** Instances *)

(** C6 at five records in batches of two. *)
Lemma import_partitions_input_witness :
  let cs := chunks (numbered 5) 2 in
  let n := length cs in
  let b := Z.to_nat 2 in
  length (numbered 5) <= n * b < length (numbered 5) + b
  /\ (forall k, k < n -> nth k cs [] = firstn b (skipn (k * b) (numbered 5)))
  /\ (forall k, k + 1 < n -> length (nth k cs []) = b)
  /\ concat cs = numbered 5
  /\ map fst (uploads (snd (import_json_to_search_index
                              (store [] None) (machine (numbered 5))
                              2 true false [])))
     = cs.
Proof.
  apply (@import_partitions_input
           (store [] None) (machine (numbered 5)) 2 true false (numbered 5)).
  - reflexivity.
  - lia.
Defined.

(** C8 at the snapshot file [[]]. *)
Lemma import_empty_is_noop_witness :
  let r := import_json_to_search_index (store [] None) (machine [])
                                       1000 true false [] in
  r = (Ok 0, [Printed MsgLoading; Printed MsgNoDocuments])
  /\ uploads (snd r) = []
  /\ (forall ev, In ev (snd r) -> ~ transport_fault ev)
  /\ (forall n, ~ In (Printed (MsgImportFailed n)) (snd r)).
Proof.
  apply (@import_empty_is_noop (store [] None) (machine []) 1000 true false).
  reflexivity.
Defined.

(** C10 at three records and a batch size of [-2]. *)
Lemma import_nonpositive_batch_size_witness :
  exists t,
    import_json_to_search_index (store [] None) (machine (numbered 3))
                                (-2) true false [] = (Ok 0, t)
    /\ uploads t = []
    /\ ((-2)%Z = 0%Z ->
        In (Printed (MsgImportError zero_step)) t
        /\ forall n, ~ In (Printed (MsgImportDone n)) t)
    /\ (((-2) < 0)%Z ->
        chunks (numbered 3) (-2) = []
        /\ In (Printed (MsgImportDone 0)) t
        /\ forall e, ~ In (Printed (MsgImportError e)) t).
Proof.
  apply (@import_nonpositive_batch_size
           (store [] None) (machine (numbered 3)) (-2) true false
           (numbered 3)).
  - reflexivity.
  - discriminate.
  - lia.
Defined.

(** C3 at a service whose first answer is a short page of three records. *)
Lemma export_unbounded_pages_witness :
  let r := export_search_index_to_json (store (numbered 3) None)
                                       (machine []) None None None true
                                       1 [] in
  let t := snd r in
  (forall docs,
      In docs (written t) ->
      length docs = total (@length Record) (pages t)
      /\ docs = concat (pages t)
      /\ exists init last,
          pages t = init ++ [last]
          /\ Forall (fun p => page_size <= length p) init
          /\ length last < page_size)
  /\ fst r = Ok 3
  /\ written t = [numbered 3]
  /\ pages t = [numbered 3].
Proof.
  destruct (@export_unbounded_pages
              (store (numbered 3) None) (machine []) None None None true 1
              eq_refl)
    as [Hsound Hstops].
  split; [exact Hsound |].
  apply (Hstops 3%Z [] (numbered 3)).
  - reflexivity.
  - reflexivity.
  - split; [reflexivity | exact I].
  - constructor.
  - unfold page_size. simpl. lia.
  - simpl. lia.
Defined.

(** C4 at [top = 3] over five records. *)
Lemma export_top_bound_witness :
  let r := export_search_index_to_json (store (numbered 5) None)
                                       (machine []) None None (Some 3%Z)
                                       true 1 [] in
  let t := snd r in
  fst r = Ok (Z.to_nat 3)
  /\ written t = [firstn (Z.to_nat 3) (numbered 5)]
  /\ Forall (fun qa => opt_top (fst qa) = page_size) (queries t)
  /\ firstn (Z.to_nat 3) (numbered 5)
     = firstn (Z.to_nat 3) (concat (pages t)).
Proof.
  apply (@export_top_bound
           (store (numbered 5) None) (machine []) None None true 1
           (numbered 5) 5 3).
  - apply store_honest.
  - reflexivity.
  - reflexivity.
  - lia.
  - simpl. lia.
  - unfold page_size. lia.
Defined.

(** C7 as stated fails on import: of two batches of one record each, the
    first upload call raising, only the second moves the counter. *)
Lemma import_progress_skips_failed_batch :
  let t := snd (import_json_to_search_index (store [] (Some 0))
                                            (machine (numbered 2))
                                            1 true false []) in
  map (@length Record) (chunks (numbered 2) 1) = [1; 1]
  /\ map (fun u => length (fst u)) (uploads t) = [1; 1]
  /\ bar_updates t = [1]
  /\ bar_updates t <> map (@length Record) (chunks (numbered 2) 1).
Proof.
  vm_compute. repeat split; try reflexivity. discriminate.
Qed.

(** C5 at a service whose second page query raises after a full page. *)
Lemma export_fault_gives_zero_witness :
  let r := export_search_index_to_json
             (scripted (Value 2000%Z)
                       [Value (numbered 1000); Error "timeout"%string])
             (machine []) None None None true 5 [] in
  fst r = Ok 0
  /\ written (snd r) = []
  /\ exists e, In (Printed (MsgExportError e)) (snd r).
Proof.
  apply (proj2 (export_fault_gives_zero
                  (scripted (Value 2000%Z)
                            [Value (numbered 1000); Error "timeout"%string])
                  (machine []) None None None true 5)).
  vm_compute.
  repeat (first [apply Exists_cons_hd; exact I | apply Exists_cons_tl]).
Defined.

(** C9 at a service holding seven records. *)
Lemma export_top_zero_is_unset_witness :
  let run top := export_search_index_to_json
                   (store (numbered 7) None) (machine []) None None top
                   true 2 [] in
  run (Some 0%Z) = run None
  /\ fst (run (Some 0%Z)) = Ok 7
  /\ written (snd (run (Some 0%Z))) = [numbered 7].
Proof.
  destruct (export_top_zero_is_unset
              (store (numbered 7) None) (machine []) None None true 2)
    as (Hsame & _ & Hall).
  split; [exact Hsame |].
  apply (Hall (numbered 7) 7%Z).
  - apply store_honest.
  - reflexivity.
  - reflexivity.
  - unfold page_size. simpl. lia.
Defined.

(** C7 as amended, at three records imported in batches of two and at an
    export from a service holding seven records. *)
Lemma progress_counter_advances_witness :
  (let t := snd (import_json_to_search_index
                   (store (numbered 7) (Some 0)) (machine (numbered 3))
                   2 true false []) in
   let pbar := made_bar (machine (numbered 3)) true 3 in
   map fst (uploads t) = chunks (numbered 3) 2
   /\ bar_updates t = flat_map (bar_step (machine (numbered 3)) pbar)
                                (uploads t)
   /\ StronglySorted le (positions 0 (bar_updates t))
   /\ Forall (fun p => p <= 3) (positions 0 (bar_updates t)))
  /\ (let t := snd (export_search_index_to_json
                      (store (numbered 7) (Some 0)) (machine (numbered 3))
                      None None None true 2 []) in
      StronglySorted le (positions 0 (bar_updates t))
      /\ Forall (fun p => (Z.of_nat p <= 7)%Z) (positions 0 (bar_updates t))).
Proof.
  destruct (progress_counter_advances
              (store (numbered 7) (Some 0)) (machine (numbered 3)) true)
    as [Himport Hexport].
  split.
  - apply (Himport 2%Z false (numbered 3)).
    + reflexivity.
    + discriminate.
    + lia.
  - destruct (Hexport None None None 2 7%Z eq_refl) as (_ & Hsorted & Hceil).
    split; [exact Hsorted |].
    apply (Hceil (numbered 7)).
    + reflexivity.
    + apply honest_serves, store_honest.
    + reflexivity.
Defined.

(** ** The import run as a whole *)

Lemma import_batch_trace client host batch_size show_progress merge_documents
      documents pbar i st t :
  let batch := py_slice documents i (i + batch_size) in
  let mode := indexing_mode merge_documents in
  let answer := upload_documents client (upload_calls st) batch mode in
  import_batch client host batch_size show_progress merge_documents
               documents pbar i st t
  = (Ok {| uploaded_count := uploaded_count st + succeeded_in answer;
           failed_count := failed_count st + failed_in batch answer;
           upload_calls := S (upload_calls st) |},
     t ++ Uploaded batch mode answer
       :: batch_events host show_progress pbar (length documents) i batch
                       (uploaded_count st) answer).
Proof.
  intros batch mode answer. unfold import_batch, batch_events. py_unfold.
  change (if merge_documents then mergeOrUpload else upload) with mode.
  fold batch. fold answer.
  destruct answer as [results | e]; simpl succeeded_in; simpl failed_in.
  - destruct (bar_on host pbar); [| destruct show_progress].
    all: cbv beta iota; rewrite <- ?app_assoc, ?app_nil_r; reflexivity.
  - rewrite Nat.add_0_r, <- app_assoc. reflexivity.
Qed.

Lemma import_unfold client host batch_size show_progress merge_documents :
  import_json_to_search_index client host batch_size show_progress
                              merge_documents []
  = match input_file host with
    | Error e => (Ok 0, [Printed MsgLoading; Printed (MsgImportError e)])
    | Value [] => (Ok 0, [Printed MsgLoading; Printed MsgNoDocuments])
    | Value (d :: ds) =>
        let documents := d :: ds in
        let total := Z.of_nat (length documents) in
        let pbar := made_bar host show_progress total in
        let t0 := [Printed MsgLoading;
                   Printed (MsgFoundToImport (length documents))]
                    ++ opening host show_progress total in
        match py_range 0 total batch_size with
        | Error e => (Ok 0, t0 ++ [Printed (MsgImportError e)])
        | Value starts =>
            import_finish host show_progress pbar
              (for_each starts
                        (import_batch client host batch_size show_progress
                                      merge_documents documents pbar)
                        first_batch t0)
        end
    end.
Proof.
  unfold import_json_to_search_index, import_batches, import_finish,
    opening, closing, made_bar, first_batch.
  py_unfold.
  destruct (input_file host) as [[| d ds] | e]; [reflexivity | | reflexivity].
  set (docs := d :: ds). change (negb (nonempty docs)) with false.
  cbv beta iota zeta.
  destruct (py_range 0 (Z.of_nat (length docs)) batch_size) as [starts | e].
  - destruct show_progress, (tqdm_available host); simpl andb;
      cbv beta iota.
    all: simpl app.
    all: match goal with
         | |- context [for_each ?a ?b ?c ?d] =>
             destruct (for_each a b c d) as [[st | e0 |] t1]
         end; [| reflexivity | reflexivity].
    all: unfold bar_on; try destruct (bar_truthy host _); cbv beta iota.
    all: destruct (0 <? failed_count st); cbv beta iota.
    all: rewrite <- ?app_assoc, ?app_nil_r; reflexivity.
  - destruct show_progress, (tqdm_available host); simpl andb;
      cbv beta iota; reflexivity.
Qed.

Lemma upload_modes_app (t1 t2 : trace) :
  upload_modes (t1 ++ t2) = upload_modes t1 ++ upload_modes t2.
Proof.
  apply flat_map_app.
Qed.

Lemma printed_app (t1 t2 : trace) :
  printed (t1 ++ t2) = printed t1 ++ printed t2.
Proof.
  apply flat_map_app.
Qed.

Lemma import_summary_app (t1 t2 : trace) :
  import_summary (t1 ++ t2) = import_summary t1 ++ import_summary t2.
Proof.
  unfold import_summary. now rewrite printed_app, flat_map_app.
Qed.

Lemma uploaded_lines_app (t1 t2 : trace) :
  uploaded_lines (t1 ++ t2) = uploaded_lines t1 ++ uploaded_lines t2.
Proof.
  unfold uploaded_lines. now rewrite printed_app, flat_map_app.
Qed.

Lemma exported_lines_app (t1 t2 : trace) :
  exported_lines (t1 ++ t2) = exported_lines t1 ++ exported_lines t2.
Proof.
  unfold exported_lines. now rewrite printed_app, flat_map_app.
Qed.

Lemma uploads_uploaded batch mode answer (t : trace) :
  uploads (Uploaded batch mode answer :: t) = (batch, answer) :: uploads t.
Proof.
  reflexivity.
Qed.

Lemma upload_modes_uploaded batch mode answer (t : trace) :
  upload_modes (Uploaded batch mode answer :: t) = mode :: upload_modes t.
Proof.
  reflexivity.
Qed.

Lemma batch_events_quiet host show_progress pbar n i batch uploaded answer :
  let evs := batch_events host show_progress pbar n i batch uploaded answer in
  uploads evs = [] /\ upload_modes evs = [] /\ import_summary evs = []
  /\ Forall import_loop_event evs.
Proof.
  unfold batch_events.
  destruct answer as [results | e];
    [destruct (bar_on host pbar); [| destruct show_progress] |].
  all: simpl; repeat split; repeat constructor.
Qed.

(** Two runs of the batch loop from the same counters make the same upload
    calls and end with the same counters, whatever the host and the
    progress display are. *)
Lemma import_loop_rel client batch_size merge_documents documents
      host show_progress pbar host' show_progress' pbar' :
  forall starts st t t',
  exists st' evs evs',
    for_each starts
             (import_batch client host batch_size show_progress
                           merge_documents documents pbar) st t
    = (Ok st', t ++ evs)
    /\ for_each starts
                (import_batch client host' batch_size show_progress'
                              merge_documents documents pbar') st t'
       = (Ok st', t' ++ evs')
    /\ uploads evs = uploads evs'
    /\ upload_modes evs = upload_modes evs'.
Proof.
  induction starts as [| i starts IH]; intros st t t'.
  - exists st, [], []. simpl. unfold ret. now rewrite !app_nil_r.
  - simpl for_each. unfold bind. rewrite !import_batch_trace.
    cbv zeta.
    set (batch := py_slice documents i (i + batch_size)).
    set (answer := upload_documents client (upload_calls st) batch
                                    (indexing_mode merge_documents)).
    match goal with
    | |- context [for_each starts _ ?s ?u] =>
        match goal with
        | |- context [for_each starts
                               (import_batch _ host' _ _ _ _ _) s ?u'] =>
            destruct (IH s u u') as (st' & evs & evs' & HA & HB & Hu & Hm)
        end
    end.
    rewrite HA, HB.
    destruct (batch_events_quiet host show_progress pbar (length documents)
                                 i batch (uploaded_count st) answer)
      as (Qu & Qm & _).
    destruct (batch_events_quiet host' show_progress' pbar'
                                 (length documents) i batch
                                 (uploaded_count st) answer)
      as (Qu' & Qm' & _).
    exists st'. eexists. eexists.
    split; [rewrite <- app_assoc; reflexivity |].
    split; [rewrite <- app_assoc; reflexivity |].
    rewrite !uploads_app, !upload_modes_app, !uploads_uploaded,
      !upload_modes_uploaded, Qu, Qu', Qm, Qm', Hu, Hm.
    split; reflexivity.
Qed.

Lemma import_loop_trace client host batch_size show_progress merge_documents
      documents pbar :
  forall starts st t,
  exists st' evs,
    for_each starts
             (import_batch client host batch_size show_progress
                           merge_documents documents pbar) st t
    = (Ok st', t ++ evs)
    /\ Forall import_loop_event evs
    /\ upload_modes evs
       = repeat (indexing_mode merge_documents) (length starts)
    /\ import_summary evs = []
    /\ uploaded_lines evs
       = (if bar_on host pbar then []
          else if show_progress
          then map (fun n => (n, length documents))
                   (positions (uploaded_count st)
                              (reported_successes (uploads evs)))
          else []).
Proof.
  induction starts as [| i starts IH]; intros st t.
  - exists st, []. simpl. unfold ret. rewrite app_nil_r.
    repeat split; auto.
    destruct (bar_on host pbar), show_progress; reflexivity.
  - simpl for_each. unfold bind. rewrite import_batch_trace. cbv zeta.
    set (batch := py_slice documents i (i + batch_size)).
    set (answer := upload_documents client (upload_calls st) batch
                                    (indexing_mode merge_documents)).
    match goal with
    | |- context [for_each starts _ ?s ?u] =>
        destruct (IH s u) as (st' & evs & Hrun & Hev & Hm & Hs & Hl)
    end.
    rewrite Hrun. cbn [uploaded_count] in Hl.
    destruct (batch_events_quiet host show_progress pbar (length documents)
                                 i batch (uploaded_count st) answer)
      as (Qu & Qm & Qs & Qe).
    exists st'. eexists.
    split; [rewrite <- app_assoc; reflexivity |].
    split; [apply Forall_app; split; [constructor; [exact I | exact Qe] |
                                      exact Hev] |].
    split.
    { rewrite upload_modes_app, upload_modes_uploaded, Qm, Hm. reflexivity. }
    split.
    { rewrite import_summary_app, Hs, app_nil_r. exact Qs. }
    rewrite uploaded_lines_app, uploads_app, uploads_uploaded, Qu, Hl.
    unfold batch_events, reported_successes.
    destruct answer as [results | e]; cbn [succeeded_in] in *.
    + destruct (bar_on host pbar); [reflexivity |].
      destruct show_progress; reflexivity.
    + rewrite Nat.add_0_r.
      destruct (bar_on host pbar); [reflexivity |].
      destruct show_progress; reflexivity.
Qed.

(** Everything known about a run of the batch loop. *)
Lemma import_loop_facts client host batch_size show_progress merge_documents
      documents pbar starts st t :
  exists st' evs,
    for_each starts
             (import_batch client host batch_size show_progress
                           merge_documents documents pbar) st t
    = (Ok st', t ++ evs)
    /\ (map fst (uploads evs)
        = map (fun i => py_slice documents i (i + batch_size)) starts
        /\ Forall (answered client merge_documents) (uploads evs)
        /\ uploaded_count st'
           = uploaded_count st
             + total (fun u => succeeded_in (snd u)) (uploads evs)
        /\ failed_count st'
           = failed_count st
             + total (fun u => failed_in (fst u) (snd u)) (uploads evs)
        /\ bar_updates evs = flat_map (bar_step host pbar) (uploads evs)
        /\ written evs = [])
    /\ (Forall import_loop_event evs
        /\ upload_modes evs
           = repeat (indexing_mode merge_documents) (length starts)
        /\ import_summary evs = []
        /\ uploaded_lines evs
           = (if bar_on host pbar then []
              else if show_progress
              then map (fun n => (n, length documents))
                       (positions (uploaded_count st)
                                  (reported_successes (uploads evs)))
              else [])).
Proof.
  destruct (import_loop_run client host batch_size show_progress
                            merge_documents documents pbar starts st t)
    as (st1 & evs1 & Hrun1 & Hfacts1).
  destruct (import_loop_trace client host batch_size show_progress
                              merge_documents documents pbar starts st t)
    as (st2 & evs2 & Hrun2 & Hfacts2).
  rewrite Hrun1 in Hrun2. injection Hrun2 as <- Heq.
  apply app_inv_head in Heq. subst evs2.
  exists st1, evs1. auto.
Qed.

Lemma opening_silent host show_progress total :
  let evs := opening host show_progress total in
  uploads evs = [] /\ upload_modes evs = [] /\ import_summary evs = []
  /\ uploaded_lines evs = [] /\ exported_lines evs = []
  /\ ~ In BarClosed evs.
Proof.
  unfold opening. destruct show_progress, (tqdm_available host); simpl.
  all: repeat split; auto.
  all: intros H; repeat (destruct H as [H | H]; [discriminate |]); exact H.
Qed.

Lemma closing_silent host show_progress pbar :
  let evs := closing host show_progress pbar in
  uploads evs = [] /\ upload_modes evs = [] /\ import_summary evs = []
  /\ uploaded_lines evs = [] /\ exported_lines evs = [].
Proof.
  unfold closing. destruct (bar_on host pbar); [| destruct show_progress].
  all: simpl; repeat split; auto.
Qed.

(** X2: when the input file cannot be read or parsed, the run prints the
    error and returns 0 without counting, opening a bar or calling the
    service. *)
Theorem import_unreadable_input
        client host batch_size show_progress merge_documents e :
  input_file host = Error e ->
  import_json_to_search_index client host batch_size show_progress
                              merge_documents []
  = (Ok 0, [Printed MsgLoading; Printed (MsgImportError e)]).
Proof.
  intros Hfile. now rewrite import_unfold, Hfile.
Qed.

(** A completed batch loop: what the run returns and leaves in the trace. *)
Lemma import_completed client host batch_size show_progress merge_documents
      documents starts :
  input_file host = Value documents ->
  documents <> [] ->
  py_range 0 (Z.of_nat (length documents)) batch_size = Value starts ->
  let r := import_json_to_search_index client host batch_size show_progress
                                       merge_documents [] in
  let t := snd r in
  let us := uploads t in
  let u := total (fun a => succeeded_in (snd a)) us in
  let f := total (fun a => failed_in (fst a) (snd a)) us in
  let pbar := made_bar host show_progress (Z.of_nat (length documents)) in
  fst r = Ok u
  /\ map fst us
     = map (fun i => py_slice documents i (i + batch_size)) starts
  /\ Forall (answered client merge_documents) us
  /\ import_summary t = inl u :: (if 0 <? f then [inr f] else [])
  /\ upload_modes t = repeat (indexing_mode merge_documents) (length starts)
  /\ uploaded_lines t
     = (if bar_on host pbar then []
        else if show_progress
        then map (fun n => (n, length documents))
                 (positions 0 (reported_successes us))
        else [])
  /\ bar_updates t = flat_map (bar_step host pbar) us.
Proof.
  intros Hfile Hne Hrange. cbv zeta. rewrite import_unfold, Hfile.
  destruct documents as [| d ds]; [congruence | clear Hne].
  cbv zeta. set (documents := d :: ds) in *.
  set (total_docs := Z.of_nat (length documents)) in *.
  set (pbar := made_bar host show_progress total_docs).
  rewrite Hrange.
  destruct (opening_silent host show_progress total_docs)
    as (Ou & Om & Os & Ol & _).
  destruct (opening_quiet host show_progress total_docs) as (_ & _ & Ob & _).
  destruct (closing_silent host show_progress pbar) as (Cu & Cm & Cs & Cl & _).
  destruct (closing_quiet host show_progress pbar) as (_ & _ & Cb & _).
  match goal with
  | |- context [for_each ?a (import_batch ?c ?h ?b ?sp ?m ?ds ?pb) ?s ?u] =>
      destruct (import_loop_facts c h b sp m ds pb a s u)
        as (st' & evs & Hrun & (Hb & Ha & Hu & Hf & Hp & _)
            & (_ & Hm & Hs & Hl))
  end.
  rewrite Hrun. unfold import_finish. cbn [fst snd].
  cbn [uploaded_count failed_count first_batch Nat.add] in Hu, Hf, Hl.
  set (tail := Printed (MsgImportDone (uploaded_count st'))
                 :: (if 0 <? failed_count st'
                     then [Printed (MsgImportFailed (failed_count st'))]
                     else [])).
  assert (Tu : uploads tail = [] /\ upload_modes tail = []
               /\ uploaded_lines tail = [] /\ bar_updates tail = []
               /\ import_summary tail
                  = inl (uploaded_count st')
                      :: (if 0 <? failed_count st'
                          then [inr (failed_count st')] else [])).
  { unfold tail. destruct (0 <? failed_count st'); repeat split. }
  destruct Tu as (Tu & Tm & Tl & Tb & Ts). clearbody tail.
  rewrite !uploads_app, !upload_modes_app, !import_summary_app,
    !uploaded_lines_app, !bar_updates_app.
  rewrite Ou, Om, Os, Ol, Ob, Cu, Cm, Cs, Cl, Cb, Tu, Tm, Tl, Tb, Ts,
    Hm, Hs, Hl, Hp.
  simpl. rewrite !app_nil_r, <- Hu, <- Hf.
  repeat split; auto.
Qed.

Lemma py_range_nonzero (start stop step : Z) :
  step <> 0%Z -> exists starts, py_range start stop step = Value starts.
Proof.
  intros Hstep. unfold py_range.
  destruct (Z.eqb_spec step 0); [contradiction | eauto].
Qed.

Lemma chunks_of_range documents batch_size starts :
  py_range 0 (Z.of_nat (length documents)) batch_size = Value starts ->
  chunks documents batch_size
  = map (fun i => py_slice documents i (i + batch_size)) starts.
Proof.
  intros Hrange. unfold chunks. now rewrite Hrange.
Qed.

(** ** The upload calls, call by call *)

(** The batch loop calls the service once per start index, in order, and
    records the service's own answer to each call. *)
Lemma import_loop_calls client host batch_size show_progress merge_documents
      documents pbar :
  forall starts st t,
  exists st' evs,
    for_each starts
             (import_batch client host batch_size show_progress
                           merge_documents documents pbar) st t
    = (Ok st', t ++ evs)
    /\ uploads evs
       = submissions client (indexing_mode merge_documents) (upload_calls st)
                     (map (fun i => py_slice documents i (i + batch_size))
                          starts).
Proof.
  induction starts as [| i starts IH]; intros st t.
  - exists st, []. simpl. unfold ret. now rewrite app_nil_r.
  - simpl for_each. unfold bind. rewrite import_batch_trace. cbv zeta.
    set (batch := py_slice documents i (i + batch_size)).
    set (answer := upload_documents client (upload_calls st) batch
                                    (indexing_mode merge_documents)).
    match goal with
    | |- context [for_each starts _ ?s ?u] =>
        destruct (IH s u) as (st' & evs & Hrun & Hu)
    end.
    rewrite Hrun. cbn [upload_calls] in Hu.
    destruct (batch_events_quiet host show_progress pbar (length documents)
                                 i batch (uploaded_count st) answer)
      as (Qu & _).
    exists st'. eexists.
    split; [rewrite <- app_assoc; reflexivity |].
    rewrite uploads_app, uploads_uploaded, Qu, Hu. reflexivity.
Qed.

Lemma chunks_nil (batch_size : Z) : chunks [] batch_size = [].
Proof.
  unfold chunks, py_range. simpl length. simpl Z.of_nat.
  destruct (batch_size =? 0)%Z eqn:Hz; [reflexivity |].
  apply Z.eqb_neq in Hz.
  assert (Hlen : range_len 0 0 batch_size = 0).
  { unfold range_len. destruct (0 <? batch_size)%Z eqn:Hpos.
    - apply Z.ltb_lt in Hpos. rewrite Z.div_small by lia. reflexivity.
    - apply Z.ltb_ge in Hpos.
      replace (0 - 0 - batch_size - 1)%Z with (- batch_size - 1)%Z by lia.
      rewrite Z.div_small by lia. reflexivity. }
  rewrite Hlen. reflexivity.
Qed.

(** The upload calls of a whole run, and what the run returns. *)
Lemma import_submissions
      client host batch_size show_progress merge_documents :
  let r := import_json_to_search_index client host batch_size show_progress
                                       merge_documents [] in
  uploads (snd r)
  = submissions client (indexing_mode merge_documents) 0
                (chunks (loaded host) batch_size)
  /\ fst r = Ok (total (fun u => succeeded_in (snd u)) (uploads (snd r))).
Proof.
  cbv zeta. rewrite import_unfold. unfold loaded.
  destruct (input_file host) as [[| d ds] | e];
    [rewrite chunks_nil; split; reflexivity | |
     rewrite chunks_nil; split; reflexivity].
  cbv zeta. set (documents := d :: ds).
  set (total_docs := Z.of_nat (length documents)).
  set (pbar := made_bar host show_progress total_docs).
  destruct (opening_silent host show_progress total_docs) as (Ou & _).
  destruct (closing_silent host show_progress pbar) as (Cu & _).
  unfold chunks. fold total_docs.
  destruct (py_range 0 total_docs batch_size) as [starts | e].
  - match goal with
    | |- context [for_each ?a (import_batch ?c ?h ?b ?sp ?m ?ds ?pb) ?s ?u] =>
        destruct (import_loop_facts c h b sp m ds pb a s u)
          as (st' & evs & Hrun & (_ & _ & Hu & _) & _);
        destruct (import_loop_calls c h b sp m ds pb a s u)
          as (st2 & evs2 & Hrun2 & Hcalls)
    end.
    rewrite Hrun in Hrun2. injection Hrun2 as <- Heq.
    apply app_inv_head in Heq. subst evs2.
    rewrite Hrun. unfold import_finish. cbn [fst snd].
    rewrite !uploads_app, Ou, Cu. cbn [upload_calls first_batch] in Hcalls.
    destruct (0 <? failed_count st'); simpl; rewrite app_nil_r.
    all: split; [exact Hcalls | now rewrite Hu].
  - cbn [fst snd]. rewrite !uploads_app, Ou. split; reflexivity.
Qed.

(** C1 (as amended): over a non-empty input and a positive batch size the
    run calls the service once on every chunk, in order, whatever the
    earlier calls did, and returns the succeeded total of the service's
    answers; a chunk whose call raised is counted as failed in its entirety
    ([failed_in]); the closing lines show the two totals; and when the
    service answers every returned call with one outcome per record, the
    succeeded and failed totals add up to the number of input records. *)
Theorem import_accounts_for_every_record
        client host batch_size show_progress merge_documents documents :
  input_file host = Value documents ->
  documents <> [] ->
  (0 < batch_size)%Z ->
  let r := import_json_to_search_index client host batch_size show_progress
                                       merge_documents [] in
  let t := snd r in
  let us := uploads t in
  let u := total (fun a => succeeded_in (snd a)) us in
  let f := total (fun a => failed_in (fst a) (snd a)) us in
  us = submissions client (indexing_mode merge_documents) 0
                   (chunks documents batch_size)
  /\ fst r = Ok u
  /\ import_summary t = inl u :: (if 0 <? f then [inr f] else [])
  /\ (aligned client -> u + f = length documents).
Proof.
  intros Hfile Hne Hb.
  pose proof (import_submissions client host batch_size show_progress
                                 merge_documents) as Hsub.
  pose proof (@import_completed client host batch_size show_progress
                                merge_documents documents _ Hfile Hne
                                (py_range_up _ Hb)) as Hdone.
  cbv zeta in *. unfold loaded in Hsub. rewrite Hfile in Hsub.
  destruct Hsub as [Hcalls _].
  destruct Hdone as (Hres & Hus & Hans & Hsum & _).
  split; [exact Hcalls |]. split; [exact Hres |]. split; [exact Hsum |].
  intros Hal. rewrite (accounted_total Hal Hans), Hus.
  rewrite <- (@chunks_of_range documents batch_size _ (py_range_up _ Hb)).
  now rewrite <- length_concat_total, chunks_concat.
Qed.

(** X1: for any input file, batch size, flags and service (every failure
    being an error of class [Exception], the only kind the model has), the
    run returns a number.  Its upload calls are exactly call [k] on the
    [k]-th chunk of the loaded documents, answered by the service, and the
    number returned is the count of records reported as succeeded in those
    answers. *)
Theorem import_returns_reported_successes
        client host batch_size show_progress merge_documents :
  let r := import_json_to_search_index client host batch_size show_progress
                                       merge_documents [] in
  let us := submissions client (indexing_mode merge_documents) 0
                        (chunks (loaded host) batch_size) in
  uploads (snd r) = us
  /\ fst r = Ok (total (fun u => succeeded_in (snd u)) us).
Proof.
  pose proof (import_submissions client host batch_size show_progress
                                 merge_documents) as H.
  cbv zeta in *. destruct H as [Hcalls Hres].
  split; [exact Hcalls |]. now rewrite <- Hcalls.
Qed.

Lemma all_calls_failed
      (us : list (list Record * result (list IndexingResult))) :
  Forall (fun u => exists e, snd u = Error e) us ->
  total (fun u => succeeded_in (snd u)) us = 0
  /\ total (fun u => failed_in (fst u) (snd u)) us
     = total (@length Record) (map fst us)
  /\ reported_successes us = []
  /\ forall host pbar, flat_map (bar_step host pbar) us = [].
Proof.
  induction 1 as [| [batch answer] us [e He] _ (IH1 & IH2 & IH3 & IH4)].
  - repeat split.
  - simpl in He. subst answer. unfold reported_successes in *. simpl.
    rewrite IH1, IH2, IH3. repeat split. intros host pbar.
    unfold bar_step at 1. simpl. apply IH4.
Qed.

(** X3: when every upload call raises, the run still submits every chunk,
    returns 0, reports the whole input as failed and never moves the
    progress bar. *)
Theorem import_all_calls_fail
        client host batch_size show_progress merge_documents documents :
  input_file host = Value documents ->
  documents <> [] ->
  (0 < batch_size)%Z ->
  (forall k batch mode, exists e,
      upload_documents client k batch mode = Error e) ->
  let r := import_json_to_search_index client host batch_size show_progress
                                       merge_documents [] in
  fst r = Ok 0
  /\ map fst (uploads (snd r)) = chunks documents batch_size
  /\ import_summary (snd r) = [inl 0; inr (length documents)]
  /\ bar_updates (snd r) = [].
Proof.
  intros Hfile Hne Hb Hfail.
  pose proof (@import_completed client host batch_size show_progress
                merge_documents documents _ Hfile Hne (py_range_up _ Hb))
    as H.
  cbv zeta in *. destruct H as (Hret & Hus & Hans & Hsum & _ & _ & Hbar).
  rewrite <- (@chunks_of_range documents batch_size _ (py_range_up _ Hb))
    in Hus.
  assert (Hall : Forall (fun u => exists e, snd u = Error e)
                        (uploads (snd (import_json_to_search_index
                           client host batch_size show_progress
                           merge_documents [])))).
  { eapply Forall_impl; [| exact Hans]. intros u [k Hk].
    destruct (Hfail k (fst u) (indexing_mode merge_documents)) as [e He].
    exists e. congruence. }
  destruct (all_calls_failed Hall) as (Hu & Hf & _ & Hb0).
  rewrite Hu in Hret, Hsum.
  rewrite Hf, Hus, <- length_concat_total, chunks_concat in Hsum
    by assumption.
  rewrite Hb0 in Hbar.
  repeat split; auto.
  rewrite Hsum.
  destruct documents as [| d ds]; [congruence | reflexivity].
Qed.

(** X4: a run that reaches the batch loop prints the completion line with
    the succeeded total exactly once and, after it, the failure line with
    the failed total exactly when that total is positive. *)
Theorem import_summary_lines
        client host batch_size show_progress merge_documents documents :
  input_file host = Value documents ->
  documents <> [] ->
  batch_size <> 0%Z ->
  let t := snd (import_json_to_search_index client host batch_size
                                            show_progress merge_documents [])
  in
  let u := total (fun a => succeeded_in (snd a)) (uploads t) in
  let f := total (fun a => failed_in (fst a) (snd a)) (uploads t) in
  import_summary t = inl u :: (if 0 <? f then [inr f] else []).
Proof.
  intros Hfile Hne Hb.
  destruct (py_range_nonzero 0 (Z.of_nat (length documents)) Hb)
    as [starts Hrange].
  pose proof (@import_completed client host batch_size show_progress
                merge_documents documents _ Hfile Hne Hrange) as H.
  cbv zeta in *. tauto.
Qed.

Lemma all_calls_accepted client merge_documents
      (us : list (list Record * result (list IndexingResult))) :
  aligned client ->
  (forall k batch mode, exists results,
      upload_documents client k batch mode = Value results
      /\ Forall (fun r => succeeded r = true) results) ->
  Forall (answered client merge_documents) us ->
  total (fun u => succeeded_in (snd u)) us
  = total (@length Record) (map fst us)
  /\ total (fun u => failed_in (fst u) (snd u)) us = 0.
Proof.
  intros Hal Hacc Hus.
  induction Hus as [| [batch answer] us [k Hk] _ [IH1 IH2]]; [split; auto |].
  simpl in Hk. simpl.
  destruct (Hacc k batch (indexing_mode merge_documents))
    as (results & Hres & Hall).
  rewrite Hres in Hk. subst answer. simpl.
  apply Hal in Hres.
  assert (Hfilter : filter succeeded results = results).
  { clear Hres. induction Hall as [| r rs Hr _ IH]; [reflexivity |].
    simpl. now rewrite Hr, IH. }
  rewrite Hfilter, IH1, IH2, Hres. split; lia.
Qed.

(** X5: when the service accepts every record, the run returns the number
    of input records and prints the completion line only. *)
Theorem import_all_accepted
        client host batch_size show_progress merge_documents documents :
  input_file host = Value documents ->
  documents <> [] ->
  (0 < batch_size)%Z ->
  aligned client ->
  (forall k batch mode, exists results,
      upload_documents client k batch mode = Value results
      /\ Forall (fun r => succeeded r = true) results) ->
  let r := import_json_to_search_index client host batch_size show_progress
                                       merge_documents [] in
  fst r = Ok (length documents)
  /\ import_summary (snd r) = [inl (length documents)].
Proof.
  intros Hfile Hne Hb Hal Hacc.
  pose proof (@import_completed client host batch_size show_progress
                merge_documents documents _ Hfile Hne (py_range_up _ Hb))
    as H.
  cbv zeta in *. destruct H as (Hret & Hus & Hans & Hsum & _).
  rewrite <- (@chunks_of_range documents batch_size _ (py_range_up _ Hb))
    in Hus.
  destruct (all_calls_accepted Hal Hacc Hans) as [Hu Hf].
  rewrite Hus, <- length_concat_total, chunks_concat in Hu by assumption.
  rewrite Hu in Hret, Hsum. rewrite Hf in Hsum. auto.
Qed.

(** X6: the write mode is chosen once for the run: every upload call
    carries ['mergeOrUpload'] when [merge_documents] is set and ['upload']
    otherwise. *)
Theorem import_uses_one_mode
        client host batch_size show_progress merge_documents :
  let t := snd (import_json_to_search_index client host batch_size
                                            show_progress merge_documents [])
  in
  upload_modes t
  = repeat (indexing_mode merge_documents) (length (uploads t)).
Proof.
  cbv zeta. rewrite import_unfold.
  destruct (input_file host) as [[| d ds] | e]; [reflexivity | | reflexivity].
  cbv zeta. set (documents := d :: ds).
  set (total_docs := Z.of_nat (length documents)).
  set (pbar := made_bar host show_progress total_docs).
  destruct (opening_silent host show_progress total_docs) as (Ou & Om & _).
  destruct (closing_silent host show_progress pbar) as (Cu & Cm & _).
  destruct (py_range 0 total_docs batch_size) as [starts | e].
  - match goal with
    | |- context [for_each ?a (import_batch ?c ?h ?b ?sp ?m ?ds ?pb) ?s ?u] =>
        destruct (import_loop_facts c h b sp m ds pb a s u)
          as (st' & evs & Hrun & (Hb & _) & (_ & Hm & _))
    end.
    rewrite Hrun. unfold import_finish. cbn [snd].
    apply (f_equal (@length _)) in Hb. rewrite !length_map in Hb.
    rewrite !uploads_app, !upload_modes_app, Ou, Om, Cu, Cm, Hm, <- Hb.
    destruct (0 <? failed_count st'); simpl; now rewrite !app_nil_r.
  - cbn [snd]. rewrite !uploads_app, !upload_modes_app, Ou, Om. reflexivity.
Qed.

(** X7: the progress display changes nothing else: two runs over the same
    input file, with any two settings of [show_progress] and on hosts with
    or without a progress bar, return the same number and make the same
    upload calls with the same answers. *)
Theorem import_display_independent
        client batch_size merge_documents
        host show_progress host' show_progress' :
  input_file host = input_file host' ->
  let r := import_json_to_search_index client host batch_size show_progress
                                       merge_documents [] in
  let r' := import_json_to_search_index client host' batch_size
                                        show_progress' merge_documents [] in
  fst r = fst r'
  /\ uploads (snd r) = uploads (snd r')
  /\ upload_modes (snd r) = upload_modes (snd r').
Proof.
  intros Hfile. cbv zeta. rewrite !import_unfold, <- Hfile.
  destruct (input_file host) as [[| d ds] | e]; [now repeat split | |
                                                 now repeat split].
  cbv zeta. set (documents := d :: ds).
  set (total_docs := Z.of_nat (length documents)).
  destruct (opening_silent host show_progress total_docs) as (Ou & Om & _).
  destruct (opening_silent host' show_progress' total_docs)
    as (Ou' & Om' & _).
  destruct (closing_silent host show_progress
                           (made_bar host show_progress total_docs))
    as (Cu & Cm & _).
  destruct (closing_silent host' show_progress'
                           (made_bar host' show_progress' total_docs))
    as (Cu' & Cm' & _).
  destruct (py_range 0 total_docs batch_size) as [starts | e].
  - match goal with
    | |- context [for_each starts (import_batch _ host _ _ _ _ ?pb) ?s ?u] =>
        match goal with
        | |- context [for_each starts (import_batch _ host' _ _ _ _ ?pb')
                               s ?u'] =>
            destruct (@import_loop_rel client batch_size merge_documents
                        documents host show_progress pb host' show_progress'
                        pb' starts s u u')
              as (st' & evs & evs' & HA & HB & Hu & Hm)
        end
    end.
    rewrite HA, HB. unfold import_finish. cbn [fst snd].
    split; [reflexivity |].
    rewrite !uploads_app, !upload_modes_app, Ou, Om, Ou', Om', Cu, Cm,
      Cu', Cm', Hu, Hm.
    destruct (0 <? failed_count st'); simpl; now rewrite !app_nil_r.
  - cbn [fst snd].
    rewrite !uploads_app, !upload_modes_app, Ou, Om, Ou', Om'.
    now repeat split.
Qed.

(** X8: without a usable progress bar, a run with [show_progress] prints a
    line after every upload call that came back, showing the running total
    of succeeded records out of the input size; a call that raised prints
    no such line. *)
Theorem import_fallback_progress
        client host batch_size merge_documents documents :
  input_file host = Value documents ->
  documents <> [] ->
  batch_size <> 0%Z ->
  bar_on host (made_bar host true (Z.of_nat (length documents))) = false ->
  let t := snd (import_json_to_search_index client host batch_size true
                                            merge_documents []) in
  uploaded_lines t
  = map (fun n => (n, length documents))
        (positions 0 (reported_successes (uploads t))).
Proof.
  intros Hfile Hne Hb Hbar.
  destruct (py_range_nonzero 0 (Z.of_nat (length documents)) Hb)
    as [starts Hrange].
  pose proof (@import_completed client host batch_size true
                merge_documents documents _ Hfile Hne Hrange) as H.
  cbv zeta in *. destruct H as (_ & _ & _ & _ & _ & Hlines & _).
  now rewrite Hbar in Hlines.
Qed.

(** X9: over a non-empty input the progress bar is closed exactly when the
    batch size is not zero and the bar is in use; with a batch size of zero
    a bar that was opened is left open. *)
Theorem import_bar_closed_iff
        client host batch_size show_progress merge_documents documents :
  input_file host = Value documents ->
  documents <> [] ->
  let t := snd (import_json_to_search_index client host batch_size
                                            show_progress merge_documents [])
  in
  let pbar := made_bar host show_progress (Z.of_nat (length documents)) in
  In BarClosed t <-> batch_size <> 0%Z /\ bar_on host pbar = true.
Proof.
  intros Hfile Hne. cbv zeta. rewrite import_unfold, Hfile.
  destruct documents as [| d ds]; [congruence | clear Hne].
  cbv zeta. set (documents := d :: ds) in *.
  set (total_docs := Z.of_nat (length documents)).
  set (pbar := made_bar host show_progress total_docs).
  destruct (opening_silent host show_progress total_docs)
    as (_ & _ & _ & _ & _ & Oc).
  destruct (Z.eq_dec batch_size 0) as [-> | Hb].
  - change (py_range 0 total_docs 0) with (@Error (list Z) zero_step).
    cbn [snd]. rewrite !in_app_iff. simpl.
    split; [| intros [H _]; congruence].
    intros [[[H | [H | []]] | H] | [H | []]]; try discriminate.
    contradiction.
  - destruct (py_range_nonzero 0 total_docs Hb) as [starts Hrange].
    rewrite Hrange.
    match goal with
    | |- context [for_each ?a (import_batch ?c ?h ?b ?sp ?m ?ds ?pb) ?s ?u] =>
        destruct (import_loop_facts c h b sp m ds pb a s u)
          as (st' & evs & Hrun & _ & (Hev & _))
    end.
    rewrite Hrun. unfold import_finish, closing. cbn [snd].
    assert (He : ~ In BarClosed evs).
    { intros Hin. rewrite Forall_forall in Hev. exact (Hev _ Hin). }
    rewrite !in_app_iff. simpl.
    destruct (bar_on host pbar); [| destruct show_progress];
      destruct (0 <? failed_count st'); simpl.
    all: split; [| intros [_ H]; try discriminate; auto 10].
    all: intros H; split; [assumption |].
    all: repeat (destruct H as [H | H]); try discriminate; try contradiction;
      auto.
Qed.

(** ** More on the paging loop *)

Lemma progress_silent host show_progress total_docs pbar docs page :
  let evs := progress_events host show_progress total_docs pbar docs page in
  Forall export_loop_event evs
  /\ exported_lines evs
     = (if bar_on host pbar then []
        else if show_progress then [(length docs, total_docs)] else []).
Proof.
  unfold progress_events.
  destruct (bar_on host pbar); [| destruct show_progress].
  all: simpl; split; repeat constructor.
Qed.

Lemma queries_searched q answer (t : trace) :
  queries (Searched q answer :: t) = (q, answer) :: queries t.
Proof.
  reflexivity.
Qed.

Lemma exported_lines_searched q answer (t : trace) :
  exported_lines (Searched q answer :: t) = exported_lines t.
Proof.
  reflexivity.
Qed.

Lemma export_loop_trace client host select_fields filter_expression top
      show_progress total_docs pbar :
  forall fuel st t,
  exists evs,
    let r := export_loop client host select_fields filter_expression top
                         show_progress fuel total_docs pbar st t in
    snd r = t ++ evs
    /\ Forall export_loop_event evs
    /\ Forall (fun qa =>
                 fst qa = page_query select_fields filter_expression
                                     (opt_skip (fst qa)))
              (queries evs)
    /\ exported_lines evs
       = (if bar_on host pbar then []
          else if show_progress
          then map (fun n => (n, total_docs))
                   (positions (length (all_docs st))
                              (map (@length Record)
                                   (filter (@nonempty Record) (pages evs))))
          else [])
    /\ (forall n st',
          top = Some n -> (0 < n)%Z ->
          length (all_docs st) < Z.to_nat n ->
          fst r = Ok st' ->
          length (all_docs st') <= Z.to_nat n).
Proof.
  induction fuel as [| fuel IH]; intros st t.
  - exists []. simpl. rewrite app_nil_r.
    repeat split; try constructor; try discriminate.
    destruct (bar_on host pbar), show_progress; reflexivity.
  - simpl export_loop. unfold bind at 1. rewrite export_page_run.
    set (q := page_query select_fields filter_expression (skip st)).
    assert (Hq : fst (q, search client (search_calls st) q)
                 = page_query select_fields filter_expression
                              (opt_skip (fst (q, search client
                                                        (search_calls st) q))))
      by reflexivity.
    destruct (search client (search_calls st) q) as [[| d p] | e] eqn:Hans.
    + exists [Searched q (Value [])]. unfold ret. cbn [fst snd].
      split; [reflexivity |].
      split; [repeat constructor |].
      split; [repeat constructor; exact Hq |].
      split; [destruct (bar_on host pbar), show_progress; reflexivity |].
      intros n st' _ _ Hlt [= <-]. cbn [all_docs]. lia.
    + set (page := d :: p) in *.
      assert (Hne : nonempty page = true) by reflexivity. clearbody page.
      destruct (progress_silent host show_progress total_docs pbar
                                (all_docs st ++ page) page)
        as (Pe & Pl).
      destruct (progress_quiet host show_progress total_docs pbar
                               (all_docs st ++ page) page)
        as (Pq & _).
      set (pe := progress_events host show_progress total_docs pbar
                                 (all_docs st ++ page) page) in *.
      clearbody pe.
      assert (Hbound : forall n,
                 top = Some n -> (0 < n)%Z ->
                 top_reached top (all_docs st ++ page) = false ->
                 length (all_docs st ++ page) < Z.to_nat n).
      { intros n Hn Hpos Hnot.
        destruct (Nat.lt_ge_cases (length (all_docs st ++ page))
                                  (Z.to_nat n)) as [Hlt | Hge];
          [assumption |].
        assert (top_reached top (all_docs st ++ page) = true);
          [| congruence].
        apply top_reached_spec; [rewrite Hn; simpl; lia |].
        exists n. auto. }
      unfold after_page.
      destruct (top_reached top (all_docs st ++ page)) eqn:Htop;
        [| destruct (length page <? page_size) eqn:Hshort].
      * exists (Searched q (Value page) :: pe). unfold ret. cbn [fst snd].
        split; [reflexivity |].
        split; [constructor; [exact I | exact Pe] |].
        split; [rewrite queries_searched, Pq; repeat constructor; exact Hq |].
        split.
        { rewrite exported_lines_searched, Pl. unfold pages.
          rewrite queries_searched, Pq. simpl. rewrite Hne. simpl.
          rewrite length_app.
          destruct (bar_on host pbar), show_progress; reflexivity. }
        intros n st' Hn Hpos _ [= <-]. cbn [all_docs].
        rewrite Hn. unfold truncate, py_slice_to.
        rewrite slice_bound_nonneg by lia. rewrite length_firstn. lia.
      * exists (Searched q (Value page) :: pe). unfold ret. cbn [fst snd].
        split; [reflexivity |].
        split; [constructor; [exact I | exact Pe] |].
        split; [rewrite queries_searched, Pq; repeat constructor; exact Hq |].
        split.
        { rewrite exported_lines_searched, Pl. unfold pages.
          rewrite queries_searched, Pq. simpl. rewrite Hne. simpl.
          rewrite length_app.
          destruct (bar_on host pbar), show_progress; reflexivity. }
        intros n st' Hn Hpos _ [= <-]. cbn [all_docs].
        specialize (Hbound n Hn Hpos eq_refl). lia.
      * match goal with
        | |- context [export_loop _ _ _ _ _ _ fuel _ _ ?s ?u] =>
            destruct (IH s u) as (evs & Ht & He & Hqs & Hl & Hb)
        end.
        cbv zeta in Ht, Hb. cbn [all_docs] in Hl, Hb.
        exists ((Searched q (Value page) :: pe) ++ evs).
        cbv zeta. rewrite Ht, <- app_assoc.
        split; [reflexivity |].
        split; [apply Forall_app; split;
                [constructor; [exact I | exact Pe] | exact He] |].
        split.
        { rewrite queries_app, queries_searched, Pq.
          constructor; [exact Hq | exact Hqs]. }
        split.
        { rewrite exported_lines_app, exported_lines_searched, Pl, Hl.
          unfold pages. rewrite queries_app, queries_searched, Pq.
          simpl. rewrite Hne. simpl. rewrite length_app.
          destruct (bar_on host pbar), show_progress; reflexivity. }
        intros n st' Hn Hpos _ Hok.
        apply (Hb n st' Hn Hpos); [| exact Hok].
        apply Hbound; auto.
    + exists [Searched q (Error e)]. cbn [fst snd].
      split; [reflexivity |].
      split; [repeat constructor |].
      split; [repeat constructor; exact Hq |].
      split; [destruct (bar_on host pbar), show_progress; reflexivity |].
      discriminate.
Qed.

(** Two runs of the paging loop from the same state, against services that
    answer the page queries alike, make the same queries and end the same
    way, whatever the hosts, the progress displays and the displayed totals
    are. *)
Lemma export_loop_rel client client' select_fields filter_expression top
      host show_progress total_docs pbar
      host' show_progress' total_docs' pbar' :
  (forall c q, search client c q = search client' c q) ->
  forall fuel st t t',
  exists o evs evs',
    export_loop client host select_fields filter_expression top
                show_progress fuel total_docs pbar st t
    = (o, t ++ evs)
    /\ export_loop client' host' select_fields filter_expression top
                   show_progress' fuel total_docs' pbar' st t'
       = (o, t' ++ evs')
    /\ queries evs = queries evs'
    /\ written evs = [] /\ written evs' = [].
Proof.
  intros Hsame.
  induction fuel as [| fuel IH]; intros st t t'.
  - exists Diverge, [], []. simpl. unfold diverge. now rewrite !app_nil_r.
  - simpl export_loop. unfold bind. rewrite !export_page_run, <- Hsame.
    set (q := page_query select_fields filter_expression (skip st)).
    destruct (search client (search_calls st) q) as [[| d p] | e].
    + eexists. exists [Searched q (Value [])], [Searched q (Value [])].
      unfold ret. repeat split.
    + set (page := d :: p).
      destruct (progress_quiet host show_progress total_docs pbar
                               (all_docs st ++ page) page)
        as (Pq & Pw & _).
      destruct (progress_quiet host' show_progress' total_docs' pbar'
                               (all_docs st ++ page) page)
        as (Pq' & Pw' & _).
      destruct (after_page top st page) as [st1 | st1].
      * eexists. eexists. eexists. unfold ret.
        split; [reflexivity |]. split; [reflexivity |].
        rewrite !queries_searched, Pq, Pq'. simpl. rewrite Pw, Pw'.
        repeat split.
      * destruct (IH st1
                     (t ++ Searched q (Value page)
                        :: progress_events host show_progress total_docs
                                           pbar (all_docs st ++ page) page)
                     (t' ++ Searched q (Value page)
                         :: progress_events host' show_progress' total_docs'
                                            pbar' (all_docs st ++ page) page))
          as (o & evs & evs' & HA & HB & Hq & Hw & Hw').
        rewrite HA, HB. exists o. eexists. eexists.
        split; [rewrite <- app_assoc; reflexivity |].
        split; [rewrite <- app_assoc; reflexivity |].
        rewrite !queries_app, !written_app, !queries_searched, Pq, Pq', Hq.
        simpl. rewrite Pw, Pw', Hw, Hw'. repeat split.
    + eexists. exists [Searched q (Error e)], [Searched q (Error e)].
      repeat split.
Qed.

(** Everything known about a run of the paging loop. *)
Lemma export_loop_facts client host select_fields filter_expression top
      show_progress total_docs pbar fuel st t :
  exists o evs,
    export_loop client host select_fields filter_expression top
                show_progress fuel total_docs pbar st t = (o, t ++ evs)
    /\ written evs = []
    /\ pages evs = received (queries evs)
    /\ (Exists transport_fault evs -> exists e, o = Raise e)
    /\ Forall export_loop_event evs
    /\ Forall (fun qa =>
                 fst qa = page_query select_fields filter_expression
                                     (opt_skip (fst qa)))
              (queries evs)
    /\ exported_lines evs
       = (if bar_on host pbar then []
          else if show_progress
          then map (fun n => (n, total_docs))
                   (positions (length (all_docs st))
                              (map (@length Record)
                                   (filter (@nonempty Record) (pages evs))))
          else [])
    /\ (forall n st',
          top = Some n -> (0 < n)%Z ->
          length (all_docs st) < Z.to_nat n ->
          o = Ok st' ->
          length (all_docs st') <= Z.to_nat n).
Proof.
  destruct (export_loop_run client host select_fields filter_expression top
                            show_progress total_docs pbar fuel st t)
    as (evs1 & Ht1 & Hw & _ & _ & _ & _ & Hfault & _).
  destruct (export_loop_trace client host select_fields filter_expression
                              top show_progress total_docs pbar fuel st t)
    as (evs2 & Ht2 & He & Hq & Hl & Hb).
  cbv zeta in *. rewrite Ht1 in Ht2. apply app_inv_head in Ht2. subst evs2.
  destruct (export_loop _ _ _ _ _ _ _ _ _ _ _) as [o t1].
  cbn [fst snd] in *. subst t1.
  exists o, evs1. repeat split; auto.
Qed.

(** ** More on the export run *)

(** X10: with a positive [top], no snapshot of more than [top] records is
    ever written, whatever the service answers (pages larger than asked
    for included). *)
Theorem export_never_exceeds_top
        client host select_fields filter_expression show_progress fuel
        (n : Z) :
  (0 < n)%Z ->
  let r := export_search_index_to_json client host select_fields
                                       filter_expression (Some n)
                                       show_progress fuel [] in
  (forall docs, In docs (written (snd r)) -> length docs <= Z.to_nat n)
  /\ (forall k, fst r = Ok k -> k <= Z.to_nat n).
Proof.
  intros Hpos. cbv zeta. rewrite export_unfold.
  destruct (get_count client) as [count | e].
  2:{ cbn [fst snd]. split; [intros docs [] |]. intros k [= <-]. lia. }
  cbv zeta.
  set (total := displayed_total (Some n) count).
  set (pbar := made_bar host show_progress total).
  destruct (opening_quiet host show_progress total) as (_ & Ow & _).
  destruct (closing_quiet host show_progress pbar) as (_ & Cw & _).
  match goal with
  | |- context [export_loop ?c ?h ?s ?f ?tp ?sp ?fu ?td ?pb ?st ?u] =>
      destruct (export_loop_facts c h s f tp sp td pb fu st u)
        as (o & evs & Hrun & Hw & _ & _ & _ & _ & _ & Hb)
  end.
  rewrite Hrun. unfold export_finish.
  destruct o as [st' | e |]; cbn [fst snd].
  - assert (Hlen : length (all_docs st') <= Z.to_nat n)
      by (apply (Hb n st' eq_refl Hpos); [simpl; lia | reflexivity]).
    destruct (output_writable host) as [[] | e]; cbn [fst snd].
    + rewrite !written_app, Ow, Hw, Cw. simpl.
      split; [intros docs [<- | []]; exact Hlen | intros k [= <-]; exact Hlen].
    + rewrite !written_app, Ow, Hw, Cw. simpl.
      split; [intros docs [] | intros k [= <-]; lia].
  - rewrite !written_app, Ow, Hw. simpl.
    split; [intros docs [] | intros k [= <-]; lia].
  - rewrite !written_app, Ow, Hw. simpl.
    split; [intros docs [] | discriminate].
Qed.

(** The three ways an export run can end, read off its result and its
    printed lines. *)
Lemma export_endings
      client host select_fields filter_expression top show_progress fuel :
  let r := export_search_index_to_json client host select_fields
                                       filter_expression top show_progress
                                       fuel [] in
  let t := snd r in
  (exists docs,
      fst r = Ok (length docs) /\ written t = [docs]
      /\ In (Printed (MsgExportDone (length docs))) t
      /\ (forall k, In (Printed (MsgExportDone k)) t -> k = length docs)
      /\ (forall e, ~ In (Printed (MsgExportError e)) t))
  \/ (fst r = Ok 0
      /\ (exists e, In (Printed (MsgExportError e)) t)
      /\ (forall k, ~ In (Printed (MsgExportDone k)) t))
  \/ (fst r = Diverge
      /\ (forall k, ~ In (Printed (MsgExportDone k)) t)
      /\ (forall e, ~ In (Printed (MsgExportError e)) t)).
Proof.
  cbv zeta. rewrite export_unfold.
  destruct (get_count client) as [count | e].
  2:{ right. left. cbn [fst snd]. repeat split.
      - exists e. simpl. auto.
      - intros k [H | [H | []]]; discriminate. }
  cbv zeta.
  set (total := displayed_total top count).
  set (pbar := made_bar host show_progress total).
  destruct (opening_quiet host show_progress total) as (_ & Ow & _).
  destruct (closing_quiet host show_progress pbar) as (_ & Cw & _).
  set (t0 := [Counted (Value count); Printed (MsgFound total)]
               ++ opening host show_progress total).
  assert (Hp0 : forall m, In (Printed m) t0 ->
                          m = MsgFound total \/ m = MsgNoTqdm).
  { unfold t0, opening. intros m.
    destruct show_progress, (tqdm_available host); simpl;
      intuition congruence. }
  assert (Hw0 : written t0 = []) by (unfold t0; now rewrite written_app, Ow).
  clearbody t0.
  assert (Hpc : forall m, In (Printed m) (closing host show_progress pbar) ->
                          m = MsgNewline).
  { unfold closing. intros m.
    destruct (bar_on host pbar); [| destruct show_progress]; simpl;
      intuition congruence. }
  destruct (export_loop_facts client host select_fields filter_expression
                              top show_progress total pbar fuel first_page t0)
    as (o & evs & Hrun & Hw & _ & _ & He & _).
  assert (Hpe : forall m, In (Printed m) evs ->
                          exists k tot, m = MsgExported k tot).
  { intros m Hin. rewrite Forall_forall in He. specialize (He _ Hin).
    destruct m; try contradiction. eauto. }
  rewrite Hrun. unfold export_finish.
  destruct o as [st' | e |]; cbn [fst snd].
  - destruct (output_writable host) as [[] | e]; cbn [fst snd].
    + left. exists (all_docs st').
      rewrite !written_app, Hw0, Hw, Cw. simpl.
      split; [reflexivity |]. split; [reflexivity |].
      split; [rewrite !in_app_iff; simpl; auto 10 |].
      split.
      * intros k. rewrite !in_app_iff. simpl.
        intros [[H | H] | [H | [H | [H | []]]]]; try discriminate.
        -- destruct (Hp0 _ H); discriminate.
        -- destruct (Hpe _ H) as (k' & tot & Hk); discriminate.
        -- specialize (Hpc _ H). discriminate.
        -- now injection H as <-.
      * intros e. rewrite !in_app_iff. simpl.
        intros [[H | H] | [H | [H | [H | []]]]]; try discriminate.
        -- destruct (Hp0 _ H); discriminate.
        -- destruct (Hpe _ H) as (k & tot & Hk); discriminate.
        -- specialize (Hpc _ H). discriminate.
    + right. left.
      split; [reflexivity |].
      split; [exists e; rewrite !in_app_iff; simpl; auto 10 |].
      intros k. rewrite !in_app_iff. simpl.
      intros [[H | H] | [H | [H | []]]]; try discriminate.
      * destruct (Hp0 _ H); discriminate.
      * destruct (Hpe _ H) as (k' & tot & Hk); discriminate.
      * specialize (Hpc _ H). discriminate.
  - right. left.
    split; [reflexivity |].
    split; [exists e; rewrite !in_app_iff; simpl; auto 10 |].
    intros k. rewrite !in_app_iff. simpl.
    intros [[H | H] | [H | []]]; try discriminate.
    * destruct (Hp0 _ H); discriminate.
    * destruct (Hpe _ H) as (k' & tot & Hk); discriminate.
  - right. right. split; [reflexivity |].
    split; [intros k | intros e']; rewrite in_app_iff.
    all: intros [H | H].
    all: try (destruct (Hp0 _ H); discriminate).
    all: destruct (Hpe _ H) as (k' & tot & Hk); discriminate.
Qed.

(** X11: what a return value and the closing lines mean.  A positive return
    value always stands for a completed write: exactly one snapshot was
    written, it has that many records, the success line was printed and no
    error line.  The success line with [k] is printed only by a run that
    returns [k] after writing a snapshot of [k] records, and a run that
    prints an error line returns 0 and prints no success line. *)
Theorem export_result_shape
        client host select_fields filter_expression top show_progress fuel :
  let r := export_search_index_to_json client host select_fields
                                       filter_expression top show_progress
                                       fuel [] in
  let t := snd r in
  (forall k,
      fst r = Ok (S k) ->
      exists docs,
        length docs = S k /\ written t = [docs]
        /\ In (Printed (MsgExportDone (S k))) t
        /\ (forall e, ~ In (Printed (MsgExportError e)) t))
  /\ (forall k,
        In (Printed (MsgExportDone k)) t ->
        fst r = Ok k
        /\ exists docs, length docs = k /\ written t = [docs])
  /\ (forall e,
        In (Printed (MsgExportError e)) t ->
        fst r = Ok 0 /\ forall k, ~ In (Printed (MsgExportDone k)) t).
Proof.
  pose proof (export_endings client host select_fields filter_expression top
                             show_progress fuel) as H.
  cbv zeta in *.
  destruct H as [(docs & Hres & Hw & Hdone & Honly & Hnoerr)
                | [(Hres & Herr & Hnodone) | (Hres & Hnodone & Hnoerr)]].
  - split; [| split].
    + intros k Hk. rewrite Hres in Hk. injection Hk as Hk.
      exists docs. rewrite <- Hk. auto.
    + intros k Hin. apply Honly in Hin. subst k.
      split; [exact Hres | now exists docs].
    + intros e Hin. now apply Hnoerr in Hin.
  - split; [| split].
    + intros k Hk. rewrite Hres in Hk. discriminate.
    + intros k Hin. now apply Hnodone in Hin.
    + intros e _. split; assumption.
  - split; [| split].
    + intros k Hk. rewrite Hres in Hk. discriminate.
    + intros k Hin. now apply Hnodone in Hin.
    + intros e Hin. now apply Hnoerr in Hin.
Qed.

Lemma export_loop_first_page client host select_fields filter_expression
      top show_progress total_docs pbar fuel st t :
  let q := page_query select_fields filter_expression (skip st) in
  export_loop client host select_fields filter_expression top show_progress
              (S fuel) total_docs pbar st t
  = match search client (search_calls st) q with
    | Error e => (Raise e, t ++ [Searched q (Error e)])
    | Value [] =>
        (Ok {| all_docs := all_docs st; skip := skip st;
               search_calls := S (search_calls st) |},
         t ++ [Searched q (Value [])])
    | Value (d :: p) =>
        let t' := t ++ Searched q (Value (d :: p))
                    :: progress_events host show_progress total_docs pbar
                                       (all_docs st ++ d :: p) (d :: p) in
        match after_page top st (d :: p) with
        | Break st' => (Ok st', t')
        | Continue st' =>
            export_loop client host select_fields filter_expression top
                        show_progress fuel total_docs pbar st' t'
        end
    end.
Proof.
  intros q. simpl export_loop. unfold bind. rewrite export_page_run. fold q.
  destruct (search client (search_calls st) q) as [[| d p] | e];
    try reflexivity.
  cbv zeta. destruct (after_page top st (d :: p)); reflexivity.
Qed.

(** ** The page queries, call by call *)

(** The paging loop opens with a query at the current offset, records the
    service's own answer to every query, and follows every full page that
    does not reach the bound with a query at the offset moved by the number
    of records of that page. *)
Lemma export_loop_queries client host select_fields filter_expression top
      show_progress total_docs pbar :
  forall fuel st t,
  exists evs,
    snd (export_loop client host select_fields filter_expression top
                     show_progress fuel total_docs pbar st t) = t ++ evs
    /\ (0 < fuel ->
        exists rest,
          queries evs
          = (page_query select_fields filter_expression (skip st),
             search client (search_calls st)
                    (page_query select_fields filter_expression (skip st)))
              :: rest)
    /\ (forall j q a,
          nth_error (queries evs) j = Some (q, a) ->
          a = search client (search_calls st + j) q)
    /\ (forall j q p,
          nth_error (queries evs) j = Some (q, Value p) ->
          page_size <= length p ->
          top_reached top (all_docs st ++ concat (firstn (S j) (pages evs)))
          = false ->
          S j < fuel ->
          nth_error (queries evs) (S j)
          = Some (page_query select_fields filter_expression
                             (opt_skip q + length p),
                  search client (search_calls st + S j)
                         (page_query select_fields filter_expression
                                     (opt_skip q + length p)))).
Proof.
  induction fuel as [| fuel IH]; intros st t.
  - exists []. simpl. rewrite app_nil_r.
    split; [reflexivity |]. split; [lia |].
    split; intros [| j]; discriminate.
  - rewrite export_loop_first_page. cbv zeta.
    set (q0 := page_query select_fields filter_expression (skip st)).
    destruct (search client (search_calls st) q0) as [[| d p0] | e] eqn:Hans.
    + exists [Searched q0 (Value [])]. cbn [snd queries].
      split; [reflexivity |]. split; [intros _; now exists [] |].
      split.
      * intros [| j] q a H; [| destruct j; discriminate].
        injection H as <- <-. now rewrite Nat.add_0_r.
      * intros [| j] q p H Hfull; [| destruct j; discriminate].
        injection H as <- <-. unfold page_size in Hfull. simpl in Hfull. lia.
    + set (page := d :: p0) in *.
      pose proof (progress_quiet host show_progress total_docs pbar
                                 (all_docs st ++ page) page) as HP.
      cbv zeta in HP. destruct HP as (Pq & _).
      set (pe := progress_events host show_progress total_docs pbar
                                 (all_docs st ++ page) page) in *.
      clearbody pe. unfold after_page.
      destruct (top_reached top (all_docs st ++ page)) eqn:Htop;
        [| destruct (length page <? page_size) eqn:Hshort].
      * exists (Searched q0 (Value page) :: pe). cbn [snd].
        assert (Hqs : queries (Searched q0 (Value page) :: pe)
                      = [(q0, Value page)]) by (simpl; now rewrite Pq).
        unfold pages. rewrite Hqs.
        split; [reflexivity |]. split; [intros _; now exists [] |].
        split.
        -- intros [| j] q a H; [| destruct j; discriminate].
           injection H as <- <-. now rewrite Nat.add_0_r.
        -- intros [| j] q p H _ Hnot; [| destruct j; discriminate].
           injection H as <- <-. cbn [received firstn concat] in Hnot.
           rewrite app_nil_r in Hnot. rewrite Hnot in Htop. discriminate.
      * exists (Searched q0 (Value page) :: pe). cbn [snd].
        assert (Hqs : queries (Searched q0 (Value page) :: pe)
                      = [(q0, Value page)]) by (simpl; now rewrite Pq).
        unfold pages. rewrite Hqs.
        split; [reflexivity |]. split; [intros _; now exists [] |].
        split.
        -- intros [| j] q a H; [| destruct j; discriminate].
           injection H as <- <-. now rewrite Nat.add_0_r.
        -- intros [| j] q p H Hfull; [| destruct j; discriminate].
           injection H as <- <-. apply Nat.ltb_lt in Hshort. lia.
      * match goal with
        | |- context [export_loop _ _ _ _ _ _ fuel _ _ ?s ?u] =>
            destruct (IH s u) as (evs & Ht & Hfirst & Hans' & Hnext)
        end.
        cbn [skip search_calls all_docs] in Hfirst, Hans', Hnext.
        exists ((Searched q0 (Value page) :: pe) ++ evs).
        rewrite Ht, <- app_assoc.
        assert (Hqs : queries ((Searched q0 (Value page) :: pe) ++ evs)
                      = (q0, Value page) :: queries evs)
          by (rewrite queries_app; simpl; now rewrite Pq).
        unfold pages in *. rewrite Hqs.
        split; [reflexivity |].
        split; [intros _; now exists (queries evs) |].
        split.
        -- intros [| j] q a H.
           ++ injection H as <- <-. now rewrite Nat.add_0_r.
           ++ simpl in H. rewrite (Hans' j q a H). f_equal. lia.
        -- intros [| j] q p H Hfull Hnot Hfuel.
           ++ injection H as <- <-.
              destruct Hfirst as [rest Hrest]; [lia |].
              rewrite Hrest. simpl. rewrite Nat.add_1_r. reflexivity.
           ++ simpl in H. cbn [received firstn concat] in Hnot.
              rewrite app_assoc in Hnot.
              replace (search_calls st + S (S j))
                with (S (search_calls st) + S j) by lia.
              simpl nth_error. apply Hnext; auto. lia.
    + exists [Searched q0 (Error e)]. cbn [snd queries].
      split; [reflexivity |]. split; [intros _; now exists [] |].
      split.
      * intros [| j] q a H; [| destruct j; discriminate].
        injection H as <- <-. now rewrite Nat.add_0_r.
      * intros [| j] q p H; [| destruct j; discriminate].
        discriminate.
Qed.

(** The page queries of a whole run. *)
Lemma export_queries client host select_fields filter_expression top
      show_progress fuel :
  let t := snd (export_search_index_to_json
                  client host select_fields filter_expression top
                  show_progress fuel []) in
  let query := page_query select_fields filter_expression in
  (forall count,
      get_count client = Value count -> 0 < fuel ->
      exists rest, queries t = (query 0, search client 0 (query 0)) :: rest)
  /\ (forall j q a,
        nth_error (queries t) j = Some (q, a) -> a = search client j q)
  /\ (forall j q p,
        nth_error (queries t) j = Some (q, Value p) ->
        page_size <= length p ->
        top_reached top (concat (firstn (S j) (pages t))) = false ->
        S j < fuel ->
        nth_error (queries t) (S j)
        = Some (query (opt_skip q + length p),
                search client (S j) (query (opt_skip q + length p)))).
Proof.
  cbv zeta. rewrite export_unfold.
  destruct (get_count client) as [count | e].
  2:{ simpl. split; [discriminate |].
      split; intros [| j]; discriminate. }
  cbv zeta.
  set (total := displayed_total top count).
  set (pbar := made_bar host show_progress total).
  destruct (opening_quiet host show_progress total) as (Oq & _).
  destruct (closing_quiet host show_progress pbar) as (Cq & _).
  set (t0 := [Counted (Value count); Printed (MsgFound total)]
               ++ opening host show_progress total).
  assert (Hq0 : queries t0 = []) by (unfold t0; now rewrite queries_app, Oq).
  clearbody t0.
  destruct (export_loop_queries client host select_fields filter_expression
                                top show_progress total pbar fuel first_page
                                t0)
    as (evs & Ht & Hfirst & Hans & Hnext).
  cbn [skip search_calls all_docs first_page Nat.add app] in Hfirst, Hans,
    Hnext.
  destruct (export_loop _ _ _ _ _ _ _ _ _ _ _) as [o t1].
  cbn [snd] in Ht. subst t1.
  match goal with
  | |- context [queries ?x] => set (tfin := x)
  end.
  assert (Hqs : queries tfin = queries evs).
  { unfold tfin, export_finish.
    destruct o as [st | e |];
      [destruct (output_writable host) as [[] | e] | |]; cbn [snd].
    all: rewrite ?queries_app, Hq0, ?Cq; simpl; now rewrite ?app_nil_r. }
  unfold pages. rewrite Hqs.
  split; [intros c _ Hfuel; exact (Hfirst Hfuel) |].
  split; [exact Hans | exact Hnext].
Qed.

(** C2: the run opens with a query at offset 0 and every query is answered
    by the service; a full page of [n] records that does not reach the
    bound is followed by a query at the offset moved by [n], the number of
    records actually returned, so every query asks for the offset reached by
    the records returned so far.  The pages fetched from a service that
    holds an ordered collection are therefore consecutive runs of it: put
    together they are a prefix of the collection with no record left out or
    repeated, and so is the snapshot written. *)
Theorem export_cursor_advances
        client host select_fields filter_expression top show_progress fuel :
  let t := snd (export_search_index_to_json
                  client host select_fields filter_expression top
                  show_progress fuel []) in
  let query := page_query select_fields filter_expression in
  cursor_ok 0 (queries t)
  /\ (forall count,
        get_count client = Value count -> 0 < fuel ->
        exists rest, queries t = (query 0, search client 0 (query 0)) :: rest)
  /\ (forall j q a,
        nth_error (queries t) j = Some (q, a) -> a = search client j q)
  /\ (forall j q p,
        nth_error (queries t) j = Some (q, Value p) ->
        page_size <= length p ->
        top_reached top (concat (firstn (S j) (pages t))) = false ->
        S j < fuel ->
        nth_error (queries t) (S j)
        = Some (query (opt_skip q + length p),
                search client (S j) (query (opt_skip q + length p))))
  /\ (forall docs, In docs (written t) ->
        exists m, docs = firstn m (concat (pages t)))
  /\ (forall coll,
        serves client coll ->
        concat (pages t) = firstn (length (concat (pages t))) coll
        /\ forall docs, In docs (written t) ->
             docs = firstn (length docs) coll).
Proof.
  pose proof (export_run client host select_fields filter_expression top
                         show_progress fuel) as H.
  pose proof (export_queries client host select_fields filter_expression top
                             show_progress fuel) as Q.
  cbv zeta in *. destruct H as (Hasked & Hcur & _ & _ & Hdocs).
  destruct Q as (Hfirst & Hans & Hnext).
  split; [exact Hcur |]. split; [exact Hfirst |].
  split; [exact Hans |]. split; [exact Hnext |].
  split; [intros docs Hin; now apply Hdocs |].
  intros coll Hserves.
  pose proof (pages_tile 0 Hserves Hasked Hcur) as Htile.
  simpl in Htile. fold (pages (snd (export_search_index_to_json
    client host select_fields filter_expression top show_progress fuel [])))
    in Htile.
  split; [exact Htile |].
  intros docs Hin. destruct (Hdocs docs Hin) as (_ & _ & [m Hm] & _).
  rewrite Htile, firstn_firstn in Hm.
  eapply firstn_own_length. eassumption.
Qed.

(** X12: a negative [top] is taken as a bound that is reached at once: the
    loop stops after the first non-empty page and the snapshot is that page
    without its last [-top] records (nothing when the page is that short). *)
Theorem export_negative_top
        client host select_fields filter_expression show_progress fuel
        (z : Z) count d p :
  (z < 0)%Z ->
  get_count client = Value count ->
  output_writable host = Value tt ->
  search client 0 (page_query select_fields filter_expression 0)
  = Value (d :: p) ->
  let page := d :: p in
  let kept := length page - Z.to_nat (- z) in
  let r := export_search_index_to_json client host select_fields
                                       filter_expression (Some z)
                                       show_progress (S fuel) [] in
  fst r = Ok kept
  /\ written (snd r) = [firstn kept page]
  /\ length (queries (snd r)) = 1.
Proof.
  intros Hz Hcount Hwritable Hans. cbv zeta.
  rewrite export_unfold, Hcount. cbv zeta.
  set (total := displayed_total (Some z) count).
  set (pbar := made_bar host show_progress total).
  destruct (opening_quiet host show_progress total) as (Oq & Ow & _).
  destruct (closing_quiet host show_progress pbar) as (Cq & Cw & _).
  set (t0 := [Counted (Value count); Printed (MsgFound total)]
               ++ opening host show_progress total).
  assert (Hq0 : queries t0 = []) by (unfold t0; now rewrite queries_app, Oq).
  assert (Hw0 : written t0 = []) by (unfold t0; now rewrite written_app, Ow).
  clearbody t0.
  rewrite export_loop_first_page. unfold first_page.
  cbn [skip search_calls all_docs]. rewrite Hans.
  set (page := d :: p).
  destruct (progress_quiet host show_progress total pbar ([] ++ page) page)
    as (Pq & Pw & _).
  unfold after_page. cbn [all_docs skip search_calls app].
  assert (Htop : top_reached (Some z) page = true).
  { unfold top_reached. apply andb_true_iff. split.
    - apply negb_true_iff, Z.eqb_neq. lia.
    - apply Z.leb_le. lia. }
  rewrite Htop. cbv zeta. unfold export_finish. rewrite Hwritable.
  cbn [fst snd all_docs]. unfold truncate, py_slice_to.
  assert (Hkept : slice_bound (length page) z
                  = length page - Z.to_nat (- z)).
  { unfold slice_bound. destruct (Z.ltb_spec z 0); lia. }
  rewrite Hkept, length_firstn.
  split; [f_equal; lia |].
  rewrite !written_app, !queries_app, Hw0, Hq0, Cw, Cq.
  cbn [app] in Pq, Pw.
  rewrite queries_searched, Pq.
  change (written (Searched (page_query select_fields filter_expression 0)
                            (Value page)
                     :: progress_events host show_progress total pbar
                                        page page))
    with (written (progress_events host show_progress total pbar page page)).
  rewrite Pw. simpl. auto.
Qed.

(** X13: when the first page comes back empty, the run writes an empty
    snapshot and returns 0 after a single page query, whatever [top] is:
    the result 0 of an empty export is the result of a failed one. *)
Theorem export_empty_collection
        client host select_fields filter_expression top show_progress fuel
        count :
  get_count client = Value count ->
  output_writable host = Value tt ->
  search client 0 (page_query select_fields filter_expression 0) = Value [] ->
  let r := export_search_index_to_json client host select_fields
                                       filter_expression top show_progress
                                       (S fuel) [] in
  fst r = Ok 0
  /\ written (snd r) = [[]]
  /\ length (queries (snd r)) = 1
  /\ bar_updates (snd r) = [].
Proof.
  intros Hcount Hwritable Hans. cbv zeta.
  rewrite export_unfold, Hcount. cbv zeta.
  set (total := displayed_total top count).
  set (pbar := made_bar host show_progress total).
  destruct (opening_quiet host show_progress total) as (Oq & Ow & Ob & _).
  destruct (closing_quiet host show_progress pbar) as (Cq & Cw & Cb & _).
  set (t0 := [Counted (Value count); Printed (MsgFound total)]
               ++ opening host show_progress total).
  assert (Hq0 : queries t0 = []) by (unfold t0; now rewrite queries_app, Oq).
  assert (Hw0 : written t0 = []) by (unfold t0; now rewrite written_app, Ow).
  assert (Hb0 : bar_updates t0 = [])
    by (unfold t0; now rewrite bar_updates_app, Ob).
  clearbody t0.
  rewrite export_loop_first_page. unfold first_page.
  cbn [skip search_calls all_docs]. rewrite Hans.
  unfold export_finish. rewrite Hwritable.
  cbn [fst snd all_docs].
  rewrite !written_app, !queries_app, !bar_updates_app, Hw0, Hq0, Hb0, Cw,
    Cq, Cb.
  simpl. auto.
Qed.

(** X14: from a service that returns full pages, a positive [top] gives
    the first [min(top, available)] records: the whole collection when
    [top] is larger than it. *)
Theorem export_honest_prefix
        client host select_fields filter_expression show_progress fuel
        coll count (n : Z) :
  honest client coll ->
  get_count client = Value count ->
  output_writable host = Value tt ->
  (0 < n)%Z ->
  Nat.min (Z.to_nat n) (length coll) < page_size * fuel ->
  let r := export_search_index_to_json client host select_fields
                                       filter_expression (Some n)
                                       show_progress fuel [] in
  fst r = Ok (Nat.min (Z.to_nat n) (length coll))
  /\ written (snd r) = [firstn (Z.to_nat n) coll].
Proof.
  intros Hhonest Hcount Hwritable Hpos Hfuel.
  assert (Hbound : export_bound (Some n) (length coll)
                   = Nat.min (Z.to_nat n) (length coll)).
  { unfold export_bound. destruct (Z.ltb_spec 0 n); [reflexivity | lia]. }
  pose proof (@export_honest client host select_fields filter_expression
                (Some n) show_progress fuel coll count Hhonest
                ltac:(simpl; lia) Hcount Hwritable
                ltac:(rewrite Hbound; exact Hfuel)) as H.
  cbv zeta in *. rewrite Hbound, firstn_min_length in H.
  rewrite length_firstn in H. exact H.
Qed.

(** X15: the count probe and the progress display are for show only: two
    runs against services that answer the page queries alike return the
    same result, make the same page queries and write the same snapshot,
    whatever the counts reported, the settings of [show_progress] and the
    progress bars of the hosts are. *)
Theorem export_display_independent
        client client' select_fields filter_expression top fuel
        host show_progress host' show_progress' count count' :
  (forall c q, search client c q = search client' c q) ->
  get_count client = Value count ->
  get_count client' = Value count' ->
  output_writable host = output_writable host' ->
  let r := export_search_index_to_json client host select_fields
                                       filter_expression top show_progress
                                       fuel [] in
  let r' := export_search_index_to_json client' host' select_fields
                                        filter_expression top show_progress'
                                        fuel [] in
  fst r = fst r'
  /\ queries (snd r) = queries (snd r')
  /\ written (snd r) = written (snd r').
Proof.
  intros Hsame Hcount Hcount' Hwritable. cbv zeta.
  rewrite !export_unfold, Hcount, Hcount'. cbv zeta.
  set (total := displayed_total top count).
  set (total' := displayed_total top count').
  set (pbar := made_bar host show_progress total).
  set (pbar' := made_bar host' show_progress' total').
  destruct (opening_quiet host show_progress total) as (Oq & Ow & _).
  destruct (opening_quiet host' show_progress' total') as (Oq' & Ow' & _).
  destruct (closing_quiet host show_progress pbar) as (Cq & Cw & _).
  destruct (closing_quiet host' show_progress' pbar') as (Cq' & Cw' & _).
  set (t0 := [Counted (Value count); Printed (MsgFound total)]
               ++ opening host show_progress total).
  set (t0' := [Counted (Value count'); Printed (MsgFound total')]
                ++ opening host' show_progress' total').
  assert (Hq0 : queries t0 = []) by (unfold t0; now rewrite queries_app, Oq).
  assert (Hw0 : written t0 = []) by (unfold t0; now rewrite written_app, Ow).
  assert (Hq0' : queries t0' = [])
    by (unfold t0'; now rewrite queries_app, Oq').
  assert (Hw0' : written t0' = [])
    by (unfold t0'; now rewrite written_app, Ow').
  clearbody t0 t0'.
  destruct (@export_loop_rel client client' select_fields filter_expression
              top host show_progress total pbar host' show_progress' total'
              pbar' Hsame fuel first_page t0 t0')
    as (o & evs & evs' & HA & HB & Hq & Hw & Hw').
  rewrite HA, HB. unfold export_finish. rewrite <- Hwritable.
  destruct o as [st' | e |]; [destruct (output_writable host) as [[] | e] | |].
  all: cbn [fst snd].
  all: rewrite !queries_app, !written_app, ?Hq0, ?Hq0', ?Hw0, ?Hw0', ?Cq,
    ?Cq', ?Cw, ?Cw', ?Hw, ?Hw', Hq.
  all: repeat split; reflexivity.
Qed.

(** X16: the progress bar is closed only after the paging loop has ended
    normally.  A run in which a transport call raised never closes it, also
    when it had been opened; a run that wrote a snapshot has closed a bar
    that is in use. *)
Theorem export_bar_closing
        client host select_fields filter_expression top show_progress fuel :
  let t := snd (export_search_index_to_json
                  client host select_fields filter_expression top
                  show_progress fuel []) in
  (Exists transport_fault t -> ~ In BarClosed t)
  /\ (forall count,
        get_count client = Value count ->
        let pbar := made_bar host show_progress (displayed_total top count) in
        (In BarClosed t -> bar_on host pbar = true)
        /\ (written t <> [] -> bar_on host pbar = true -> In BarClosed t)).
Proof.
  cbv zeta. rewrite export_unfold.
  destruct (get_count client) as [count | e].
  2:{ cbn [snd]. split; [| discriminate].
      intros _ [H | [H | []]]; discriminate. }
  cbv zeta.
  set (total := displayed_total top count).
  set (pbar := made_bar host show_progress total).
  destruct (opening_silent host show_progress total)
    as (_ & _ & _ & _ & _ & Oc).
  destruct (opening_quiet host show_progress total) as (_ & Ow & _ & Of).
  destruct (closing_quiet host show_progress pbar) as (_ & Cw & _ & Cf).
  set (t0 := [Counted (Value count); Printed (MsgFound total)]
               ++ opening host show_progress total).
  assert (Hc0 : ~ In BarClosed t0).
  { unfold t0. rewrite in_app_iff. simpl.
    intros [[H | [H | []]] | H]; try discriminate. contradiction. }
  assert (Hw0 : written t0 = []) by (unfold t0; now rewrite written_app, Ow).
  assert (Hf0 : ~ Exists transport_fault t0).
  { unfold t0. rewrite Exists_app, !Exists_cons, Exists_nil. simpl. tauto. }
  clearbody t0.
  destruct (export_loop_facts client host select_fields filter_expression
                              top show_progress total pbar fuel first_page t0)
    as (o & evs & Hrun & Hw & _ & Hfault & He & _).
  assert (Hce : ~ In BarClosed evs).
  { intros Hin. rewrite Forall_forall in He. exact (He _ Hin). }
  assert (Hclose : In BarClosed (closing host show_progress pbar)
                   <-> bar_on host pbar = true).
  { unfold closing. destruct (bar_on host pbar); [| destruct show_progress];
      simpl; intuition discriminate. }
  rewrite Hrun. unfold export_finish.
  destruct o as [st' | e |]; [destruct (output_writable host) as [[] | e] | |].
  all: cbn [snd].
  all: split; [| intros c [= <-]; fold total; fold pbar; split].
  all: rewrite ?Exists_app, ?Exists_cons, ?Exists_nil, ?in_app_iff,
    ?written_app, ?Hw0, ?Hw, ?Cw; simpl.
  all: try (intros Hex;
            assert (Hev : Exists transport_fault evs) by tauto;
            destruct (Hfault Hev) as [e' He']; discriminate).
  all: try (intros H; apply Hclose; intuition discriminate).
  all: try (intros H Hon; apply Hclose in Hon; tauto).
  all: try (intros H; intuition discriminate).
  all: try (intros H; congruence).
Qed.

(** X17: without a usable progress bar, an export with [show_progress]
    prints after every non-empty page a line with the number of records
    accumulated so far (before any truncation to [top]) out of the displayed
    total [min(count, top)]. *)
Theorem export_fallback_progress
        client host select_fields filter_expression top fuel count :
  get_count client = Value count ->
  bar_on host (made_bar host true (displayed_total top count)) = false ->
  let t := snd (export_search_index_to_json
                  client host select_fields filter_expression top true
                  fuel []) in
  exported_lines t
  = map (fun n => (n, displayed_total top count))
        (positions 0 (map (@length Record)
                          (filter (@nonempty Record) (pages t)))).
Proof.
  intros Hcount Hbar. cbv zeta. rewrite export_unfold, Hcount. cbv zeta.
  set (total := displayed_total top count) in *.
  set (pbar := made_bar host true total) in *.
  destruct (opening_silent host true total) as (_ & _ & _ & _ & Ol & _).
  destruct (opening_quiet host true total) as (Oq & _).
  destruct (closing_silent host true pbar) as (_ & _ & _ & _ & Cl).
  destruct (closing_quiet host true pbar) as (Cq & _).
  set (t0 := [Counted (Value count); Printed (MsgFound total)]
               ++ opening host true total).
  assert (Hq0 : queries t0 = []) by (unfold t0; now rewrite queries_app, Oq).
  assert (Hl0 : exported_lines t0 = [])
    by (unfold t0; now rewrite exported_lines_app, Ol).
  clearbody t0.
  destruct (export_loop_facts client host select_fields filter_expression
                              top true total pbar fuel first_page t0)
    as (o & evs & Hrun & _ & _ & _ & _ & _ & Hl & _).
  rewrite Hbar in Hl. cbn [all_docs first_page length] in Hl.
  rewrite Hrun. unfold export_finish, pages in *.
  destruct o as [st' | e |]; [destruct (output_writable host) as [[] | e] | |].
  all: cbn [snd].
  all: rewrite ?exported_lines_app, ?queries_app, ?Hl0, ?Hq0, ?Cl, ?Cq, Hl.
  all: simpl; rewrite ?app_nil_r; reflexivity.
Qed.

(** X18: every page query of a run carries the same options: the total
    count is asked for, the field selection and the filter are passed only
    when they are a non-empty list and a non-empty string, and the page
    size is 1000; the queries differ in their offset only. *)
Theorem export_query_options
        client host select_fields filter_expression top show_progress fuel :
  let t := snd (export_search_index_to_json
                  client host select_fields filter_expression top
                  show_progress fuel []) in
  Forall (fun qa =>
            fst qa
            = {| include_total_count := true;
                 opt_select := match select_fields with
                               | Some [] | None => None
                               | Some fields => Some fields
                               end;
                 opt_filter := match filter_expression with
                               | Some EmptyString | None => None
                               | Some expression => Some expression
                               end;
                 opt_top := 1000;
                 opt_skip := opt_skip (fst qa) |})
         (queries t).
Proof.
  cbv zeta. rewrite export_unfold.
  destruct (get_count client) as [count | e]; [| constructor].
  cbv zeta.
  set (total := displayed_total top count).
  set (pbar := made_bar host show_progress total).
  destruct (opening_quiet host show_progress total) as (Oq & _).
  destruct (closing_quiet host show_progress pbar) as (Cq & _).
  set (t0 := [Counted (Value count); Printed (MsgFound total)]
               ++ opening host show_progress total).
  assert (Hq0 : queries t0 = []) by (unfold t0; now rewrite queries_app, Oq).
  clearbody t0.
  destruct (export_loop_facts client host select_fields filter_expression
                              top show_progress total pbar fuel first_page t0)
    as (o & evs & Hrun & _ & _ & _ & _ & Hq & _).
  assert (Hopts : Forall (fun qa =>
            fst qa
            = {| include_total_count := true;
                 opt_select := match select_fields with
                               | Some [] | None => None
                               | Some fields => Some fields
                               end;
                 opt_filter := match filter_expression with
                               | Some EmptyString | None => None
                               | Some expression => Some expression
                               end;
                 opt_top := 1000;
                 opt_skip := opt_skip (fst qa) |})
         (queries evs)).
  { eapply Forall_impl; [| exact Hq]. intros qa Hqa. cbv beta in Hqa.
    rewrite Hqa at 1. unfold page_query. cbn [opt_skip].
    destruct select_fields as [[| f fs] |], filter_expression as [[| c s] |];
      reflexivity. }
  rewrite Hrun. unfold export_finish.
  destruct o as [st' | e |]; [destruct (output_writable host) as [[] | e] | |].
  all: cbn [snd]; rewrite ?queries_app, ?Hq0, ?Cq; simpl;
    rewrite ?app_nil_r; exact Hopts.
Qed.

(** ** Page count and round trip *)

Lemma honest_pages client coll
      (qs : list (search_options * result (list Record))) :
  honest client coll ->
  Forall (asked client) qs ->
  length (received qs) = length qs
  /\ Forall (fun p => length p <= page_size) (received qs).
Proof.
  intros Hhonest Hqs.
  induction Hqs as [| [q a] qs [Htop [c Hc]] _ [IHl IHp]]; [split; auto |].
  simpl in Htop, Hc. rewrite Hhonest in Hc. subst a. simpl.
  split; [now rewrite IHl |].
  constructor; [| exact IHp].
  rewrite length_firstn, Htop. lia.
Qed.

Lemma total_full_pages (ps : list (list Record)) :
  Forall (fun p => length p = page_size) ps ->
  total (@length Record) ps = page_size * length ps.
Proof.
  induction 1 as [| p ps Hp _ IH];
    [unfold total; cbn [fold_right length]; lia |].
  unfold total in *. cbn [fold_right length]. rewrite IH, Hp. lia.
Qed.

(** X19: from a service that returns full pages, an export without a bound
    makes one page query per started thousand of records and one more:
    [S / 1000 + 1] queries for [S] records, the last one answered by a short
    or empty page. *)
Theorem export_query_count
        client host select_fields filter_expression top show_progress fuel
        coll count :
  honest client coll ->
  truthy top = false ->
  get_count client = Value count ->
  output_writable host = Value tt ->
  length coll < page_size * fuel ->
  let t := snd (export_search_index_to_json
                  client host select_fields filter_expression top
                  show_progress fuel []) in
  length (queries t) = length coll / page_size + 1
  /\ map (@length Record) (pages t)
     = repeat page_size (length coll / page_size)
         ++ [length coll mod page_size].
Proof.
  intros Hhonest Htop Hcount Hwritable Hfuel.
  assert (Hnn : top_nonneg top).
  { unfold truthy in Htop. destruct top as [z |]; simpl; [| exact I].
    apply negb_false_iff, Z.eqb_eq in Htop. lia. }
  assert (Hbound : export_bound top (length coll) = length coll).
  { unfold export_bound, truthy in *. destruct top as [z |]; [| reflexivity].
    apply negb_false_iff, Z.eqb_eq in Htop. subst z. reflexivity. }
  pose proof (@export_honest client host select_fields filter_expression
                top show_progress fuel coll count Hhonest Hnn Hcount
                Hwritable ltac:(rewrite Hbound; exact Hfuel)) as H.
  pose proof (export_run client host select_fields filter_expression top
                         show_progress fuel) as R.
  cbv zeta in *. rewrite Hbound, firstn_all in H. destruct H as [_ Hwritten].
  destruct R as (Hasked & _ & Hfull & _ & Hdocs).
  destruct (Hdocs coll) as (_ & _ & _ & Hno).
  { rewrite Hwritten. now left. }
  destruct (Hno Htop) as (Hall & init & last & Hpages & Hlast).
  destruct (honest_pages Hhonest Hasked) as [Hlen Hsmall].
  fold (pages (snd (export_search_index_to_json
    client host select_fields filter_expression top show_progress fuel [])))
    in Hlen, Hsmall.
  rewrite Hpages in *. rewrite removelast_last in Hfull.
  apply Forall_app in Hsmall. destruct Hsmall as [Hsmall _].
  assert (Hexact : Forall (fun p => length p = page_size) init).
  { rewrite Forall_forall in *. intros p Hp.
    specialize (Hfull p Hp). specialize (Hsmall p Hp). lia. }
  assert (Hsize : length coll = page_size * length init + length last).
  { rewrite Hall, length_concat_total, total_app, total_full_pages
      by assumption.
    simpl. lia. }
  assert (Hps : page_size <> 0) by (unfold page_size; lia).
  assert (Hdiv : length coll / page_size = length init).
  { symmetry. apply (Nat.div_unique _ _ _ (length last)); assumption. }
  assert (Hmod : length coll mod page_size = length last).
  { symmetry. apply (Nat.mod_unique _ _ (length init)); assumption. }
  rewrite <- Hlen, length_app, Hdiv, Hmod. split; [reflexivity |].
  rewrite map_app. f_equal.
  clear - Hexact. induction Hexact as [| p ps Hp _ IH]; [reflexivity |].
  simpl. now rewrite Hp, IH.
Qed.

(** X20: export and import compose.  When a collection is exported without
    a bound from a service that returns full pages and the snapshot written
    is the input file of an import, the batches the import uploads are, put
    end to end, the collection in its original order, whatever the batch
    size and the target service are. *)
Theorem export_then_import
        source host select_fields filter_expression show_progress fuel
        coll count snapshot
        target host' batch_size show_progress' merge_documents :
  honest source coll ->
  get_count source = Value count ->
  output_writable host = Value tt ->
  length coll < page_size * fuel ->
  In snapshot (written (snd (export_search_index_to_json
                               source host select_fields filter_expression
                               None show_progress fuel []))) ->
  input_file host' = Value snapshot ->
  (0 < batch_size)%Z ->
  concat (map fst (uploads (snd (import_json_to_search_index
                                   target host' batch_size show_progress'
                                   merge_documents []))))
  = coll.
Proof.
  intros Hhonest Hcount Hwritable Hfuel Hin Hfile Hb.
  pose proof (@export_honest source host select_fields filter_expression
                None show_progress fuel coll count Hhonest I Hcount
                Hwritable Hfuel) as H.
  cbv zeta in H. cbn [export_bound] in H. rewrite firstn_all in H.
  destruct H as [_ Hwritten]. rewrite Hwritten in Hin.
  destruct Hin as [<- | []].
  destruct coll as [| d ds].
  - now rewrite import_unfold, Hfile.
  - pose proof (@import_completed target host' batch_size show_progress'
                  merge_documents (d :: ds) _ Hfile ltac:(discriminate)
                  (py_range_up _ Hb)) as H.
    cbv zeta in H. destruct H as (_ & Hus & _).
    rewrite Hus, <- (@chunks_of_range (d :: ds) batch_size _
                                      (py_range_up _ Hb)).
    now apply chunks_concat.
Qed.


(** ** Further instances *)

(** X2 at a host whose input file is missing. *)
Lemma import_unreadable_input_witness :
  import_json_to_search_index (store [] None) unreadable 1000 true false []
  = (Ok 0, [Printed MsgLoading;
            Printed (MsgImportError "No such file or directory"%string)]).
Proof.
  apply (@import_unreadable_input (store [] None) unreadable 1000 true false).
  reflexivity.
Defined.

(** X3 at five records in batches of two against a service that is down. *)
Lemma import_all_calls_fail_witness :
  let r := import_json_to_search_index down (machine (numbered 5))
                                       2 true false [] in
  fst r = Ok 0
  /\ map fst (uploads (snd r)) = chunks (numbered 5) 2
  /\ import_summary (snd r) = [inl 0; inr (length (numbered 5))]
  /\ bar_updates (snd r) = [].
Proof.
  apply (@import_all_calls_fail down (machine (numbered 5)) 2 true false
                                (numbered 5)).
  - reflexivity.
  - discriminate.
  - lia.
  - intros k batch mode. eexists. reflexivity.
Defined.

(** X4 at five records in batches of two, the second call raising. *)
Lemma import_summary_lines_witness :
  let t := snd (import_json_to_search_index (store [] (Some 1))
                                            (machine (numbered 5))
                                            2 true false []) in
  let u := total (fun a => succeeded_in (snd a)) (uploads t) in
  let f := total (fun a => failed_in (fst a) (snd a)) (uploads t) in
  import_summary t = inl u :: (if 0 <? f then [inr f] else []).
Proof.
  apply (@import_summary_lines (store [] (Some 1)) (machine (numbered 5))
                               2 true false (numbered 5)).
  - reflexivity.
  - discriminate.
  - discriminate.
Defined.

(** X5 at five records in batches of two. *)
Lemma import_all_accepted_witness :
  let r := import_json_to_search_index (store [] None) (machine (numbered 5))
                                       2 true false [] in
  fst r = Ok (length (numbered 5))
  /\ import_summary (snd r) = [inl (length (numbered 5))].
Proof.
  apply (@import_all_accepted (store [] None) (machine (numbered 5))
                              2 true false (numbered 5)).
  - reflexivity.
  - discriminate.
  - lia.
  - apply store_aligned.
  - intros k batch mode. exists (accepted batch). split; [reflexivity |].
    unfold accepted. induction batch; constructor; auto.
Defined.

(** X7 at a host with a bar showing progress and a host without one
    running silently. *)
Lemma import_display_independent_witness :
  let r := import_json_to_search_index (store [] (Some 1))
                                       (machine (numbered 5)) 2 true false []
  in
  let r' := import_json_to_search_index (store [] (Some 1))
                                        (bare (numbered 5)) 2 false false []
  in
  fst r = fst r'
  /\ uploads (snd r) = uploads (snd r')
  /\ upload_modes (snd r) = upload_modes (snd r').
Proof.
  apply (@import_display_independent (store [] (Some 1)) 2 false
           (machine (numbered 5)) true (bare (numbered 5)) false).
  reflexivity.
Defined.

(** X8 at a host without [tqdm]. *)
Lemma import_fallback_progress_witness :
  let t := snd (import_json_to_search_index (store [] (Some 1))
                                            (bare (numbered 5)) 2 true false
                                            []) in
  uploaded_lines t
  = map (fun n => (n, length (numbered 5)))
        (positions 0 (reported_successes (uploads t))).
Proof.
  apply (@import_fallback_progress (store [] (Some 1)) (bare (numbered 5))
                                   2 false (numbered 5)).
  - reflexivity.
  - discriminate.
  - discriminate.
  - reflexivity.
Defined.

(** X9 at a batch size of zero on a host with a bar. *)
Lemma import_bar_closed_iff_witness :
  let t := snd (import_json_to_search_index (store [] None)
                                            (machine (numbered 5)) 0 true
                                            false []) in
  let pbar := made_bar (machine (numbered 5)) true
                       (Z.of_nat (length (numbered 5))) in
  In BarClosed t <-> 0%Z <> 0%Z /\ bar_on (machine (numbered 5)) pbar = true.
Proof.
  apply (@import_bar_closed_iff (store [] None) (machine (numbered 5)) 0 true
                                false (numbered 5)).
  - reflexivity.
  - discriminate.
Defined.

(** X10 at [top = 3] against a service that answers with five records. *)
Lemma export_never_exceeds_top_witness :
  let r := export_search_index_to_json
             (scripted (Value 5%Z) [Value (numbered 5)]) (machine [])
             None None (Some 3%Z) true 2 [] in
  (forall docs, In docs (written (snd r)) -> length docs <= Z.to_nat 3)
  /\ (forall k, fst r = Ok k -> k <= Z.to_nat 3).
Proof.
  apply (@export_never_exceeds_top
           (scripted (Value 5%Z) [Value (numbered 5)]) (machine [])
           None None true 2 3).
  lia.
Defined.

(** X12 at [top = -2] against a service holding five records. *)
Lemma export_negative_top_witness :
  let page := doc 0 :: map doc (seq 1 4) in
  let kept := length page - Z.to_nat (- (-2)) in
  let r := export_search_index_to_json (store (numbered 5) None) (machine [])
                                       None None (Some (-2)%Z) true 1 [] in
  fst r = Ok kept
  /\ written (snd r) = [firstn kept page]
  /\ length (queries (snd r)) = 1.
Proof.
  apply (@export_negative_top (store (numbered 5) None) (machine [])
                              None None true 0 (-2) 5 (doc 0)
                              (map doc (seq 1 4))).
  - lia.
  - reflexivity.
  - reflexivity.
  - reflexivity.
Defined.

(** X13 at a service holding nothing. *)
Lemma export_empty_collection_witness :
  let r := export_search_index_to_json (store [] None) (machine [])
                                       None None (Some 10%Z) true 1 [] in
  fst r = Ok 0
  /\ written (snd r) = [[]]
  /\ length (queries (snd r)) = 1
  /\ bar_updates (snd r) = [].
Proof.
  apply (@export_empty_collection (store [] None) (machine [])
                                  None None (Some 10%Z) true 0 0).
  - reflexivity.
  - reflexivity.
  - reflexivity.
Defined.

(** X14 at [top = 10] over seven records. *)
Lemma export_honest_prefix_witness :
  let r := export_search_index_to_json (store (numbered 7) None) (machine [])
                                       None None (Some 10%Z) true 1 [] in
  fst r = Ok (Nat.min (Z.to_nat 10) (length (numbered 7)))
  /\ written (snd r) = [firstn (Z.to_nat 10) (numbered 7)].
Proof.
  apply (@export_honest_prefix (store (numbered 7) None) (machine [])
                               None None true 1 (numbered 7) 7 10).
  - apply store_honest.
  - reflexivity.
  - reflexivity.
  - lia.
  - unfold page_size. simpl. lia.
Defined.

(** X15 at a service reporting 7 records shown on a bar and the same
    service reporting none, run silently on a host without a bar. *)
Lemma export_display_independent_witness :
  let r := export_search_index_to_json (store (numbered 7) None) (machine [])
                                       None None None true 2 [] in
  let r' := export_search_index_to_json
              (recount (store (numbered 7) None) 0) (bare []) None None None
              false 2 [] in
  fst r = fst r'
  /\ queries (snd r) = queries (snd r')
  /\ written (snd r) = written (snd r').
Proof.
  apply (@export_display_independent
           (store (numbered 7) None) (recount (store (numbered 7) None) 0)
           None None None 2 (machine []) true (bare []) false 7 0).
  - reflexivity.
  - reflexivity.
  - reflexivity.
  - reflexivity.
Defined.

(** X17 at a host without [tqdm]. *)
Lemma export_fallback_progress_witness :
  let t := snd (export_search_index_to_json
                  (store (numbered 7) None) (bare []) None None None true
                  2 []) in
  exported_lines t
  = map (fun n => (n, displayed_total None 7))
        (positions 0 (map (@length Record)
                          (filter (@nonempty Record) (pages t)))).
Proof.
  apply (@export_fallback_progress (store (numbered 7) None) (bare [])
                                   None None None 2 7).
  - reflexivity.
  - reflexivity.
Defined.

(** X19 at a service holding 2000 records. *)
Lemma export_query_count_witness :
  let t := snd (export_search_index_to_json
                  (store (numbered 2000) None) (machine []) None None None
                  true 3 []) in
  length (queries t) = length (numbered 2000) / page_size + 1
  /\ map (@length Record) (pages t)
     = repeat page_size (length (numbered 2000) / page_size)
         ++ [length (numbered 2000) mod page_size].
Proof.
  apply (@export_query_count (store (numbered 2000) None) (machine [])
                             None None None true 3 (numbered 2000) 2000).
  - apply store_honest.
  - reflexivity.
  - reflexivity.
  - reflexivity.
  - apply Nat.ltb_lt. vm_compute. reflexivity.
Defined.

(** X20 at seven records exported and imported again in batches of three. *)
Lemma export_then_import_witness :
  concat (map fst (uploads (snd (import_json_to_search_index
                                   (store [] (Some 1)) (bare (numbered 7))
                                   3 false true []))))
  = numbered 7.
Proof.
  apply (@export_then_import
           (store (numbered 7) None) (machine []) None None true 2
           (numbered 7) 7 (numbered 7)
           (store [] (Some 1)) (bare (numbered 7)) 3 false true).
  - apply store_honest.
  - reflexivity.
  - reflexivity.
  - unfold page_size. simpl. lia.
  - vm_compute. left. reflexivity.
  - reflexivity.
  - lia.
Defined.

(** ** Instances of the call-by-call statements *)

(** C1 as stated fails against a service that answers an upload of three
    records with a single outcome: the one call is made and comes back, the
    run returns 1 and counts no failure, and 1 + 0 is not 3. *)
Lemma import_totals_miss_records :
  let r := import_json_to_search_index terse (machine (numbered 3))
                                       3 true false [] in
  let us := uploads (snd r) in
  let u := total (fun a => succeeded_in (snd a)) us in
  let f := total (fun a => failed_in (fst a) (snd a)) us in
  length (numbered 3) = 3
  /\ us = [(numbered 3, upload_documents terse 0 (numbered 3) upload)]
  /\ length (filter succeeded (accepted [doc 0])) = 1
  /\ upload_documents terse 0 (numbered 3) upload = Value (accepted [doc 0])
  /\ fst r = Ok u
  /\ u = 1
  /\ f = 0
  /\ import_summary (snd r) = [inl 1]
  /\ u + f <> length (numbered 3).
Proof.
  vm_compute. repeat split; try reflexivity. discriminate.
Qed.

(** C1 as amended, at five records in batches of two, the second upload
    call raising: three calls are made, 3 records succeed, 2 fail. *)
Lemma import_accounts_for_every_record_witness :
  let client := store [] (Some 1) in
  let r := import_json_to_search_index client (machine (numbered 5))
                                       2 true false [] in
  let t := snd r in
  let us := uploads t in
  let u := total (fun a => succeeded_in (snd a)) us in
  let f := total (fun a => failed_in (fst a) (snd a)) us in
  (us = submissions client (indexing_mode false) 0 (chunks (numbered 5) 2)
   /\ fst r = Ok u
   /\ import_summary t = inl u :: (if 0 <? f then [inr f] else [])
   /\ u + f = length (numbered 5))
  /\ length us = 3
  /\ u = 3
  /\ f = 2
  /\ import_summary t = [inl 3; inr 2].
Proof.
  cbv zeta. split.
  - pose proof (@import_accounts_for_every_record
                  (store [] (Some 1)) (machine (numbered 5)) 2 true false
                  (numbered 5) eq_refl) as H.
    cbv zeta in H. destruct H as (Hcalls & Hres & Hsum & Hadd).
    + discriminate.
    + lia.
    + split; [exact Hcalls |]. split; [exact Hres |].
      split; [exact Hsum |]. apply Hadd, store_aligned.
  - vm_compute. repeat split; reflexivity.
Defined.

(** C2 at a service whose first page has 1500 records, more than asked for
    (the second query asks for offset 1500), and at a service holding 2500
    records (queries at 0, 1000 and 2000). *)
Lemma export_cursor_advances_witness :
  (let client := scripted (Value 1503%Z)
                          [Value (numbered 1500); Value (numbered 3)] in
   let t := snd (export_search_index_to_json
                   client (machine []) None None None true 5 []) in
   let query := page_query None None in
   (exists rest, queries t = (query 0, search client 0 (query 0)) :: rest)
   /\ nth_error (queries t) 0 = Some (query 0, Value (numbered 1500))
   /\ nth_error (queries t) 1
      = Some (query (opt_skip (query 0) + length (numbered 1500)),
              search client 1
                     (query (opt_skip (query 0) + length (numbered 1500))))
   /\ map (fun qa => opt_skip (fst qa)) (queries t) = [0; 1500])
  /\ (let client := store (numbered 2500) None in
      let t := snd (export_search_index_to_json
                      client (machine []) None None None true 5 []) in
      cursor_ok 0 (queries t)
      /\ map (fun qa => opt_skip (fst qa)) (queries t) = [0; 1000; 2000]
      /\ concat (pages t) = firstn (length (concat (pages t))) (numbered 2500)
      /\ forall docs, In docs (written t) ->
           docs = firstn (length docs) (numbered 2500)).
Proof.
  cbv zeta. split.
  - destruct (export_cursor_advances
                (scripted (Value 1503%Z)
                          [Value (numbered 1500); Value (numbered 3)])
                (machine []) None None None true 5)
      as (_ & Hfirst & _ & Hnext & _).
    split; [apply (Hfirst 1503%Z); [reflexivity | lia] |].
    split; [vm_compute; reflexivity |].
    split; [| vm_compute; reflexivity].
    apply (Hnext 0 (page_query None None 0) (numbered 1500)).
    + vm_compute. reflexivity.
    + unfold page_size, numbered. rewrite length_map, length_seq. lia.
    + vm_compute. reflexivity.
    + lia.
  - destruct (export_cursor_advances
                (store (numbered 2500) None) (machine []) None None None
                true 5)
      as (Hcur & _ & _ & _ & _ & Hcoll).
    split; [exact Hcur |]. split; [vm_compute; reflexivity |].
    apply Hcoll, honest_serves, store_honest.
Defined.
